(* ===== verification/_CoqProject ===== *)
-Q . S2P
Prelude.v
PyFloat.v
PyBuiltins.v
DateTime.v
Stock.v
Trade.v
Metrics.v
Gbce.v
Main.v
Events.v
Session.v
Output.v
