(* ===== verification/Prelude.v ===== *)
(** * A verification development of SimpleTradingSimulator

    The program is one Python file, [src/Trading_sim.py].  It models stocks
    and trades of a small stock market and derives three metrics from them:
    the dividend yield of a stock at a price, the volume weighted price of
    the trades of the last five minutes, and the GBCE all share index, the
    geometric mean of the volume weighted prices of the stocks that traded.
    A command loop reads lines such as [buy TEA 5 1.2], dispatches them to
    these functions and prints the results.

    ** Parts of the program and how they interact

    - The Python runtime the code relies on: exceptions, [datetime.now],
      [int()] and [float()] of strings, [str.lower], [str.startswith],
      float arithmetic and comparisons, [statistics.geometric_mean].
    - Stocks ([class Stock], lines 15-40): a constructor that validates and
      coerces its fields; the fixed catalogue of five stocks, a dict keyed
      by symbol (lines 165-173); [validate_symbol] (lines 145-147).
    - Trades ([class Trade], lines 43-66; [buy], [sell]): a constructor that
      reads the clock, coerces quantity and price and validates them; the
      ledger is the module-level list [trades], appended to by the loop.
    - Metrics: [calc_div_yield], [calc_ratio], [calc_volume_weighted_price]
      (lines 80-108) read stocks and the ledger; [gbce] (lines 111-122)
      calls [calc_volume_weighted_price] once per stock, swallows its
      "no trading activity" error by testing the message text, and takes
      the geometric mean of what is left.
    - The command loop (lines 150-224) owns the two collections, calls all
      of the above and catches [ValueError] and [TypeError]; any other
      exception ends the program.

    ** Files, and how they correspond to the code

    - [Prelude.v] (this file): the Python runtime shared by every
      component: the exception type [exn] with the classes the code raises
      or catches, the result of a computation ([result]), and the monad
      [Py] of computations that may raise and read the wall clock: each
      [datetime.now(UTC)] call consumes the next reading of a [clock], so
      that a run is a function of the clock readings.  ASCII [lower],
      [strip], [startswith], [split], [str()] of a natural number, and
      their lemmas on strings as lists of characters.  Tactics and the
      hint databases [py] and [py_rw].
    - [PyFloat.v]: Python floats as extended rationals ([Fin q], the two
      infinities, [NaN]) with the comparison and arithmetic the code uses,
      their setoid equality [feq] and its [Proper] instances; the
      conversion of an [int] to a float ([float_of_int]), which raises
      [OverflowError] from 2^1024 - 2^970 on, and the range of a decimal
      literal ([round_range]: infinity beyond the largest float, zero at
      or below 2^-1075).
    - [PyBuiltins.v]: Python values passed to the constructors ([pyval])
      and the builtins [int()] and [float()] on them, including the parsing
      of decimal strings that the command loop relies on and the limit of
      4300 digits of [int()].
    - [DateTime.v]: instants as microseconds since the Unix epoch, their
      proleptic Gregorian date and time of day, and [str()] of a UTC
      [datetime], which the text of a trade contains.
    - [Stock.v]: [Stock], its constructor [Stock_init], the dict of stocks
      as an ordered association list with Python's insertion semantics,
      the catalogue [stocks0] and [validate_symbol].
    - [Trade.v]: [Trade], [Trade_init], [buy], [sell], the ledger and its
      append, and the ledger invariant.
    - [Metrics.v]: [calc_div_yield], [calc_ratio],
      [calc_volume_weighted_price] (its loop [vwap_loop], left at the first
      exception, and the [OverflowError] of lines 104 and 108) and its
      reference specification.
    - [Gbce.v]: [geometric_mean] over extended reals and [gbce]; the loop
      [collect] is proved in a Section against the type class
      [PriceSource], the interface of a per-stock price computation that
      reads the clock once and raises only the "no activity" error or an
      [OverflowError];
      [calc_volume_weighted_price] is an instance of it ([vwap_source]).
    - [Main.v]: the command loop: [step] is one iteration of lines
      186-224 (split the line, look the action up, reshape the arguments,
      call, print, append), [run] iterates it over the input lines and
      [main] is the program.  The actions dict is a table of the
      functions it refers to.  What the program prints (the start-up
      banner, each prompt of [input()], results, errors) is a list of
      [output] events.
    - [Events.v]: the events of a session: which events each command may
      record, and the prompts.
    - [Session.v]: the loop on an unbounded input stream, and commands
      composed ([buy] then [volume_weighted_price]).
    - [Output.v]: [to_str], [__str__], the docstrings, [print_help], [q],
      [pretty_print] and the rendering of every event into the text the
      program writes to standard output.

    ** Theorems (see each file)

    Construction ([Stock.v], [Trade.v]): which inputs the constructors
    accept and reject, on every branch, and that what they build satisfies
    the invariants the metrics rely on; the ledgers the loop can build
    ([ledger_reach]) hold valid trades in time order when the clock is
    monotone.  Metrics ([Metrics.v]): the dividend yield on both stock
    kinds and its error path; the loop of [calc_volume_weighted_price]
    refines the reference definition sum(price*qty)/sum(qty) over the
    five-minute window (boundary exact to the microsecond), including its
    errors: [OverflowError] when a quantity or the volume of the window
    has no float, the "no activity" [ValueError] when the window is
    empty; it never returns a price [<= 0].  Index ([Gbce.v]): exactly
    the "no activity" errors are swallowed, [gbce] raises only its own
    error or the [OverflowError] of a window, its result is the geometric
    mean of the kept prices, whose n-th power is their product and which
    lies between their bounds, and with a constant clock it is the
    composite index of the specification.  Program ([Main.v],
    [Session.v]): the final ledger of any run satisfies the ledger
    invariant and only grows at its end as more lines are read; the
    program stops on an exception only at end of input, on an
    [IndexError], on the [NameError] of [calc_div_yield] or on an
    [OverflowError], and both crashes are reachable at any point of a
    session; a [buy] command whose numbers are decimal numerals up to
    2^53 records exactly those numbers.  Several theorems and examples
    record where the code departs from its specification: the undefined
    [valueError], NaN prices, untyped stocks, huge quantities, the clock
    read per stock, the wall clock going back.  Sessions ([Events.v],
    [Session.v], [Output.v]): [show_trades] at any point lists the
    ledger; [help] at any point writes the exact help text;
    [pretty_print]'s counting loop is the explicit definition; a [buy]
    followed by [volume_weighted_price] prints the price bought at when
    price times quantity is at most 2^53 (so that Python's float
    arithmetic is exact there too); the loop on an unbounded input
    terminates at the first [exit].  The generic lemmas
    [reads_forward] and [raises_only] of this file carry the clock and
    exception reasoning across components, and the type class
    [PriceSource] of [Gbce.v] states what [gbce] needs of the per-stock
    price computation it calls.

    ** Modelling choices and bounds

    - Time is an integer number of microseconds (the resolution of
      [datetime]); five minutes is 300000000.
    - Floats are exact: finite floats are rationals, so rounding to 53
      bits and the overflow of float sums and products are not modelled;
      NaN and the infinities are, because [float()] of a user string
      produces them, and so are the range errors the code meets: [float()]
      of a decimal beyond the largest float is an infinity and one at or
      below 2^-1075 is zero, and an [int] that converts to a float in
      mixed arithmetic raises [OverflowError] from 2^1024 - 2^970 on.
      Theorems whose statement is about numbers a float must hold
      exactly bound them by 2^53, where binary64 is exact.
    - [int()] of a string refuses more than 4300 digits (CPython 3.11 and
      later), so quantities have at most 4300 digits.
      The geometric mean, which goes through [log] and [exp], is a real
      number (Stdlib [Reals]).
    - Strings are ASCII ([String.string]); [str.lower] and [str.strip] are
      modelled on ASCII characters.
    - Symbols and type names are strings or [None], which is what every
      caller of [Stock] passes.
    - The loops over trades and stocks run over finite lists and are
      modelled by structural recursion.  The [while True] loop is modelled
      twice: [run] over a finite list of input lines (the input ends, and
      [input()] raises [EOFError]), and [run_interactive] over an unbounded
      stream of lines with fuel, the number of iterations allowed; the
      termination theorem shows that more iterations than the position of
      the first [exit] always suffice, and [show_trades_forever] that no
      fuel suffices on a stream that never stops the loop.

    ** Not modelled

    Binary64 rounding is not modelled, which is why the Python runtime
    and the output formatting are only partly modelled.  The rounding of
    [+], [*] and [/] could be written out, but [statistics.geometric_mean]
    goes through [math.log], [math.fsum] and [math.exp], whose last bits
    depend on the platform's C library, so no model of them would be
    faithful; floats are therefore exact rationals (and the mean a real
    number), and the theorems hold of the exact values.  For the same
    reason the digits [repr] gives a finite float (the shortest string
    that rounds back to the same binary64 value) are not modelled: the
    model's exact value is not always the value Python holds, so
    printing it would be wrong (0.1 + 0.2); [Output.v] takes those digits
    as a parameter and its theorems hold for any choice.  Docstrings are those of Python 3.12
    (3.13 strips their indentation).  [KeyboardInterrupt] and the
    exceptions of resource exhaustion are not modelled.
*)

From Stdlib Require Import ZArith String Ascii List Bool Lia.
Import ListNotations.

Declare Scope py_scope.
Delimit Scope py_scope with py.
Open Scope string_scope.

(** ** Exceptions *)

(** The exception classes the program raises, meets or catches.
    [StatisticsError] is a subclass of [ValueError] in Python. *)
Inductive exn : Type :=
| ValueError (msg : string)
| StatisticsError (msg : string)
| TypeError (msg : string)
| NameError (msg : string)
| AttributeError (msg : string)
| OverflowError (msg : string)
| ZeroDivisionError (msg : string)
| IndexError (msg : string)
| KeyError (msg : string)
| EOFError (msg : string).

(** [str(e)]: the message the exception was built with. *)
Definition exn_str (e : exn) : string :=
  match e with
  | ValueError m | StatisticsError m | TypeError m | NameError m
  | AttributeError m | OverflowError m | ZeroDivisionError m
  | IndexError m | KeyError m | EOFError m => m
  end.

(** [isinstance(e, ValueError)]. *)
Definition is_ValueError (e : exn) : bool :=
  match e with
  | ValueError _ | StatisticsError _ => true
  | _ => false
  end.

(** [isinstance(e, (ValueError, TypeError))], the filter of the command
    loop's handler. *)
Definition is_ValueError_or_TypeError (e : exn) : bool :=
  match e with
  | TypeError _ => true
  | _ => is_ValueError e
  end.

(** ** Results and the [Py] monad *)

Inductive result (A : Type) : Type :=
| Ok (a : A)
| Raise (e : exn).
Arguments Ok {A} a.
Arguments Raise {A} e.

Definition rbind {A B} (r : result A) (k : A -> result B) : result B :=
  match r with
  | Ok a => k a
  | Raise e => Raise e
  end.

(** The wall clock: its [n]-th reading, in microseconds since the epoch. *)
Definition clock := nat -> Z.

(** A computation reads the clock (the readings consumed so far are
    counted by a [nat]) and returns a value or raises. *)
Definition Py (A : Type) : Type := clock -> nat -> result A * nat.

Definition ret {A} (a : A) : Py A := fun _ n => (Ok a, n).
Definition raise {A} (e : exn) : Py A := fun _ n => (Raise e, n).
Definition lift {A} (r : result A) : Py A := fun _ n => (r, n).

Definition bind {A B} (m : Py A) (k : A -> Py B) : Py B :=
  fun c n =>
    match m c n with
    | (Ok a, n') => k a c n'
    | (Raise e, n') => (Raise e, n')
    end.

(** [datetime.now(UTC)]. *)
Definition now_utc : Py Z := fun c n => (Ok (c n), S n).

(** [try: m except: h]: the handler sees every exception; a handler that
    re-raises what it does not catch is written with [raise]. *)
Definition try_except {A} (m : Py A) (h : exn -> Py A) : Py A :=
  fun c n =>
    match m c n with
    | (Ok a, n') => (Ok a, n')
    | (Raise e, n') => h e c n'
    end.

Notation "x <- m ;; k" := (bind m (fun x => k))
  (at level 61, m at next level, right associativity) : py_scope.
Notation "' p <- m ;; k" := (bind m (fun x => match x with p => k end))
  (at level 61, p pattern, m at next level, right associativity) : py_scope.
Notation "x <-- r ;; k" := (rbind r (fun x => k))
  (at level 61, r at next level, right associativity) : py_scope.

Open Scope py_scope.

(** Python's evaluation of a list of computations left to right, stopping
    at the first exception (a comprehension or an iterator consumed by a
    builtin). *)
Fixpoint all_ok {A} (l : list (result A)) : result (list A) :=
  match l with
  | [] => Ok []
  | r :: l' => a <-- r ;; rest <-- all_ok l' ;; Ok (a :: rest)
  end.

(** Running a computation from a clock reading index. *)
Definition run {A} (m : Py A) (c : clock) (n : nat) : result A := fst (m c n).

(** A computation is pure when it reads no clock. *)
Definition pure {A} (m : Py A) (r : result A) : Prop := forall c n, m c n = (r, n).

(** ** ASCII strings: [str.lower], [str.strip], [str.startswith] *)

Definition ascii_lower (a : ascii) : ascii :=
  let n := nat_of_ascii a in
  if Nat.leb 65 n && Nat.leb n 90 then ascii_of_nat (n + 32) else a.

Fixpoint lower (s : string) : string :=
  match s with
  | EmptyString => EmptyString
  | String a s' => String (ascii_lower a) (lower s')
  end.

(** [str.isspace] on one ASCII character: \t \n \v \f \r, the separators
    \x1c-\x1f, and space. *)
Definition is_space (a : ascii) : bool :=
  let n := nat_of_ascii a in
  (Nat.leb 9 n && Nat.leb n 13) || (Nat.leb 28 n && Nat.leb n 32).

Fixpoint lstrip (s : string) : string :=
  match s with
  | String a s' => if is_space a then lstrip s' else s
  | EmptyString => EmptyString
  end.

Definition rev_string (s : string) : string :=
  string_of_list_ascii (rev (list_ascii_of_string s)).

Definition strip (s : string) : string :=
  rev_string (lstrip (rev_string (lstrip s))).

Definition startswith (s p : string) : bool := String.prefix p s.

(** [str.split()] with no separator: the maximal runs of non-space
    characters, in order.  [cur] is the reversed run being read. *)
Fixpoint split_ws_from (cur : list ascii) (s : string) : list string :=
  match s with
  | EmptyString =>
      match cur with [] => [] | _ => [string_of_list_ascii (rev cur)] end
  | String a s' =>
      if is_space a then
        match cur with
        | [] => split_ws_from [] s'
        | _ => string_of_list_ascii (rev cur) :: split_ws_from [] s'
        end
      else split_ws_from (a :: cur) s'
  end.

Definition split_ws (s : string) : list string := split_ws_from [] s.

(** [str(n)] of a non-negative [int]. *)
Fixpoint digits_of_nat_fuel (fuel n : nat) (acc : string) : string :=
  match fuel with
  | O => acc
  | S f =>
      let d := ascii_of_nat (48 + n mod 10) in
      if Nat.ltb n 10 then String d acc
      else digits_of_nat_fuel f (n / 10) (String d acc)
  end.

Definition string_of_nat (n : nat) : string := digits_of_nat_fuel (S n) n EmptyString.

(** ** Tactics and hints *)

Create HintDb py.
Create Rewrite HintDb py_rw.

(** Unfold the monad's plumbing in the goal and in hypotheses. *)
Ltac py_unfold :=
  unfold run, bind, rbind, ret, raise, lift, now_utc, try_except in *.

(** Case on a [match] of the goal, remembering the equation. *)
Ltac case_match_eq :=
  match goal with
  | |- context [match ?x with _ => _ end] =>
      let E := fresh "E" in destruct x eqn:E
  end.

Ltac inv H := inversion H; subst; clear H.

(** ** Generic lemmas *)

Lemma bind_ret_l {A B} (a : A) (k : A -> Py B) : bind (ret a) k = k a.
Proof. reflexivity. Qed.

Lemma bind_raise {A B} (e : exn) (k : A -> Py B) : bind (raise e) k = raise e.
Proof. reflexivity. Qed.

Lemma bind_lift_ok {A B} (a : A) (k : A -> Py B) : bind (lift (Ok a)) k = k a.
Proof. reflexivity. Qed.

Lemma bind_lift_raise {A B} (e : exn) (k : A -> Py B) :
  bind (lift (@Raise A e)) k = raise e.
Proof. reflexivity. Qed.

#[export] Hint Rewrite @bind_ret_l @bind_raise @bind_lift_ok @bind_lift_raise : py_rw.

Lemma startswith_app (p s : string) : startswith (p ++ s) p = true.
Proof.
  unfold startswith. induction p as [|a p IH]; simpl.
  - destruct s; reflexivity.
  - rewrite IH. destruct (ascii_dec a a); congruence.
Qed.

#[export] Hint Resolve startswith_app : py.

Lemma ascii_lower_idem (a : ascii) : ascii_lower (ascii_lower a) = ascii_lower a.
Proof. destruct a as [[] [] [] [] [] [] [] []]; reflexivity. Qed.

Lemma lower_idem (s : string) : lower (lower s) = lower s.
Proof. induction s as [|a s IH]; simpl; [reflexivity | now rewrite ascii_lower_idem, IH]. Qed.

Lemma lower_app (s t : string) : lower (s ++ t) = lower s ++ lower t.
Proof. induction s as [|a s IH]; simpl; [reflexivity | now rewrite IH]. Qed.

(** ** Strings as lists of characters *)

Lemma string_app_nil_r (s : string) : s ++ EmptyString = s.
Proof. induction s as [|a s IH]; simpl; [reflexivity | now rewrite IH]. Qed.

Lemma string_app_assoc (s t u : string) : (s ++ t) ++ u = s ++ (t ++ u).
Proof. induction s as [|a s IH]; simpl; [reflexivity | now rewrite IH]. Qed.

Lemma list_ascii_of_string_app (s t : string) :
  list_ascii_of_string (s ++ t) = (list_ascii_of_string s ++ list_ascii_of_string t)%list.
Proof. induction s as [|a s IH]; simpl; [reflexivity | now rewrite IH]. Qed.

Lemma string_of_list_ascii_app (l m : list ascii) :
  string_of_list_ascii (l ++ m) = string_of_list_ascii l ++ string_of_list_ascii m.
Proof. induction l as [|a l IH]; simpl; [reflexivity | now rewrite IH]. Qed.

Lemma rev_string_involutive (s : string) : rev_string (rev_string s) = s.
Proof.
  unfold rev_string. rewrite list_ascii_of_string_of_list_ascii, rev_involutive.
  apply string_of_list_ascii_of_string.
Qed.

Lemma rev_string_app (s t : string) : rev_string (s ++ t) = rev_string t ++ rev_string s.
Proof.
  unfold rev_string. now rewrite list_ascii_of_string_app, rev_app_distr, string_of_list_ascii_app.
Qed.

(** A string without whitespace: a single word of [str.split()]. *)
Definition no_space (s : string) : bool :=
  forallb (fun a => negb (is_space a)) (list_ascii_of_string s).

Lemma no_space_rev (s : string) : no_space (rev_string s) = no_space s.
Proof.
  unfold no_space, rev_string. rewrite list_ascii_of_string_of_list_ascii.
  apply eq_true_iff_eq. rewrite !forallb_forall.
  split; intros H a Ha; apply H; [rewrite <- in_rev | rewrite in_rev]; exact Ha.
Qed.

Lemma rev_string_nonempty (s : string) : s <> EmptyString -> rev_string s <> EmptyString.
Proof. intros H E. apply H. now rewrite <- (rev_string_involutive s), E. Qed.

Lemma lstrip_no_space_app (s t : string) :
  no_space s = true -> s <> EmptyString -> lstrip (s ++ t) = s ++ t.
Proof.
  destruct s as [|a s]; [congruence|]. unfold no_space. simpl.
  destruct (is_space a); [discriminate | reflexivity].
Qed.

Lemma lstrip_no_space (s : string) : no_space s = true -> lstrip s = s.
Proof.
  destruct s as [|a s]; [reflexivity|]. unfold no_space. simpl.
  destruct (is_space a); [discriminate | reflexivity].
Qed.

(** [strip] leaves a string alone when neither end is whitespace. *)
Lemma strip_id (s : string) :
  lstrip s = s -> lstrip (rev_string s) = rev_string s -> strip s = s.
Proof. intros H1 H2. unfold strip. now rewrite H1, H2, rev_string_involutive. Qed.

Lemma strip_no_space (s : string) : no_space s = true -> strip s = s.
Proof.
  intros H. apply strip_id; apply lstrip_no_space; [|rewrite no_space_rev]; exact H.
Qed.

(** [str.split()] reads a word up to the whitespace after it, or up to the
    end of the string. *)
Lemma split_ws_from_word (cur : list ascii) (w : string) (sp : ascii) (r : string) :
  no_space w = true -> is_space sp = true -> (cur <> [] \/ w <> EmptyString) ->
  split_ws_from cur (w ++ String sp r)
  = string_of_list_ascii (rev cur ++ list_ascii_of_string w) :: split_ws_from [] r.
Proof.
  revert cur. induction w as [|a w IH]; intros cur Hw Hsp Hne; simpl.
  - rewrite Hsp, app_nil_r. destruct cur; [now destruct Hne | reflexivity].
  - unfold no_space in Hw. simpl in Hw. apply andb_prop in Hw as [Ha Hw].
    apply negb_true_iff in Ha. rewrite Ha, IH by (auto; left; discriminate).
    simpl. now rewrite <- app_assoc.
Qed.

Lemma split_ws_from_last (cur : list ascii) (w : string) :
  no_space w = true -> (cur <> [] \/ w <> EmptyString) ->
  split_ws_from cur w = [string_of_list_ascii (rev cur ++ list_ascii_of_string w)].
Proof.
  revert cur. induction w as [|a w IH]; intros cur Hw Hne; simpl.
  - rewrite app_nil_r. destruct cur; [now destruct Hne | reflexivity].
  - unfold no_space in Hw. simpl in Hw. apply andb_prop in Hw as [Ha Hw].
    apply negb_true_iff in Ha. rewrite Ha, IH by (auto; left; discriminate).
    simpl. now rewrite <- app_assoc.
Qed.

(** [fold_left] of a function that ignores elements outside a predicate
    is [fold_left] over the [filter]: shared by every loop of the program
    that has an [if] around its body. *)
Lemma existsb_ext {A} (f g : A -> bool) (l : list A) :
  (forall x, f x = g x) -> existsb f l = existsb g l.
Proof. intros H. induction l as [|x l IH]; simpl; [reflexivity | now rewrite H, IH]. Qed.

Lemma fold_left_filter {A B} (p : A -> bool) (f : B -> A -> B) (l : list A) (b : B) :
  fold_left (fun acc x => if p x then f acc x else acc) l b
  = fold_left f (filter p l) b.
Proof.
  revert b. induction l as [|x l IH]; intros b; simpl; [reflexivity|].
  destruct (p x); simpl; apply IH.
Qed.

(** ** What a computation can do: read the clock forward, raise a class
    of exceptions *)

(** A computation never goes back in the clock readings. *)
Definition reads_forward {A} (m : Py A) : Prop := forall c n, (n <= snd (m c n))%nat.

(** Every exception a computation raises satisfies [P]. *)
Definition raises_only {A} (P : exn -> Prop) (m : Py A) : Prop :=
  forall c n e n', m c n = (Raise e, n') -> P e.

Section MonadFacts.
Context {A B : Type}.

Lemma rf_ret (a : A) : reads_forward (ret a).
Proof. intros c n; simpl; lia. Qed.

Lemma rf_raise (e : exn) : reads_forward (@raise A e).
Proof. intros c n; simpl; lia. Qed.

Lemma rf_lift (r : result A) : reads_forward (lift r).
Proof. intros c n; simpl; lia. Qed.

Lemma rf_now : reads_forward now_utc.
Proof. intros c n; simpl; lia. Qed.

Lemma rf_bind (m : Py A) (k : A -> Py B) :
  reads_forward m -> (forall a, reads_forward (k a)) -> reads_forward (bind m k).
Proof.
  intros Hm Hk c n. unfold bind. specialize (Hm c n).
  destruct (m c n) as [[a|e] n1]; simpl in *; [specialize (Hk a c n1) |]; lia.
Qed.

Lemma rf_try (m : Py A) (h : exn -> Py A) :
  reads_forward m -> (forall e, reads_forward (h e)) -> reads_forward (try_except m h).
Proof.
  intros Hm Hh c n. unfold try_except. specialize (Hm c n).
  destruct (m c n) as [[a|e] n1]; simpl in *; [| specialize (Hh e c n1)]; lia.
Qed.

Lemma ro_ret (P : exn -> Prop) (a : A) : raises_only P (ret a).
Proof. intros c n e n' H. discriminate. Qed.

Lemma ro_raise (P : exn -> Prop) (e : exn) : P e -> raises_only P (@raise A e).
Proof. intros He c n e' n' H. now inv H. Qed.

Lemma ro_lift (P : exn -> Prop) (r : result A) :
  (forall e, r = Raise e -> P e) -> raises_only P (lift r).
Proof. intros Hr c n e n' H. inv H. now apply Hr. Qed.

Lemma ro_now (P : exn -> Prop) : raises_only P now_utc.
Proof. intros c n e n' H. discriminate. Qed.

Lemma ro_bind (P : exn -> Prop) (m : Py A) (k : A -> Py B) :
  raises_only P m -> (forall a, raises_only P (k a)) -> raises_only P (bind m k).
Proof.
  intros Hm Hk c n e n' H. unfold bind in H.
  destruct (m c n) as [[a|e0] n1] eqn:E.
  - exact (Hk a c n1 e n' H).
  - injection H as <- <-. exact (Hm c n e0 n1 E).
Qed.

(** A handler that re-raises what is not [Q] leaves raised only the
    exceptions of the body that are not [Q], and those of its own. *)
Lemma ro_try (P : exn -> Prop) (Q : exn -> bool) (m : Py A) (h : exn -> Py A) :
  raises_only P m ->
  (forall e, Q e = true -> raises_only (fun e' => P e' /\ Q e' = false) (h e)) ->
  raises_only (fun e => P e /\ Q e = false) (try_except (fun c n => m c n)
     (fun e => if Q e then h e else raise e)).
Proof.
  intros Hm Hh c n e n' H. unfold try_except in H.
  destruct (m c n) as [[a|e0] n1] eqn:E; [discriminate|].
  destruct (Q e0) eqn:Qe.
  - exact (Hh e0 Qe c n1 e n' H).
  - injection H as <- <-. split; [exact (Hm c n e0 n1 E) | exact Qe].
Qed.

Lemma raises_only_impl (P Q : exn -> Prop) (m : Py A) :
  (forall e, P e -> Q e) -> raises_only P m -> raises_only Q m.
Proof. intros HPQ Hm c n e n' H. apply HPQ. exact (Hm c n e n' H). Qed.

(** Inverting a bind that returned. *)
Lemma bind_ok_inv (m : Py A) (k : A -> Py B) (c : clock) (n n' : nat) (b : B) :
  bind m k c n = (Ok b, n') -> exists a n1, m c n = (Ok a, n1) /\ k a c n1 = (Ok b, n').
Proof.
  unfold bind. destruct (m c n) as [[a|e] n1]; intros H; [eauto | discriminate].
Qed.
End MonadFacts.

#[export] Hint Resolve rf_ret rf_raise rf_lift rf_now rf_bind rf_try : py.
#[export] Hint Resolve ro_ret ro_now ro_bind : py.
