(* ===== verification/PyFloat.v ===== *)
(** Python floats as exact extended rationals.

    A finite float is a rational [Fin q]; [PInf], [NInf] and [NaN] are the
    special values that [float('inf')], [float('-inf')] and [float('nan')]
    produce.  Arithmetic is exact on finite values (no rounding) and
    follows IEEE 754 on the special values; comparisons with [NaN] are
    false, as in Python.  [feq] identifies finite floats with equal
    rational values: it is the setoid equality of the model (unlike
    Python's [==], [NaN] is [feq] to itself). *)

From Stdlib Require Import ZArith QArith Qabs String Setoid Morphisms Lia Lqa.
From S2P Require Import Prelude.

Local Open Scope string_scope.
Local Open Scope py_scope.
Local Open Scope Z_scope.

Inductive float : Type :=
| Fin (q : Q)
| PInf
| NInf
| NaN.

(** The float of an [int] that is in range (exact, see the header). *)
Definition of_Z (z : Z) : float := Fin (inject_Z z).

(** [PyLong_AsDouble], the conversion behind [float(n)] and behind mixed
    [float]/[int] arithmetic ([x * n], [x / n], [n / x]).  The largest
    finite float is 2^1024 - 2^971; an [int] at or beyond
    2^1024 - 2^970, halfway to 2^1024 where round-half-even goes up, has
    no finite nearest float and the conversion raises [OverflowError]. *)
Definition FLOAT_INT_BOUND : Z := 2 ^ 1024 - 2 ^ 970.

Definition int_fits (z : Z) : bool := Z.abs z <? FLOAT_INT_BOUND.

Definition INT_OVERFLOW_MSG : string := "int too large to convert to float".

Definition float_of_int (z : Z) : result float :=
  if int_fits z then Ok (of_Z z) else Raise (OverflowError INT_OVERFLOW_MSG).

(** Half the smallest subnormal, 2^-1075. *)
Definition FLOAT_TINY : Q := Qmake 1 (Pos.pow 2 1075).

(** The float nearest to an exact decimal as far as the range goes:
    beyond the largest float it is an infinity of its sign, at or below
    half the smallest subnormal it is zero (the tie goes to the even
    zero), and in between the model keeps the exact rational. *)
Definition round_range (q : Q) : float :=
  if Qle_bool (inject_Z FLOAT_INT_BOUND) (Qabs q) then (if Qle_bool 0 q then PInf else NInf)
  else if Qle_bool (Qabs q) FLOAT_TINY then Fin 0
  else Fin q.

(** The sign of a non-NaN float: 1, 0 or -1. *)
Definition fsgn (x : float) : Z :=
  match x with
  | Fin q => Z.sgn (Qnum q)
  | PInf => 1
  | NInf => -1
  | NaN => 0
  end.

Definition inf_of_sgn (s : Z) : float :=
  if s =? 0 then NaN else if 0 <? s then PInf else NInf.

(** [x <= y]. *)
Definition fle (x y : float) : bool :=
  match x, y with
  | NaN, _ | _, NaN => false
  | NInf, _ | _, PInf => true
  | PInf, _ | _, NInf => false
  | Fin a, Fin b => Qle_bool a b
  end.

(** [x < y]. *)
Definition flt (x y : float) : bool :=
  match x, y with
  | NaN, _ | _, NaN => false
  | PInf, _ | _, NInf => false
  | NInf, _ | _, PInf => true
  | Fin a, Fin b => negb (Qle_bool b a)
  end.

(** [x + y]. *)
Definition fadd (x y : float) : float :=
  match x, y with
  | NaN, _ | _, NaN => NaN
  | PInf, NInf | NInf, PInf => NaN
  | PInf, _ | _, PInf => PInf
  | NInf, _ | _, NInf => NInf
  | Fin a, Fin b => Fin (a + b)
  end.

(** [x * y]; an infinity times zero is NaN. *)
Definition fmul (x y : float) : float :=
  match x, y with
  | NaN, _ | _, NaN => NaN
  | Fin a, Fin b => Fin (a * b)
  | _, _ => inf_of_sgn (fsgn x * fsgn y)
  end.

(** [x / y] for a divisor that is not zero. *)
Definition fdiv (x y : float) : float :=
  match x, y with
  | NaN, _ | _, NaN => NaN
  | Fin a, Fin b => Fin (a / b)
  | Fin _, _ => Fin 0
  | _, Fin _ => inf_of_sgn (fsgn x * fsgn y)
  | _, _ => NaN
  end.

(** Python's [/] on floats: a zero divisor raises. *)
Definition py_truediv (x y : float) : result float :=
  if fsgn y =? 0 then
    match y with
    | NaN => Ok NaN
    | _ => Raise (ZeroDivisionError "float division by zero")
    end
  else Ok (fdiv x y).

(** [0 < x]. *)
Definition fpos (x : float) : bool := flt (Fin 0) x.

Definition is_nan (x : float) : bool :=
  match x with NaN => true | _ => false end.

(** ** Setoid equality *)

Definition feq (x y : float) : Prop :=
  match x, y with
  | Fin a, Fin b => a == b
  | PInf, PInf | NInf, NInf | NaN, NaN => True
  | _, _ => False
  end.

Infix "=f=" := feq (at level 70, no associativity) : py_scope.

#[export] Instance feq_equiv : Equivalence feq.
Proof.
  split.
  - intros []; simpl; reflexivity || exact I.
  - intros [] []; simpl; auto. intros H; now symmetry.
  - intros [] [] []; simpl; try tauto. intros H1 H2; now rewrite H1.
Qed.

Lemma fsgn_Fin_compat (a b : Q) : a == b -> Z.sgn (Qnum a) = Z.sgn (Qnum b).
Proof.
  unfold Qeq. intros H. destruct a as [na da], b as [nb db]; simpl in *.
  assert (E : Z.sgn (na * Zpos db) = Z.sgn (nb * Zpos da)) by now rewrite H.
  rewrite !Z.sgn_mul in E. simpl in E. lia.
Qed.

#[export] Instance fsgn_proper : Proper (feq ==> eq) fsgn.
Proof. intros [] [] H; simpl in *; try tauto; try reflexivity. now apply fsgn_Fin_compat. Qed.

#[export] Instance fadd_proper : Proper (feq ==> feq ==> feq) fadd.
Proof.
  intros [a| | |] [b| | |] Hx [c| | |] [d| | |] Hy; simpl in *; try tauto.
  now rewrite Hx, Hy.
Qed.

Lemma inf_of_sgn_feq (s : Z) : inf_of_sgn s =f= inf_of_sgn s.
Proof. reflexivity. Qed.

#[export] Instance fmul_proper : Proper (feq ==> feq ==> feq) fmul.
Proof.
  intros x x' Hx y y' Hy.
  destruct x as [a| | |], x' as [a'| | |], y as [b| | |], y' as [b'| | |];
    simpl in *; try tauto;
    try (rewrite Hx, Hy; reflexivity);
    try (rewrite (fsgn_Fin_compat _ _ Hx)); try (rewrite (fsgn_Fin_compat _ _ Hy));
    reflexivity.
Qed.

#[export] Instance fdiv_proper : Proper (feq ==> feq ==> feq) fdiv.
Proof.
  intros x x' Hx y y' Hy.
  destruct x as [a| | |], x' as [a'| | |], y as [b| | |], y' as [b'| | |];
    simpl in *; try tauto;
    try (rewrite Hx, Hy; reflexivity);
    try (rewrite (fsgn_Fin_compat _ _ Hx)); try (rewrite (fsgn_Fin_compat _ _ Hy));
    reflexivity.
Qed.

#[export] Instance fle_proper : Proper (feq ==> feq ==> eq) fle.
Proof.
  intros [a| | |] [a'| | |] Hx [b| | |] [b'| | |] Hy; simpl in *; try tauto;
    try reflexivity.
  apply eq_true_iff_eq. rewrite !Qle_bool_iff. now rewrite Hx, Hy.
Qed.

#[export] Instance flt_proper : Proper (feq ==> feq ==> eq) flt.
Proof.
  intros [a| | |] [a'| | |] Hx [b| | |] [b'| | |] Hy; simpl in *; try tauto;
    try reflexivity.
  f_equal. apply eq_true_iff_eq. rewrite !Qle_bool_iff. now rewrite Hx, Hy.
Qed.

(** ** Lemmas shared by the metrics *)

Lemma fle_Fin (a b : Q) : fle (Fin a) (Fin b) = true <-> (a <= b)%Q.
Proof. apply Qle_bool_iff. Qed.

Lemma flt_Fin (a b : Q) : flt (Fin a) (Fin b) = true <-> (a < b)%Q.
Proof.
  simpl. rewrite negb_true_iff. split; intros H.
  - apply Qnot_le_lt. intros H'. apply Qle_bool_iff in H'. congruence.
  - destruct (Qle_bool b a) eqn:E; [|reflexivity].
    apply Qle_bool_iff in E. exfalso. exact (Qlt_not_le _ _ H E).
Qed.

(** The guard [x <= 0] is false exactly on positive floats and NaN. *)
Lemma fle_0_false (x : float) :
  fle x (Fin 0) = false <-> fpos x = true \/ x = NaN.
Proof.
  unfold fpos. destruct x as [q| | |]; simpl; try (intuition congruence).
  rewrite negb_true_iff. intuition congruence.
Qed.

Lemma fadd_Fin (a b : Q) : fadd (Fin a) (Fin b) = Fin (a + b).
Proof. reflexivity. Qed.

Lemma fmul_Fin (a b : Q) : fmul (Fin a) (Fin b) = Fin (a * b).
Proof. reflexivity. Qed.

Lemma fadd_NaN_r (x : float) : fadd x NaN = NaN.
Proof. destruct x; reflexivity. Qed.

Lemma fmul_NaN_l (x : float) : fmul NaN x = NaN.
Proof. reflexivity. Qed.

#[export] Hint Rewrite fadd_Fin fmul_Fin fadd_NaN_r fmul_NaN_l : py_rw.

(** Dividing by a positive integer that came from [int]. *)
Lemma py_truediv_pos_Z (x : float) (v : Z) :
  0 < v -> py_truediv x (of_Z v) = Ok (fdiv x (of_Z v)).
Proof.
  intros Hv. unfold py_truediv, of_Z. simpl.
  destruct v; simpl; try lia. reflexivity.
Qed.

(** ** Positive-or-NaN floats: those that pass a guard [x <= 0] *)

Lemma fle_Fin_0_false (q : Q) : fle (Fin q) (Fin 0) = false <-> (0 < q)%Q.
Proof.
  simpl. split; intros H.
  - apply Qnot_le_lt. intros H'. apply Qle_bool_iff in H'. congruence.
  - destruct (Qle_bool q 0) eqn:E; [|reflexivity]. apply Qle_bool_iff in E. lra.
Qed.

Lemma fadd_0_l (x : float) : fadd (Fin 0) x =f= x.
Proof. destruct x; simpl; [lra | exact I ..]. Qed.

Lemma of_Z_pos_sgn (v : Z) : 0 < v -> fsgn (of_Z v) = 1.
Proof. intros H. destruct v; simpl; lia. Qed.

Lemma inject_Z_pos (v : Z) : 0 < v -> (0 < inject_Z v)%Q.
Proof. intros H. unfold Qlt; simpl; lia. Qed.

Lemma fadd_pos_or_nan (x y : float) :
  fle x (Fin 0) = false -> fle y (Fin 0) = false -> fle (fadd x y) (Fin 0) = false.
Proof.
  destruct x as [a| | |], y as [b| | |]; simpl fadd; try discriminate; try reflexivity.
  rewrite !fle_Fin_0_false. lra.
Qed.

Lemma fmul_pos_or_nan_Z (x : float) (v : Z) :
  fle x (Fin 0) = false -> 0 < v -> fle (fmul x (of_Z v)) (Fin 0) = false.
Proof.
  intros Hx Hv. pose proof (inject_Z_pos v Hv) as Hq. destruct x as [a| | |];
    try discriminate; try reflexivity.
  - unfold of_Z. simpl fmul. rewrite fle_Fin_0_false in *.
    apply Qmult_lt_0_compat; assumption.
  - unfold fmul. rewrite of_Z_pos_sgn by exact Hv. reflexivity.
Qed.

Lemma fdiv_pos_or_nan_Z (x : float) (v : Z) :
  fle x (Fin 0) = false -> 0 < v -> fle (fdiv x (of_Z v)) (Fin 0) = false.
Proof.
  intros Hx Hv. pose proof (inject_Z_pos v Hv) as Hq. destruct x as [a| | |];
    try discriminate; try reflexivity.
  - unfold of_Z. simpl fdiv. rewrite fle_Fin_0_false in *.
    apply Qlt_shift_div_l; [exact Hq | lra].
  - unfold fdiv, of_Z. destruct v; try lia. reflexivity.
Qed.

Lemma fadd_NaN_l (x : float) : fadd NaN x = NaN.
Proof. reflexivity. Qed.

Lemma fdiv_NaN_l (x : float) : fdiv NaN x = NaN.
Proof. reflexivity. Qed.

#[export] Hint Resolve fadd_pos_or_nan fmul_pos_or_nan_Z fdiv_pos_or_nan_Z : py.

(** ** The range of the conversions *)

Lemma FLOAT_INT_BOUND_gt : 2 ^ 1023 < FLOAT_INT_BOUND.
Proof. reflexivity. Qed.

Lemma int_fits_iff (z : Z) : int_fits z = true <-> Z.abs z < FLOAT_INT_BOUND.
Proof. apply Z.ltb_lt. Qed.

Lemma float_of_int_fits (z : Z) : int_fits z = true -> float_of_int z = Ok (of_Z z).
Proof. unfold float_of_int. now intros ->. Qed.

Lemma float_of_int_overflow (z : Z) :
  int_fits z = false -> float_of_int z = Raise (OverflowError INT_OVERFLOW_MSG).
Proof. unfold float_of_int. now intros ->. Qed.

Lemma float_of_int_raises (z : Z) (e : exn) :
  float_of_int z = Raise e -> int_fits z = false /\ e = OverflowError INT_OVERFLOW_MSG.
Proof. unfold float_of_int. destruct (int_fits z); intros H; inv H; auto. Qed.

(** Every integer up to 2^1023 in absolute value converts. *)
Lemma int_fits_small (z : Z) : Z.abs z <= 2 ^ 1023 -> int_fits z = true.
Proof. intros H. apply int_fits_iff. pose proof FLOAT_INT_BOUND_gt. lia. Qed.

#[export] Hint Rewrite float_of_int_fits float_of_int_overflow using assumption : py_rw.

(** A decimal denoting an integer that converts is read as that integer. *)
Lemma round_range_int (q : Q) (z : Z) :
  (q == inject_Z z)%Q -> int_fits z = true -> exists q', round_range q = Fin q' /\ (q' == inject_Z z)%Q.
Proof.
  intros Hq Hz. apply int_fits_iff in Hz. unfold round_range.
  assert (Ha : (Qabs q == inject_Z (Z.abs z))%Q) by (rewrite Hq; symmetry; apply Zabs_Qabs).
  destruct (Qle_bool (inject_Z FLOAT_INT_BOUND) (Qabs q)) eqn:E1.
  { apply Qle_bool_iff in E1. rewrite Ha, <- Zle_Qle in E1. lia. }
  destruct (Qle_bool (Qabs q) FLOAT_TINY) eqn:E2; [|eauto].
  apply Qle_bool_iff in E2. rewrite Ha in E2. unfold Qle, FLOAT_TINY in E2. simpl in E2.
  assert (z = 0) as -> by (destruct z; simpl in E2; lia). exists 0%Q. split; reflexivity.
Qed.
