(* ===== verification/PyBuiltins.v ===== *)
(** Python values and the builtins [int()] and [float()].

    The constructors of [Stock] and [Trade] receive Python values: ints and
    [None] from the catalogue, strings from the command line (the loop
    passes [args] as split from the input line).  [py_int] and [py_float]
    model [int(v)] and [float(v)] on these values, with the grammar of
    decimal literals Python accepts (surrounding whitespace, a sign,
    digits grouped by single underscores, for floats a fraction, an
    exponent, and the words inf, infinity and nan in any case).  The last
    section proves that both read back the decimal numeral [str()] prints
    for a natural number. *)

From Stdlib Require Import ZArith QArith String Ascii List Bool Lia.
From S2P Require Import Prelude PyFloat.
Import ListNotations.

Local Open Scope string_scope.
Local Open Scope py_scope.
Local Open Scope Z_scope.

Inductive pyval : Type :=
| PyNone
| PyInt (z : Z)
| PyFloat (x : float)
| PyStr (s : string).

(** ** Decimal digits *)

Definition is_digit (a : ascii) : bool :=
  Nat.leb 48 (nat_of_ascii a) && Nat.leb (nat_of_ascii a) 57.

Definition digit_value (a : ascii) : Z := Z.of_nat (nat_of_ascii a - 48).

(** The longest prefix made of digits and underscores, and the rest. *)
Fixpoint span_digits (s : string) : string * string :=
  match s with
  | String a s' =>
      if is_digit a || Ascii.eqb a "_" then
        let (d, r) := span_digits s' in (String a d, r)
      else (EmptyString, s)
  | EmptyString => (EmptyString, EmptyString)
  end.

(** [digitpart ::= digit (["_"] digit)*]: the argument tells whether the
    previous character was a digit. *)
Fixpoint digitpart_ok_from (prev_digit : bool) (s : string) : bool :=
  match s with
  | EmptyString => prev_digit
  | String a s' =>
      if is_digit a then digitpart_ok_from true s'
      else prev_digit && digitpart_ok_from false s'
  end.

Definition digitpart_ok (s : string) : bool := digitpart_ok_from false s.

(** The value of a digit part (underscores skipped) and its digit count. *)
Fixpoint digits_value_from (acc : Z) (s : string) : Z :=
  match s with
  | EmptyString => acc
  | String a s' =>
      if is_digit a then digits_value_from (acc * 10 + digit_value a) s'
      else digits_value_from acc s'
  end.

Definition digits_value (s : string) : Z := digits_value_from 0 s.

Fixpoint digits_count (s : string) : Z :=
  match s with
  | EmptyString => 0
  | String a s' => (if is_digit a then 1 else 0) + digits_count s'
  end.

(** An optional sign: whether it is a minus, and the rest. *)
Definition split_sign (s : string) : bool * string :=
  match s with
  | String "-" r => (true, r)
  | String "+" r => (false, r)
  | _ => (false, s)
  end.

(** ** [int(s)] for a string *)

Definition parse_int (s : string) : option Z :=
  let '(neg, body) := split_sign (strip s) in
  let '(d, rest) := span_digits body in
  if digitpart_ok d && String.eqb rest "" then
    let v := digits_value d in Some (if neg then - v else v)
  else None.

(** [sys.get_int_max_str_digits()]: [int] of a string of more digits
    raises [ValueError] (CPython 3.11 and later).  The check comes after
    the digits and underscores have been scanned and before the rest of
    the string is looked at, so a well-formed run of too many digits is
    reported as too long even when garbage follows. *)
Definition MAX_STR_DIGITS : Z := 4300.

Definition int_too_long (s : string) : option Z :=
  let '(neg, body) := split_sign (strip s) in
  let '(d, rest) := span_digits body in
  if digitpart_ok d && (MAX_STR_DIGITS <? digits_count d) then Some (digits_count d) else None.

Definition too_long_msg (k : Z) : string :=
  "Exceeds the limit (4300 digits) for integer string conversion: value has "
  ++ string_of_nat (Z.to_nat k) ++ " digits; use sys.set_int_max_str_digits() to increase the limit".

(** ** [float(s)] for a string *)

(** [exponent ::= ("e" | "E") [sign] digitpart], then the end. *)
Definition parse_exponent (s : string) : option Z :=
  match s with
  | EmptyString => Some 0
  | String e r =>
      if Ascii.eqb e "e" || Ascii.eqb e "E" then
        let '(neg, body) := split_sign r in
        let '(d, rest) := span_digits body in
        if digitpart_ok d && String.eqb rest "" then
          let v := digits_value d in Some (if neg then - v else v)
        else None
      else None
  end.

(** [number ::= [digitpart] "." digitpart | digitpart ["."]] followed by
    an exponent: the exact rational it denotes. *)
Definition parse_number (s : string) : option Q :=
  let '(ip, r1) := span_digits s in
  let '(fp, r2) :=
    match r1 with
    | String "." r => span_digits r
    | _ => (EmptyString, r1)
    end in
  let has_dot := match r1 with String "." _ => true | _ => false end in
  let shape_ok :=
    if String.eqb ip "" then has_dot && digitpart_ok fp
    else digitpart_ok ip && (String.eqb fp "" || digitpart_ok fp) in
  let rest := if has_dot then r2 else r1 in
  if shape_ok then
    match parse_exponent rest with
    | Some e =>
        let m := digits_value ip * 10 ^ digits_count fp + digits_value fp in
        Some (inject_Z m * Qpower (inject_Z 10) (e - digits_count fp))%Q
    | None => None
    end
  else None.

Definition parse_float (s : string) : option float :=
  let '(neg, body) := split_sign (strip s) in
  let w := lower body in
  if String.eqb w "inf" || String.eqb w "infinity" then
    Some (if neg then NInf else PInf)
  else if String.eqb w "nan" then Some NaN
  else
    match parse_number body with
    | Some q => Some (round_range (if neg then - q else q)%Q)
    | None => None
    end.

(** ** The builtins on Python values *)

(** [repr(str)]: single quotes, or double quotes when the string holds a
    single quote and no double quote; the quote in use and the backslash
    escaped; tab, newline and carriage return by name; the other control
    characters and the characters Python does not print (DEL, U+0080 to
    U+00A0, the soft hyphen U+00AD) as [\xNN]. *)
Definition hex_digit (n : nat) : ascii := ascii_of_nat (if Nat.ltb n 10 then 48 + n else 87 + n).

Definition repr_char (q : ascii) (a : ascii) : string :=
  let n := nat_of_ascii a in
  if Ascii.eqb a q || Nat.eqb n 92 then String "\" (String a EmptyString)
  else if Nat.eqb n 9 then "\t"
  else if Nat.eqb n 10 then "\n"
  else if Nat.eqb n 13 then "\r"
  else if Nat.ltb n 32 || (Nat.leb 127 n && Nat.leb n 160) || Nat.eqb n 173 then
    String "\" (String "x" (String (hex_digit (n / 16)) (String (hex_digit (n mod 16)) EmptyString)))
  else String a EmptyString.

Fixpoint repr_chars (q : ascii) (s : string) : string :=
  match s with
  | EmptyString => EmptyString
  | String a s' => repr_char q a ++ repr_chars q s'
  end.

Definition DQUOTE : ascii := ascii_of_nat 34.

Fixpoint has_char (c : ascii) (s : string) : bool :=
  match s with
  | EmptyString => false
  | String a s' => Ascii.eqb a c || has_char c s'
  end.

Definition repr_str (s : string) : string :=
  let q : ascii := if has_char "'"%char s && negb (has_char DQUOTE s) then DQUOTE else "'"%char in
  String q (repr_chars q s ++ String q EmptyString).

(** [int(v)]. *)
Definition py_int (v : pyval) : result Z :=
  match v with
  | PyNone =>
      Raise (TypeError "int() argument must be a string, a bytes-like object or a real number, not 'NoneType'")
  | PyInt z => Ok z
  | PyFloat (Fin q) => Ok (Z.quot (Qnum q) (Zpos (Qden q)))
  | PyFloat NaN => Raise (ValueError "cannot convert float NaN to integer")
  | PyFloat _ => Raise (OverflowError "cannot convert float infinity to integer")
  | PyStr s =>
      match int_too_long s with
      | Some k => Raise (ValueError (too_long_msg k))
      | None =>
          match parse_int s with
          | Some z => Ok z
          | None => Raise (ValueError ("invalid literal for int() with base 10: " ++ repr_str s))
          end
      end
  end.

(** [float(v)]. *)
Definition py_float (v : pyval) : result float :=
  match v with
  | PyNone => Raise (TypeError "float() argument must be a string or a real number, not 'NoneType'")
  | PyInt z => float_of_int z
  | PyFloat x => Ok x
  | PyStr s =>
      match parse_float s with
      | Some x => Ok x
      | None => Raise (ValueError ("could not convert string to float: " ++ repr_str s))
      end
  end.

(** [v is None]. *)
Definition is_None (v : pyval) : bool :=
  match v with PyNone => true | _ => false end.

(** ** Concrete behaviour *)

Example py_int_examples :
  py_int (PyStr " 42 ") = Ok 42 /\ py_int (PyStr "-1_000") = Ok (-1000)
  /\ py_int (PyStr "1__0") = Raise (ValueError "invalid literal for int() with base 10: '1__0'")
  /\ py_int (PyStr "2.5") = Raise (ValueError "invalid literal for int() with base 10: '2.5'")
  /\ py_int (PyFloat (Fin (-7 # 2))) = Ok (-3).
Proof. vm_compute. repeat split. Qed.

Example py_float_examples :
  py_float (PyStr "1.2") = Ok (Fin (12 # 10))
  /\ py_float (PyStr "-.5e1") = Ok (Fin (-5 # 1))
  /\ py_float (PyStr "NaN") = Ok NaN
  /\ py_float (PyStr "-Infinity") = Ok NInf
  /\ py_float (PyStr ".") = Raise (ValueError "could not convert string to float: '.'").
Proof. vm_compute. repeat split. Qed.

(** The range of [float()] and of the conversion of an [int]. *)
Example py_float_range_examples :
  py_float (PyStr "1e400") = Ok PInf /\ py_float (PyStr "-1e400") = Ok NInf
  /\ py_float (PyStr "1e-400") = Ok (Fin 0)
  /\ py_float (PyInt (2 ^ 1024)) = Raise (OverflowError "int too large to convert to float").
Proof. vm_compute. repeat split. Qed.

(** ** Decimal numerals: [int(str(n)) == n] and [float(str(n)) == n] *)

(** A non-empty run of ASCII digits, as [str(n)] prints. *)
Definition all_digits (s : string) : bool := forallb is_digit (list_ascii_of_string s).

Lemma all_digits_no_space (s : string) : all_digits s = true -> no_space s = true.
Proof.
  unfold all_digits, no_space. rewrite !forallb_forall. intros H a Ha.
  specialize (H a Ha). destruct a as [[] [] [] [] [] [] [] []]; easy.
Qed.

Lemma all_digits_app (s t : string) : all_digits (s ++ t) = all_digits s && all_digits t.
Proof. unfold all_digits. now rewrite list_ascii_of_string_app, forallb_app. Qed.

Lemma split_sign_digit (a : ascii) (s : string) :
  is_digit a = true -> split_sign (String a s) = (false, String a s).
Proof. destruct a as [[] [] [] [] [] [] [] []]; easy. Qed.

Lemma lower_digits (s : string) : all_digits s = true -> lower s = s.
Proof.
  induction s as [|a s IH]; [reflexivity|]. unfold all_digits. simpl.
  intros H. apply andb_prop in H as [Ha H]. rewrite IH by exact H. f_equal.
  destruct a as [[] [] [] [] [] [] [] []]; easy.
Qed.

Lemma span_digits_all (s : string) : all_digits s = true -> span_digits s = (s, EmptyString).
Proof.
  induction s as [|a s IH]; [reflexivity|]. unfold all_digits. simpl.
  intros H. apply andb_prop in H as [Ha H]. rewrite Ha. simpl. now rewrite IH.
Qed.

Lemma digitpart_ok_from_all (b : bool) (s : string) :
  all_digits s = true -> s <> EmptyString -> digitpart_ok_from b s = true.
Proof.
  revert b. induction s as [|a s IH]; intros b; [congruence|]. unfold all_digits. simpl.
  intros H _. apply andb_prop in H as [Ha H]. rewrite Ha.
  destruct s as [|a' s']; [reflexivity|]. apply IH; [exact H | discriminate].
Qed.

Lemma strip_digits (s : string) : all_digits s = true -> strip s = s.
Proof. intros H. apply strip_no_space, all_digits_no_space, H. Qed.

Lemma parse_int_digits (s : string) :
  all_digits s = true -> s <> EmptyString -> parse_int s = Some (digits_value s).
Proof.
  intros H Hne. unfold parse_int. rewrite strip_digits by exact H.
  destruct s as [|a s']; [congruence|].
  rewrite split_sign_digit by (unfold all_digits in H; simpl in H; now apply andb_prop in H).
  unfold digitpart_ok. rewrite span_digits_all, digitpart_ok_from_all by assumption.
  reflexivity.
Qed.

Lemma parse_float_digits (s : string) :
  all_digits s = true -> s <> EmptyString -> int_fits (digits_value s) = true ->
  exists q, parse_float s = Some (Fin q) /\ (q == inject_Z (digits_value s))%Q.
Proof.
  intros H Hne Hfit. unfold parse_float. rewrite strip_digits by exact H.
  destruct s as [|a s']; [congruence|].
  rewrite split_sign_digit by (unfold all_digits in H; simpl in H; now apply andb_prop in H).
  rewrite lower_digits by exact H.
  destruct (String.eqb_spec (String a s') "inf") as [E|_]; [rewrite E in H; discriminate H|].
  destruct (String.eqb_spec (String a s') "infinity") as [E|_]; [rewrite E in H; discriminate H|].
  destruct (String.eqb_spec (String a s') "nan") as [E|_]; [rewrite E in H; discriminate H|].
  unfold parse_number, digitpart_ok. rewrite span_digits_all by exact H.
  cbn -[digitpart_ok_from digits_value round_range].
  rewrite digitpart_ok_from_all by (assumption || discriminate).
  change (digits_value "") with 0. rewrite Z.mul_1_r, Z.add_0_r. cbn [andb].
  destruct (round_range_int (inject_Z (digits_value (String a s')) * 1) (digits_value (String a s'))
              ltac:(apply Qmult_1_r) Hfit) as (q & Eq & Hq).
  exists q. split; [now rewrite Eq | exact Hq].
Qed.

(** The digits scanned by [int] are the whole numeral. *)
Lemma int_too_long_digits (s : string) :
  all_digits s = true -> s <> EmptyString -> digits_count s <= MAX_STR_DIGITS -> int_too_long s = None.
Proof.
  intros H Hne Hc. unfold int_too_long. rewrite strip_digits by exact H.
  destruct s as [|a s']; [congruence|].
  rewrite split_sign_digit by (unfold all_digits in H; simpl in H; now apply andb_prop in H).
  rewrite span_digits_all by exact H. cbv iota beta.
  replace (MAX_STR_DIGITS <? digits_count (String a s')) with false by (symmetry; apply Z.ltb_ge; lia).
  now rewrite andb_false_r.
Qed.

Lemma digits_value_from_ge (acc : Z) (s : string) : 0 <= acc -> acc <= digits_value_from acc s.
Proof.
  revert acc. induction s as [|a s IH]; intros acc H; simpl; [lia|].
  destruct (is_digit a); [|now apply IH].
  assert (0 <= digit_value a) by (unfold digit_value; lia).
  specialize (IH (acc * 10 + digit_value a) ltac:(lia)). lia.
Qed.

Lemma digits_value_nonneg (s : string) : 0 <= digits_value s.
Proof. apply digits_value_from_ge. lia. Qed.

(** [str(n)]: the digits, least significant last. *)
Lemma digits_of_nat_fuel_acc (f n : nat) (acc : string) :
  digits_of_nat_fuel f n acc = digits_of_nat_fuel f n EmptyString ++ acc.
Proof.
  revert n acc. induction f as [|f IH]; intros n acc; [reflexivity|]. simpl.
  destruct (Nat.ltb n 10); [reflexivity|].
  rewrite IH, (IH _ (String _ EmptyString)), string_app_assoc. reflexivity.
Qed.

Lemma digits_value_from_app (acc : Z) (s t : string) :
  digits_value_from acc (s ++ t) = digits_value_from (digits_value_from acc s) t.
Proof. revert acc. induction s as [|a s IH]; intros acc; simpl; [|destruct (is_digit a)]; auto. Qed.

Lemma digit_of_nat (k : nat) :
  is_digit (ascii_of_nat (48 + k mod 10)) = true
  /\ digit_value (ascii_of_nat (48 + k mod 10)) = Z.of_nat (k mod 10).
Proof.
  pose proof (Nat.mod_upper_bound k 10 ltac:(lia)).
  unfold is_digit, digit_value. rewrite nat_ascii_embedding by lia.
  split; [apply andb_true_intro; split; apply Nat.leb_le|f_equal]; lia.
Qed.

Lemma digits_of_nat_fuel_spec (f n : nat) :
  (n < f)%nat ->
  let s := digits_of_nat_fuel f n EmptyString in
  all_digits s = true /\ s <> EmptyString /\ digits_value s = Z.of_nat n.
Proof.
  revert n. induction f as [|f IH]; intros n Hn; [lia|]. cbn zeta. cbn [digits_of_nat_fuel].
  destruct (digit_of_nat n) as [Hd Hv]. set (d := ascii_of_nat (48 + n mod 10)) in *.
  destruct (Nat.ltb_spec n 10).
  - unfold all_digits, digits_value. cbn [list_ascii_of_string forallb digits_value_from].
    rewrite Hd, Hv, Nat.mod_small by lia. repeat split; try discriminate; lia.
  - destruct (IH (n / 10)%nat) as (Ha & Hne & Hval).
    { apply Nat.lt_le_trans with n; [apply Nat.div_lt|]; lia. }
    rewrite digits_of_nat_fuel_acc, all_digits_app. split; [|split].
    + rewrite Ha. unfold all_digits. cbn [list_ascii_of_string forallb]. now rewrite Hd.
    + destruct (digits_of_nat_fuel f (n / 10) EmptyString); [congruence | discriminate].
    + unfold digits_value in *. rewrite digits_value_from_app, Hval.
      cbn [digits_value_from]. rewrite Hd, Hv. pose proof (Nat.div_mod_eq n 10). lia.
Qed.

Lemma digits_count_app (s t : string) : digits_count (s ++ t) = digits_count s + digits_count t.
Proof. induction s as [|a s IH]; simpl; [reflexivity | rewrite IH; lia]. Qed.

(** [str(n)] of a number below 10^k has at most [k] digits. *)
Lemma digits_of_nat_fuel_count (f n : nat) (k : Z) :
  (n < f)%nat -> 0 < k -> Z.of_nat n < 10 ^ k -> digits_count (digits_of_nat_fuel f n EmptyString) <= k.
Proof.
  revert n k. induction f as [|f IH]; intros n k Hn Hk Hb; [lia|]. cbn [digits_of_nat_fuel].
  destruct (digit_of_nat n) as [Hd _].
  destruct (Nat.ltb_spec n 10).
  - cbn [digits_count]. rewrite Hd. lia.
  - rewrite digits_of_nat_fuel_acc, digits_count_app. cbn [digits_count]. rewrite Hd.
    assert (H10 : 10 <= Z.of_nat n) by lia.
    assert (Hk1 : 0 < k - 1).
    { destruct (Z.le_gt_cases k 1) as [Hle|]; [|lia].
      assert (10 ^ k <= 10 ^ 1) by (apply Z.pow_le_mono_r; lia). simpl in *. lia. }
    assert (Hq : Z.of_nat (n / 10) < 10 ^ (k - 1)).
    { rewrite Nat2Z.inj_div. apply Z.div_lt_upper_bound; [lia|].
      replace (Z.of_nat 10 * 10 ^ (k - 1)) with (10 ^ k); [exact Hb|].
      rewrite <- Z.pow_succ_r by lia. f_equal. lia. }
    specialize (IH (n / 10)%nat (k - 1) ltac:(apply Nat.lt_le_trans with n; [apply Nat.div_lt|]; lia) Hk1 Hq).
    lia.
Qed.

Lemma string_of_nat_count (n : nat) (k : Z) :
  0 < k -> Z.of_nat n < 10 ^ k -> digits_count (string_of_nat n) <= k.
Proof. apply digits_of_nat_fuel_count. lia. Qed.

Lemma string_of_nat_spec (n : nat) :
  all_digits (string_of_nat n) = true /\ string_of_nat n <> EmptyString
  /\ digits_value (string_of_nat n) = Z.of_nat n.
Proof. apply digits_of_nat_fuel_spec. lia. Qed.

Lemma py_int_digits (s : string) :
  all_digits s = true -> s <> EmptyString -> digits_count s <= MAX_STR_DIGITS ->
  py_int (PyStr s) = Ok (digits_value s).
Proof. intros H Hne Hc. simpl. now rewrite int_too_long_digits, parse_int_digits. Qed.

Lemma py_float_digits (s : string) :
  all_digits s = true -> s <> EmptyString -> int_fits (digits_value s) = true ->
  exists q, py_float (PyStr s) = Ok (Fin q) /\ (q == inject_Z (digits_value s))%Q.
Proof.
  intros H Hne Hfit. destruct (parse_float_digits s H Hne Hfit) as (q & E & Hq).
  exists q. simpl. now rewrite E.
Qed.

Example repr_str_examples :
  repr_str "TEA" = "'TEA'" /\ repr_str "it's" = String DQUOTE ("it's" ++ String DQUOTE EmptyString)
  /\ repr_str (String "'" (String DQUOTE EmptyString)) = String "'" ("\'" ++ String DQUOTE "'")
  /\ repr_str (String (ascii_of_nat 1) "\") = "'\x01\\'".
Proof. vm_compute. repeat split. Qed.
