(* ===== verification/DateTime.v ===== *)
(** [datetime] instants and their text.

    The clock of [Prelude.v] gives an instant as an integer number of
    microseconds; here it is read as microseconds since the Unix epoch
    (1970-01-01 00:00:00 UTC), which is what [datetime.now(UTC)] denotes.
    [to_civil] breaks an instant into the proleptic Gregorian date and the
    time of day, through the day count [civil_from_days] (the era / year
    of era decomposition of a 400-year cycle), and [str_datetime] is
    [str()] of an aware UTC [datetime]: [YYYY-MM-DD HH:MM:SS], the six
    digits of the microseconds when they are not zero, and [+00:00].
    The theorems: every field is in its range, and the fields give back
    the instant. *)

From Stdlib Require Import ZArith String Ascii List Lia.
From S2P Require Import Prelude.
Import ListNotations.

Local Open Scope string_scope.
Local Open Scope Z_scope.

(** ** Days and dates *)

(** The date of the day [z0] days after 1970-01-01. *)
Definition civil_from_days (z0 : Z) : Z * Z * Z :=
  let z := z0 + 719468 in
  let era := z / 146097 in
  let doe := z - era * 146097 in
  let yoe := (doe - doe / 1460 + doe / 36524 - doe / 146096) / 365 in
  let y := yoe + era * 400 in
  let doy := doe - (365 * yoe + yoe / 4 - yoe / 100) in
  let mp := (5 * doy + 2) / 153 in
  let d := doy - (153 * mp + 2) / 5 + 1 in
  let m := if mp <? 10 then mp + 3 else mp - 9 in
  (if m <=? 2 then y + 1 else y, m, d).

(** Its inverse: the day number of a date. *)
Definition days_from_civil (y0 m d : Z) : Z :=
  let y := if m <=? 2 then y0 - 1 else y0 in
  let era := y / 400 in
  let yoe := y - era * 400 in
  let mp := if 2 <? m then m - 3 else m + 9 in
  let doy := (153 * mp + 2) / 5 + d - 1 in
  let doe := yoe * 365 + yoe / 4 - yoe / 100 + doy in
  era * 146097 + doe - 719468.

(** ** Instants *)

Record civil : Type := mkCivil {
  year : Z; month : Z; day : Z;
  hour : Z; minute : Z; second : Z; microsecond : Z
}.

Definition US_PER_DAY : Z := 86400000000.

Definition to_civil (us : Z) : civil :=
  let '(y, m, d) := civil_from_days (us / US_PER_DAY) in
  let r := us mod US_PER_DAY in
  mkCivil y m d (r / 3600000000) (r / 60000000 mod 60) (r / 1000000 mod 60) (r mod 1000000).

Definition of_civil (c : civil) : Z :=
  days_from_civil (year c) (month c) (day c) * US_PER_DAY
  + hour c * 3600000000 + minute c * 60000000 + second c * 1000000 + microsecond c.

(** [%0nd]: the decimal digits of a non-negative integer, padded with
    zeros to [w] characters. *)
Definition pad (w : nat) (z : Z) : string :=
  let s := string_of_nat (Z.to_nat z) in
  String.concat "" (repeat "0" (w - String.length s)) ++ s.

(** [str(datetime)] of an aware UTC [datetime]. *)
Definition str_datetime (us : Z) : string :=
  let c := to_civil us in
  pad 4 (year c) ++ "-" ++ pad 2 (month c) ++ "-" ++ pad 2 (day c) ++ " "
  ++ pad 2 (hour c) ++ ":" ++ pad 2 (minute c) ++ ":" ++ pad 2 (second c)
  ++ (if microsecond c =? 0 then "" else "." ++ pad 6 (microsecond c))
  ++ "+00:00".

(** The ranges of the fields of a [datetime]. *)
Definition civil_ok (c : civil) : Prop :=
  1 <= month c <= 12 /\ 1 <= day c <= 31 /\ 0 <= hour c < 24 /\ 0 <= minute c < 60
  /\ 0 <= second c < 60 /\ 0 <= microsecond c < 1000000.

(** ** Lemmas *)

(** The year of era and the day of year stay in their ranges. *)
Lemma yoe_doy_bounds (doe : Z) : 0 <= doe < 146097 ->
  let yoe := (doe - doe / 1460 + doe / 36524 - doe / 146096) / 365 in
  0 <= yoe <= 399 /\ 0 <= doe - (365 * yoe + yoe / 4 - yoe / 100) <= 365.
Proof.
  intros H yoe. subst yoe.
  pose proof (Z.div_mod doe 1460 ltac:(lia)). pose proof (Z.mod_pos_bound doe 1460 ltac:(lia)).
  pose proof (Z.div_mod doe 36524 ltac:(lia)). pose proof (Z.mod_pos_bound doe 36524 ltac:(lia)).
  pose proof (Z.div_mod doe 146096 ltac:(lia)). pose proof (Z.mod_pos_bound doe 146096 ltac:(lia)).
  set (n := doe - doe / 1460 + doe / 36524 - doe / 146096).
  pose proof (Z.div_mod n 365 ltac:(lia)). pose proof (Z.mod_pos_bound n 365 ltac:(lia)).
  set (y := n / 365) in *.
  pose proof (Z.div_mod y 4 ltac:(lia)). pose proof (Z.mod_pos_bound y 4 ltac:(lia)).
  pose proof (Z.div_mod y 100 ltac:(lia)). pose proof (Z.mod_pos_bound y 100 ltac:(lia)).
  lia.
Qed.

(** The month index of a day of year, and the day of month it leaves. *)
Lemma mp_bounds (doy : Z) : 0 <= doy <= 365 ->
  let mp := (5 * doy + 2) / 153 in
  0 <= mp <= 11 /\ 1 <= doy - (153 * mp + 2) / 5 + 1 <= 31.
Proof.
  intros H mp. subst mp.
  pose proof (Z.div_mod (5 * doy + 2) 153 ltac:(lia)).
  pose proof (Z.mod_pos_bound (5 * doy + 2) 153 ltac:(lia)).
  set (q := (5 * doy + 2) / 153) in *.
  pose proof (Z.div_mod (153 * q + 2) 5 ltac:(lia)).
  pose proof (Z.mod_pos_bound (153 * q + 2) 5 ltac:(lia)).
  lia.
Qed.

(** [x / k] is [q] when [x] is [q * k] plus a remainder in range. *)
Lemma div_unique_pos (x k q r : Z) : 0 < k -> 0 <= r < k -> x = q * k + r -> x / k = q.
Proof. intros Hk Hr ->. rewrite Z.div_add_l by lia. rewrite Z.div_small by lia. lia. Qed.

(** [days_from_civil] inverts [civil_from_days]. *)
Lemma days_from_civil_from_days (z0 : Z) :
  let '(y, m, d) := civil_from_days z0 in days_from_civil y m d = z0.
Proof.
  unfold civil_from_days. cbv zeta.
  set (z := z0 + 719468).
  pose proof (Z.div_mod z 146097 ltac:(lia)). pose proof (Z.mod_pos_bound z 146097 ltac:(lia)).
  set (era := z / 146097) in *.
  assert (Hdoe : 0 <= z - era * 146097 < 146097) by lia.
  destruct (yoe_doy_bounds _ Hdoe) as [Hyoe Hdoy]. cbv zeta in Hyoe, Hdoy.
  set (doe := z - era * 146097) in *.
  set (yoe := (doe - doe / 1460 + doe / 36524 - doe / 146096) / 365) in *.
  set (doy := doe - (365 * yoe + yoe / 4 - yoe / 100)) in *.
  destruct (mp_bounds _ Hdoy) as [Hmp _]. cbv zeta in Hmp.
  set (mp := (5 * doy + 2) / 153) in *.
  assert (Hera : (yoe + era * 400) / 400 = era) by (apply div_unique_pos with yoe; lia).
  unfold days_from_civil.
  destruct (Z.ltb_spec mp 10).
  - replace (mp + 3 <=? 2) with false by lia. replace (2 <? mp + 3) with true by lia.
    rewrite Hera. replace (mp + 3 - 3) with mp by lia.
    replace (yoe + era * 400 - era * 400) with yoe by lia. subst doy doe. lia.
  - replace (mp - 9 <=? 2) with true by lia. replace (2 <? mp - 9) with false by lia.
    replace (yoe + era * 400 + 1 - 1) with (yoe + era * 400) by lia.
    rewrite Hera. replace (mp - 9 + 9) with mp by lia.
    replace (yoe + era * 400 - era * 400) with yoe by lia. subst doy doe. lia.
Qed.

Lemma time_of_day_split (r : Z) : 0 <= r ->
  r = r / 3600000000 * 3600000000 + r / 60000000 mod 60 * 60000000
      + r / 1000000 mod 60 * 1000000 + r mod 1000000.
Proof.
  intros Hr.
  pose proof (Z.div_mod r 1000000 ltac:(lia)). pose proof (Z.mod_pos_bound r 1000000 ltac:(lia)).
  pose proof (Z.div_mod r 60000000 ltac:(lia)). pose proof (Z.mod_pos_bound r 60000000 ltac:(lia)).
  pose proof (Z.div_mod r 3600000000 ltac:(lia)). pose proof (Z.mod_pos_bound r 3600000000 ltac:(lia)).
  pose proof (Z.div_mod (r / 1000000) 60 ltac:(lia)). pose proof (Z.mod_pos_bound (r / 1000000) 60 ltac:(lia)).
  pose proof (Z.div_mod (r / 60000000) 60 ltac:(lia)). pose proof (Z.mod_pos_bound (r / 60000000) 60 ltac:(lia)).
  rewrite (Z.div_div r 1000000 60) in * by lia. rewrite (Z.div_div r 60000000 60) in * by lia.
  lia.
Qed.

(** The fields [str()] prints for an instant give the instant back. *)
Lemma to_civil_roundtrip (us : Z) : of_civil (to_civil us) = us.
Proof.
  unfold to_civil. pose proof (days_from_civil_from_days (us / US_PER_DAY)) as Hd.
  destruct (civil_from_days (us / US_PER_DAY)) as [[y m] d]. unfold of_civil. cbn -[Z.mul Z.add Z.div Z.modulo].
  rewrite Hd.
  pose proof (Z.div_mod us US_PER_DAY ltac:(unfold US_PER_DAY; lia)).
  pose proof (Z.mod_pos_bound us US_PER_DAY ltac:(unfold US_PER_DAY; lia)).
  pose proof (time_of_day_split (us mod US_PER_DAY)). lia.
Qed.

(** Every field [str()] prints for an instant is in its range. *)
Lemma to_civil_bounds (us : Z) : civil_ok (to_civil us).
Proof.
  unfold civil_ok, to_civil, civil_from_days. cbv zeta.
  set (z := us / US_PER_DAY + 719468).
  pose proof (Z.div_mod z 146097 ltac:(lia)). pose proof (Z.mod_pos_bound z 146097 ltac:(lia)).
  assert (Hdoe : 0 <= z - z / 146097 * 146097 < 146097) by lia.
  destruct (yoe_doy_bounds _ Hdoe) as [_ Hdoy]. cbv zeta in Hdoy.
  destruct (mp_bounds _ Hdoy) as [Hmp Hd]. cbv zeta in Hmp, Hd.
  pose proof (Z.mod_pos_bound us US_PER_DAY ltac:(unfold US_PER_DAY; lia)).
  set (r := us mod US_PER_DAY) in *. unfold US_PER_DAY in *.
  pose proof (Z.mod_pos_bound r 1000000 ltac:(lia)).
  pose proof (Z.mod_pos_bound (r / 60000000) 60 ltac:(lia)).
  pose proof (Z.mod_pos_bound (r / 1000000) 60 ltac:(lia)).
  assert (0 <= r / 3600000000 < 24) by (split; [apply Z.div_pos | apply Z.div_lt_upper_bound]; lia).
  lazy beta iota zeta. cbn [month day hour minute second microsecond].
  repeat split; try lia; match goal with |- context [?a <? 10] => destruct (Z.ltb_spec a 10) end; lia.
Qed.

Example str_datetime_examples :
  str_datetime 0 = "1970-01-01 00:00:00+00:00"
  /\ str_datetime 1700000000123456 = "2023-11-14 22:13:20.123456+00:00"
  /\ str_datetime 1709164800000001 = "2024-02-29 00:00:00.000001+00:00"
  /\ str_datetime 951868799999999 = "2000-02-29 23:59:59.999999+00:00"
  /\ str_datetime (-1) = "1969-12-31 23:59:59.999999+00:00".
Proof. vm_compute. repeat split. Qed.
