(* ===== verification/Stock.v ===== *)
(** Stocks and the registry of stocks.

    [Stock] is [class Stock] of [src/Trading_sim.py] (lines 15-40) with
    its five slots; [Stock_init] is its [__init__], which checks the
    mandatory fields against [None], lower-cases the type, requires and
    coerces [fixed_div] for preferred stocks, and coerces [last_div] and
    [par_value] with [int()].  The registry is the dict [stocks] built by
    the comprehension of lines 165-173: a Python dict keeps its keys in
    insertion order and a repeated key keeps its first position and takes
    the last value, so it is modelled as an association list with those
    semantics ([dict_set]).  [validate_symbol] is lines 145-147. *)

From Stdlib Require Import ZArith QArith String Ascii List Bool Lia.
From S2P Require Import Prelude PyFloat PyBuiltins.
Import ListNotations.

Local Open Scope string_scope.
Local Open Scope py_scope.
Local Open Scope Z_scope.

Record Stock : Type := mkStock {
  symbol : string;
  typ : string;
  last_div : Z;
  fixed_div : pyval;
  par_value : Z
}.

(** [typ.lower()]: only a [str] has the method. *)
Definition py_lower (v : pyval) : result string :=
  match v with
  | PyStr s => Ok (lower s)
  | PyNone => Raise (AttributeError "'NoneType' object has no attribute 'lower'")
  | PyInt _ => Raise (AttributeError "'int' object has no attribute 'lower'")
  | PyFloat _ => Raise (AttributeError "'float' object has no attribute 'lower'")
  end.

(** Lines 22-26: a preferred stock needs a fixed dividend, coerced with
    [int()]; any other type keeps the value it was given. *)
Definition fixed_div_of (t : string) (fd : pyval) : result pyval :=
  if String.eqb t "preferred" then
    if is_None fd then Raise (ValueError "fixed_div cannot be None for preferred stock!")
    else (z <-- py_int fd ;; Ok (PyInt z))
  else Ok fd.

Definition Stock_init (sym : option string) (typ0 last_div0 fixed_div0 par_value0 : pyval)
  : result Stock :=
  if match sym with None => true | Some _ => false end
     || is_None typ0 || is_None last_div0 || is_None par_value0 then
    Raise (ValueError "Mandatory fields (symbol, type, last_div, par_value) cannot be None!")
  else
    t <-- py_lower typ0 ;;
    fd <-- fixed_div_of t fixed_div0 ;;
    ld <-- py_int last_div0 ;;
    pv <-- py_int par_value0 ;;
    match sym with
    | Some s => Ok (mkStock s t ld fd pv)
    | None => Raise (ValueError "Mandatory fields (symbol, type, last_div, par_value) cannot be None!")
    end.

(** ** The dict of stocks *)

Definition dict := list (string * Stock).

Fixpoint dict_get (d : dict) (k : string) : option Stock :=
  match d with
  | [] => None
  | (k', v) :: d' => if String.eqb k k' then Some v else dict_get d' k
  end.

(** [d[k] = v]: in place when [k] is present, at the end otherwise. *)
Fixpoint dict_set (d : dict) (k : string) (v : Stock) : dict :=
  match d with
  | [] => [(k, v)]
  | (k', v') :: d' =>
      if String.eqb k k' then (k', v) :: d' else (k', v') :: dict_set d' k v
  end.

Definition dict_mem (k : string) (d : dict) : bool :=
  match dict_get d k with Some _ => true | None => false end.

Definition dict_keys (d : dict) : list string := map fst d.

Definition dict_values (d : dict) : list Stock := map snd d.

(** [{stock.symbol: stock for stock in l}]. *)
Definition stocks_of_list (l : list Stock) : dict :=
  fold_left (fun d s => dict_set d (symbol s) s) l [].

(** The catalogue of lines 165-173; the comprehension raises if one of
    the constructions does. *)
Definition catalogue : list (result Stock) :=
  [ Stock_init (Some "TEA") (PyStr "common") (PyInt 0) PyNone (PyInt 100);
    Stock_init (Some "POP") (PyStr "common") (PyInt 8) PyNone (PyInt 100);
    Stock_init (Some "ALE") (PyStr "common") (PyInt 23) PyNone (PyInt 60);
    Stock_init (Some "GIN") (PyStr "preferred") (PyInt 8) (PyInt 2) (PyInt 100);
    Stock_init (Some "JOE") (PyStr "common") (PyInt 13) PyNone (PyInt 250) ].

Definition stocks0 : result dict :=
  l <-- all_ok catalogue ;; Ok (stocks_of_list l).

(** ** [validate_symbol] *)

Fixpoint join_repr (l : list string) : string :=
  match l with
  | [] => ""
  | [s] => repr_str s
  | s :: l' => repr_str s ++ ", " ++ join_repr l'
  end.

Definition validate_symbol (sym : string) (stocks : dict) : result unit :=
  if negb (dict_mem sym stocks) then
    Raise (ValueError ("Invalid stock symbol(" ++ sym ++ "). Choose from: ["
                       ++ join_repr (dict_keys stocks) ++ "]"))
  else Ok tt.

(** ** Well-formed dicts: distinct keys, each the symbol of its stock *)

Definition dict_wf (d : dict) : Prop :=
  NoDup (dict_keys d) /\ Forall (fun kv => symbol (snd kv) = fst kv) d.

(** ** Lemmas *)

Lemma dict_get_set_eq (d : dict) (k : string) (v : Stock) :
  dict_get (dict_set d k v) k = Some v.
Proof.
  induction d as [|[k' v'] d IH]; simpl; rewrite ?String.eqb_refl; [reflexivity|].
  destruct (String.eqb k k') eqn:E; simpl; rewrite ?E; [reflexivity | exact IH].
Qed.

Lemma dict_get_set_ne (d : dict) (k j : string) (v : Stock) :
  k <> j -> dict_get (dict_set d k v) j = dict_get d j.
Proof.
  intros Hne. induction d as [|[k' v'] d IH]; simpl.
  - apply String.eqb_neq in Hne. rewrite String.eqb_sym, Hne. reflexivity.
  - destruct (String.eqb k k') eqn:E; simpl.
    + apply String.eqb_eq in E; subst k'.
      apply String.eqb_neq in Hne. rewrite String.eqb_sym, Hne. reflexivity.
    + rewrite IH. reflexivity.
Qed.

Lemma dict_keys_set_in (d : dict) (k : string) (v : Stock) :
  List.In k (dict_keys d) -> dict_keys (dict_set d k v) = dict_keys d.
Proof.
  induction d as [|[k' v'] d IH]; simpl; [tauto|]. intros H.
  destruct (String.eqb k k') eqn:E; simpl; [reflexivity|].
  apply String.eqb_neq in E. rewrite IH; [reflexivity|]. destruct H; congruence.
Qed.

Lemma dict_keys_set_notin (d : dict) (k : string) (v : Stock) :
  ~ List.In k (dict_keys d) -> dict_keys (dict_set d k v) = (dict_keys d ++ [k])%list.
Proof.
  induction d as [|[k' v'] d IH]; simpl; [reflexivity|]. intros H.
  destruct (String.eqb k k') eqn:E.
  - apply String.eqb_eq in E; subst; tauto.
  - simpl. rewrite IH; tauto.
Qed.

Lemma dict_get_In (d : dict) (k : string) (v : Stock) :
  dict_get d k = Some v -> List.In (k, v) d.
Proof.
  induction d as [|[k' v'] d IH]; simpl; [discriminate|].
  destruct (String.eqb k k') eqn:E; [|intuition].
  apply String.eqb_eq in E. intros H; inv H. now left.
Qed.

Lemma dict_set_Forall (P : string * Stock -> Prop) (d : dict) (k : string) (v : Stock) :
  Forall P d -> P (k, v) -> Forall P (dict_set d k v).
Proof.
  induction d as [|[k' v'] d IH]; simpl; intros Hd Hv; [auto|].
  inv Hd. destruct (String.eqb k k') eqn:E.
  - apply String.eqb_eq in E; subst. now constructor.
  - constructor; auto.
Qed.

Lemma dict_set_wf (d : dict) (v : Stock) :
  dict_wf d -> dict_wf (dict_set d (symbol v) v).
Proof.
  intros [Hnd Hsym]. split.
  - destruct (in_dec string_dec (symbol v) (dict_keys d)) as [Hin|Hnin].
    + now rewrite dict_keys_set_in.
    + rewrite dict_keys_set_notin by exact Hnin.
      apply NoDup_app; [exact Hnd | repeat constructor; simpl; tauto |].
      intros x Hx [<-|[]]. contradiction.
  - apply dict_set_Forall; [exact Hsym | reflexivity].
Qed.

Lemma stocks_of_list_wf (l : list Stock) : dict_wf (stocks_of_list l).
Proof.
  unfold stocks_of_list.
  assert (H0 : dict_wf []) by (split; constructor).
  revert H0. generalize (@nil (string * Stock)).
  induction l as [|s l IH]; simpl; intros d Hd; [exact Hd|].
  apply IH, dict_set_wf, Hd.
Qed.

Lemma py_int_not_None (v : pyval) (z : Z) : py_int v = Ok z -> is_None v = false.
Proof. destruct v; simpl; congruence. Qed.

Lemma py_lower_not_None (v : pyval) (s : string) : py_lower v = Ok s -> is_None v = false.
Proof. destruct v; simpl; congruence. Qed.

Lemma fixed_div_of_ok (t : string) (fd x : pyval) :
  fixed_div_of t fd = Ok x <->
  (if String.eqb t "preferred" then exists z, x = PyInt z /\ py_int fd = Ok z else x = fd).
Proof.
  unfold fixed_div_of. destruct (String.eqb t "preferred").
  - destruct (is_None fd) eqn:Hn.
    + destruct fd; try discriminate. simpl.
      split; [discriminate | intros (z & _ & H); discriminate].
    + destruct (py_int fd) as [z|e]; simpl; split.
      * intros H; inv H; eauto.
      * intros (z' & -> & H); now inv H.
      * discriminate.
      * intros (z' & _ & H); discriminate.
  - split; [intros H; now inv H | intros ->; reflexivity].
Qed.

Lemma Stock_init_ok_aux (sym : option string) (t ld fd pv : pyval) (s : Stock) :
  Stock_init sym t ld fd pv = Ok s <->
  Some (symbol s) = sym /\ py_lower t = Ok (typ s)
  /\ fixed_div_of (typ s) fd = Ok (fixed_div s)
  /\ py_int ld = Ok (last_div s) /\ py_int pv = Ok (par_value s).
Proof.
  unfold Stock_init. split.
  - destruct sym as [x|]; simpl; [|discriminate].
    destruct (is_None t || is_None ld || is_None pv); [discriminate|].
    destruct (py_lower t) as [ty|] eqn:Ht; simpl; [|discriminate].
    destruct (fixed_div_of ty fd) eqn:Hf; simpl; [|discriminate].
    destruct (py_int ld) eqn:Hl; simpl; [|discriminate].
    destruct (py_int pv) eqn:Hp; simpl; [|discriminate].
    intros H; inv H; simpl; auto.
  - intros (Hs & Ht & Hf & Hl & Hp). subst sym. simpl.
    rewrite (py_lower_not_None _ _ Ht), (py_int_not_None _ _ Hl),
      (py_int_not_None _ _ Hp). simpl.
    rewrite Ht. simpl.
    rewrite Hf, Hl, Hp. destruct s; reflexivity.
Qed.

(** C13: The constructor succeeds exactly when the symbol is given, the
    type is a string, [int()] converts the last dividend and the par
    value, and, when the lower-cased type is "preferred", [int()] converts
    the fixed dividend; the stock then holds the lower-cased type, the
    converted integers, and the fixed dividend converted for a preferred
    stock and as given for any other. *)
Theorem Stock_init_ok (sym : option string) (t ld fd pv : pyval) (s : Stock) :
  Stock_init sym t ld fd pv = Ok s <->
  Some (symbol s) = sym /\ py_lower t = Ok (typ s)
  /\ py_int ld = Ok (last_div s) /\ py_int pv = Ok (par_value s)
  /\ (if String.eqb (typ s) "preferred" then exists z, py_int fd = Ok z /\ fixed_div s = PyInt z
      else fixed_div s = fd).
Proof.
  rewrite Stock_init_ok_aux, fixed_div_of_ok.
  destruct (String.eqb (typ s) "preferred").
  - split; intros (H1 & H2 & H3 & H4 & H5); repeat split; try assumption;
      destruct H3 as (z & ? & ?) || destruct H5 as (z & ? & ?); eauto.
  - tauto.
Qed.

Lemma Stock_init_ok_witness :
  Stock_init (Some "GIN") (PyStr "Preferred") (PyInt 8) (PyStr " 2 ") (PyInt 100)
  = Ok (mkStock "GIN" "preferred" 8 (PyInt 2) 100)
  /\ (Some "GIN" = Some "GIN" /\ py_lower (PyStr "Preferred") = Ok "preferred"
      /\ py_int (PyInt 8) = Ok 8 /\ py_int (PyInt 100) = Ok 100
      /\ (if String.eqb "preferred" "preferred" then exists z, py_int (PyStr " 2 ") = Ok z /\ PyInt 2 = PyInt z
          else PyInt 2 = PyStr " 2 ")).
Proof.
  assert (H : Stock_init (Some "GIN") (PyStr "Preferred") (PyInt 8) (PyStr " 2 ") (PyInt 100)
              = Ok (mkStock "GIN" "preferred" 8 (PyInt 2) 100)) by (vm_compute; reflexivity).
  exact (conj H (proj1 (Stock_init_ok _ _ _ _ _ _) H)).
Defined.

(** C21: The constructor does not check the type: any string other than
    "preferred" is accepted and stored lower-cased, with the fixed
    dividend kept as given (here [None]). *)
Theorem Stock_init_any_type (sym t : string) (ld pv : Z) :
  lower t <> "preferred" ->
  Stock_init (Some sym) (PyStr t) (PyInt ld) PyNone (PyInt pv)
  = Ok (mkStock sym (lower t) ld PyNone pv).
Proof.
  intros Ht. unfold Stock_init. simpl. unfold fixed_div_of.
  apply String.eqb_neq in Ht. rewrite Ht. reflexivity.
Qed.

Lemma Stock_init_any_type_witness :
  Stock_init (Some "BND") (PyStr "Bond") (PyInt 5) PyNone (PyInt 100)
  = Ok (mkStock "BND" "bond" 5 PyNone 100).
Proof. apply (Stock_init_any_type "BND" "Bond" 5 100). discriminate. Defined.

Lemma stocks0_value_aux :
  stocks0 = Ok [("TEA", mkStock "TEA" "common" 0 PyNone 100);
                ("POP", mkStock "POP" "common" 8 PyNone 100);
                ("ALE", mkStock "ALE" "common" 23 PyNone 60);
                ("GIN", mkStock "GIN" "preferred" 8 (PyInt 2) 100);
                ("JOE", mkStock "JOE" "common" 13 PyNone 250)]
  /\ forall d, stocks0 = Ok d -> dict_wf d.
Proof.
  split; [vm_compute; reflexivity|].
  unfold stocks0. destruct (all_ok catalogue); simpl; [|discriminate].
  intros d H; inv H. apply stocks_of_list_wf.
Qed.



Lemma validate_symbol_spec_aux (sym : string) (d : dict) :
  (validate_symbol sym d = Ok tt <-> exists s, dict_get d sym = Some s)
  /\ (forall e, validate_symbol sym d = Raise e -> is_ValueError e = true).
Proof.
  unfold validate_symbol, dict_mem.
  destruct (dict_get d sym); simpl; split.
  - split; eauto.
  - discriminate.
  - split; [discriminate | intros [s H]; discriminate].
  - intros e H; now inv H.
Qed.

(** C23: [validate_symbol] accepts exactly the symbols of the dict, and
    otherwise raises [ValueError]. *)
Theorem validate_symbol_spec (sym : string) (d : dict) :
  (validate_symbol sym d = Ok tt <-> exists s, dict_get d sym = Some s)
  /\ (forall e, validate_symbol sym d = Raise e -> is_ValueError e = true).
Proof. apply validate_symbol_spec_aux. Qed.
