(* ===== verification/Trade.v ===== *)
(** Trades and the ledger.

    [Trade] is [class Trade] of [src/Trading_sim.py] (lines 43-66).  Its
    [__init__] first reads the wall clock (line 47), then coerces the
    quantity with [int()] and the price with [float()], checks the
    mandatory fields, the signs and the buy/sell indicator: [Trade_init]
    reads the clock with [now_utc] and runs the rest, [Trade_fields], as a
    pure function of the instant read.  [buy] and [sell] are lines 69-77.
    The ledger is the list [trades] of the command loop, which appends
    each trade [buy] or [sell] returns (line 200); [ledger_reach] is the
    set of ledgers the loop can build, with every clock reading the other
    commands consume, and [ledger_inv] is what holds of all of them. *)

From Stdlib Require Import ZArith QArith String Ascii List Bool Lia Sorted.
From S2P Require Import Prelude PyFloat PyBuiltins Stock.
Import ListNotations.

Local Open Scope string_scope.
Local Open Scope py_scope.
Local Open Scope Z_scope.
Local Open Scope list_scope.

Record Trade : Type := mkTrade {
  instant : Z;
  stock : Stock;
  is_buy : bool;
  qty : Z;
  price : float
}.

(** Lines 48-60, once the instant has been read. *)
Definition Trade_fields (inst : Z) (stock0 : option Stock) (indicator : option string)
  (qty0 price0 : pyval) : result Trade :=
  q <-- py_int qty0 ;;
  p <-- py_float price0 ;;
  match stock0, indicator with
  | Some st, Some ind =>
      if (q <=? 0) || fle p (Fin 0) then
        Raise (ValueError "Price and quantity must be greater than 0")
      else
        let ind' := lower ind in
        if negb (String.eqb ind' "buy" || String.eqb ind' "sell") then
          Raise (ValueError ("Invalid buy/sell indicator " ++ ind')%string)
        else Ok (mkTrade inst st (String.eqb ind' "buy") q p)
  | _, _ => Raise (ValueError "Mandatory fields (stock, indicator, qty, price) cannot be None!")
  end.

Definition Trade_init (stock0 : option Stock) (indicator : option string)
  (qty0 price0 : pyval) : Py Trade :=
  inst <- now_utc ;;
  lift (Trade_fields inst stock0 indicator qty0 price0).

Definition buy (st : Stock) (qty0 price0 : pyval) : Py Trade :=
  Trade_init (Some st) (Some "buy") qty0 price0.

Definition sell (st : Stock) (qty0 price0 : pyval) : Py Trade :=
  Trade_init (Some st) (Some "sell") qty0 price0.

(** ** The ledger *)

Definition ledger := list Trade.

(** [trades.append(trade)]. *)
Definition append (l : ledger) (t : Trade) : ledger := l ++ [t].

(** What the constructor guarantees of a trade: a positive quantity and
    a price that is not [<= 0] (a positive float or NaN). *)
Definition trade_valid (t : Trade) : bool :=
  (0 <? qty t) && negb (fle (price t) (Fin 0)).

(** The ledgers the command loop can build from the clock [c], indexed by
    the number of readings consumed: a successful [buy] or [sell] appends
    its trade, a failed one leaves the ledger as it was, and any other
    command may consume clock readings. *)
Inductive ledger_reach (c : clock) : nat -> ledger -> Prop :=
| reach_init n : ledger_reach c n []
| reach_trade n l st ind q p t :
    ledger_reach c n l ->
    fst (Trade_init (Some st) (Some ind) q p c n) = Ok t ->
    ledger_reach c (S n) (append l t)
| reach_fail n l st ind q p e :
    ledger_reach c n l ->
    fst (Trade_init (Some st) (Some ind) q p c n) = Raise e ->
    ledger_reach c (S n) l
| reach_read n l : ledger_reach c n l -> ledger_reach c (S n) l.

Definition monotone (c : clock) : Prop := forall i j, (i <= j)%nat -> c i <= c j.

Definition ledger_inv (c : clock) (n : nat) (l : ledger) : Prop :=
  Forall (fun t => trade_valid t = true) l
  /\ Forall (fun t => exists k, (k < n)%nat /\ instant t = c k) l
  /\ (monotone c -> Sorted (fun a b => instant a <= instant b) l).

(** ** Lemmas *)

(** The constructor reads the clock exactly once, also when it raises. *)
Lemma Trade_init_run (st : option Stock) (ind : option string) (q p : pyval) c n :
  Trade_init st ind q p c n = (Trade_fields (c n) st ind q p, S n).
Proof. reflexivity. Qed.

Lemma Trade_fields_ok inst st ind q0 p0 t :
  Trade_fields inst (Some st) (Some ind) q0 p0 = Ok t ->
  py_int q0 = Ok (qty t) /\ py_float p0 = Ok (price t) /\ trade_valid t = true
  /\ (lower ind = "buy" \/ lower ind = "sell")
  /\ is_buy t = String.eqb (lower ind) "buy" /\ instant t = inst /\ stock t = st.
Proof.
  unfold Trade_fields.
  destruct (py_int q0) as [q|e]; simpl; [|discriminate].
  destruct (py_float p0) as [p|e]; simpl; [|discriminate].
  destruct ((q <=? 0) || fle p (Fin 0)) eqn:G; [discriminate|].
  apply orb_false_iff in G as [Gq Gp].
  destruct (String.eqb (lower ind) "buy") eqn:B; simpl;
    [|destruct (String.eqb (lower ind) "sell") eqn:S; simpl; [|discriminate]];
    intros H; inv H; simpl; unfold trade_valid; simpl;
    rewrite Gp; (repeat split; auto);
    try (apply andb_true_intro; split; [apply Z.ltb_lt; apply Z.leb_gt in Gq; lia | reflexivity]);
    [left | right]; now apply String.eqb_eq.
Qed.

Lemma Forall_append {A} (P : A -> Prop) (l : list A) (x : A) :
  Forall P l -> P x -> Forall P (l ++ [x]).
Proof. intros Hl Hx. apply Forall_app; auto. Qed.

Lemma Sorted_append {A} (R : A -> A -> Prop) (l : list A) (x : A) :
  Sorted R l -> Forall (fun y => R y x) l -> Sorted R (l ++ [x]).
Proof.
  induction l as [|a l IH]; simpl; intros Hs Hf; [auto|].
  inv Hs. inv Hf. constructor; [now apply IH|].
  destruct l as [|b l]; simpl; constructor.
  - assumption.
  - now inv H2.
Qed.

Lemma Forall_clock_mono (c : clock) (l : ledger) (n : nat) :
  Forall (fun t => exists k, (k < n)%nat /\ instant t = c k) l ->
  Forall (fun t => exists k, (k < S n)%nat /\ instant t = c k) l.
Proof. apply Forall_impl. intros t (k & Hk & E). exists k. split; [lia | exact E]. Qed.

Lemma earlier_instants_le (c : clock) (n : nat) (l : ledger) :
  monotone c ->
  Forall (fun t => exists k, (k < n)%nat /\ instant t = c k) l ->
  Forall (fun y => instant y <= c n) l.
Proof.
  intros Hm. apply Forall_impl. intros t (k & Hk & ->). apply Hm. lia.
Qed.

Lemma ledger_reach_inv_aux (c : clock) (n : nat) (l : ledger) :
  ledger_reach c n l -> ledger_inv c n l.
Proof.
  induction 1 as [n|n l st ind q p t _ (F1 & F2 & F3) Ht|n l st ind q p e _ (F1 & F2 & F3) _
                 |n l _ (F1 & F2 & F3)];
    try (split; [|split]; auto using Forall_clock_mono; fail).
  simpl in Ht. apply Trade_fields_ok in Ht as (_ & _ & Hv & _ & _ & Hi & _).
  split; [|split].
  - now apply Forall_append.
  - apply Forall_append; [now apply Forall_clock_mono | exists n; split; [lia | exact Hi]].
  - intros Hm. apply Sorted_append; [now apply F3|].
    rewrite Hi. now apply earlier_instants_le.
Qed.

Definition clock_const (z : Z) : clock := fun _ => z.

Definition TEA : Stock := mkStock "TEA" "common" 0 PyNone 100.

(** C7: The constructor reads the clock once and succeeds exactly when the
    quantity converts to a positive [int], the price converts to a float
    that is not [<= 0], and the indicator lower-cases to "buy" or "sell";
    the trade then carries the instant read, the stock, the side and the
    converted values. *)
Theorem Trade_init_ok (st : Stock) (ind : string) (q0 p0 : pyval) (c : clock) (n : nat) (t : Trade) :
  Trade_init (Some st) (Some ind) q0 p0 c n = (Ok t, S n) <->
  t = mkTrade (c n) st (String.eqb (lower ind) "buy") (qty t) (price t)
  /\ py_int q0 = Ok (qty t) /\ py_float p0 = Ok (price t)
  /\ 0 < qty t /\ fle (price t) (Fin 0) = false
  /\ (lower ind = "buy" \/ lower ind = "sell").
Proof.
  rewrite Trade_init_run. split.
  - intros H. inv H. rename H1 into H.
    pose proof H as H'. apply Trade_fields_ok in H' as (Hq & Hp & Hv & Hind & Hb & Hi & Hs).
    unfold trade_valid in Hv. apply andb_true_iff in Hv as [Hq0 Hp0].
    apply Z.ltb_lt in Hq0. apply negb_true_iff in Hp0.
    repeat split; auto. destruct t; simpl in *; congruence.
  - destruct t as [i s b q p]; simpl.
    intros (Ht & Hq & Hp & Hq0 & Hp0 & Hind). rewrite Ht. f_equal.
    unfold Trade_fields. rewrite Hq, Hp. simpl.
    replace (q <=? 0) with false by (symmetry; apply Z.leb_gt; lia).
    rewrite Hp0. simpl.
    destruct Hind as [Hb|Hs]; rewrite ?Hb, ?Hs; reflexivity.
Qed.

(** C14: A quantity that converts to an [int] [<= 0], or a price that
    converts to a float [<= 0], makes the constructor raise [ValueError]. *)
Theorem Trade_init_nonpositive (st : Stock) (ind : string) (q0 p0 : pyval) (q : Z) (p : float) c n :
  py_int q0 = Ok q -> py_float p0 = Ok p -> (q <= 0 \/ fle p (Fin 0) = true) ->
  fst (Trade_init (Some st) (Some ind) q0 p0 c n)
  = Raise (ValueError "Price and quantity must be greater than 0").
Proof.
  intros Hq Hp H. rewrite Trade_init_run. simpl. unfold Trade_fields.
  rewrite Hq, Hp. simpl.
  replace ((q <=? 0) || fle p (Fin 0)) with true; [reflexivity|].
  destruct H as [H|H]; [apply Z.leb_le in H|]; rewrite H; [reflexivity|symmetry; apply orb_true_r].
Qed.

Lemma Trade_init_nonpositive_witness :
  fst (Trade_init (Some TEA) (Some "buy") (PyStr "0") (PyStr "1.5") (clock_const 0) 0%nat)
  = Raise (ValueError "Price and quantity must be greater than 0").
Proof. apply (Trade_init_nonpositive TEA "buy" (PyStr "0") (PyStr "1.5") 0 (Fin (15 # 10))); [reflexivity | vm_compute; reflexivity | left; lia]. Defined.

(** C15: The price guard [price <= 0] is false on NaN and on +inf: for any
    stock and any quantity string [int()] reads as positive, [buy]
    records a trade priced NaN from every price string that [float()]
    reads as NaN ("nan" in any case, with or without a sign and
    surrounding whitespace), and priced +inf from "inf" or "infinity" in
    any case without a minus sign. *)
Theorem buy_accepts_nan_inf (st : Stock) (q0 p0 : string) (q : Z) (c : clock) (n : nat) :
  py_int (PyStr q0) = Ok q -> 0 < q ->
  (lower (snd (split_sign (strip p0))) = "nan" ->
   buy st (PyStr q0) (PyStr p0) c n = (Ok (mkTrade (c n) st true q NaN), S n))
  /\ (fst (split_sign (strip p0)) = false ->
      lower (snd (split_sign (strip p0))) = "inf" \/ lower (snd (split_sign (strip p0))) = "infinity" ->
      buy st (PyStr q0) (PyStr p0) c n = (Ok (mkTrade (c n) st true q PInf), S n)).
Proof.
  intros Hq Hpos. unfold buy. rewrite Trade_init_run.
  unfold Trade_fields. rewrite Hq. cbn [rbind py_float]. unfold parse_float.
  destruct (split_sign (strip p0)) as [neg body]. cbn [fst snd].
  replace (q <=? 0) with false by (symmetry; apply Z.leb_gt; lia).
  split.
  - intros ->. reflexivity.
  - intros -> [-> | ->]; reflexivity.
Qed.

Lemma buy_accepts_nan_inf_witness :
  py_int (PyStr "10") = Ok 10 /\ 0 < 10
  /\ (lower (snd (split_sign (strip " -NaN "))) = "nan" ->
      buy TEA (PyStr "10") (PyStr " -NaN ") (clock_const 7) 0%nat = (Ok (mkTrade 7 TEA true 10 NaN), 1%nat))
  /\ (fst (split_sign (strip " -NaN ")) = false ->
      lower (snd (split_sign (strip " -NaN "))) = "inf" \/ lower (snd (split_sign (strip " -NaN "))) = "infinity" ->
      buy TEA (PyStr "10") (PyStr " -NaN ") (clock_const 7) 0%nat = (Ok (mkTrade 7 TEA true 10 PInf), 1%nat)).
Proof.
  assert (H1 : py_int (PyStr "10") = Ok 10) by reflexivity.
  assert (H2 : 0 < 10) by lia.
  exact (conj H1 (conj H2 (buy_accepts_nan_inf TEA "10" " -NaN " 10 (clock_const 7) 0 H1 H2))).
Defined.

(** The check of line 50 comes after the conversions of lines 48-49, so a
    [None] quantity raises [TypeError] from [int()], never the
    [ValueError] of the check. *)
Example Trade_init_None_qty (st : option Stock) (ind : option string) (p0 : pyval) c n :
  fst (Trade_init st ind PyNone p0 c n)
  = Raise (TypeError "int() argument must be a string, a bytes-like object or a real number, not 'NoneType'").
Proof. reflexivity. Qed.

(** With a wall clock that goes back between two trades, the ledger the
    loop builds is not in time order. *)
Example ledger_unsorted_clock_back :
  exists c n l, ledger_reach c n l /\ ~ Sorted (fun a b => instant a <= instant b) l.
Proof.
  set (c := fun k : nat => if Nat.eqb k 0 then 2000 else 1000).
  exists c, 2%nat,
    [mkTrade 2000 TEA true 5 (Fin 1); mkTrade 1000 TEA true 5 (Fin 1)].
  split.
  - change [mkTrade 2000 TEA true 5 (Fin 1); mkTrade 1000 TEA true 5 (Fin 1)]
      with (append (append [] (mkTrade 2000 TEA true 5 (Fin 1))) (mkTrade 1000 TEA true 5 (Fin 1))).
    apply (reach_trade c 1 _ TEA "buy" (PyStr "5") (PyStr "1")); [|reflexivity].
    apply (reach_trade c 0 [] TEA "buy" (PyStr "5") (PyStr "1")); [apply reach_init | reflexivity].
  - intros Hs. inv Hs. inv H2. simpl in H0. lia.
Qed.
