(* ===== verification/Metrics.v ===== *)
(** The per-stock metrics: dividend yield, P/E ratio, volume weighted price.

    [calc_div_yield] is lines 80-88 of [src/Trading_sim.py].  Its guard
    raises [valueError], a name that is not defined, so a non-positive
    price raises [NameError] (see [div_yield_nonpositive]).  [calc_ratio]
    is the stub of lines 91-93.  [calc_volume_weighted_price] is lines
    96-108: it reads the clock, then loops over all trades, adding price
    times quantity and quantity for the trades of the stock newer than five
    minutes; [vwap_at] is that computation at a given instant, [vwap_loop]
    the loop and [add_trade] its body.  [trade.price * trade.qty] and
    [weighted_price / volume] convert an [int] to a float, which raises
    [OverflowError] for an [int] out of range: the loop stops at the first
    such quantity, and the division at such a volume.  [calc_div_yield]
    converts [last_div], or [fixed_div * par_value], the same way.
    [vwap_spec] is the reference definition over the window: that
    [OverflowError], the "no activity" error of an empty window, and
    sum(price*qty)/sum(qty) otherwise; [vwap_refines_spec] shows the loop
    computes it. *)

From Stdlib Require Import ZArith QArith String Ascii List Bool Lia Lqa Setoid Morphisms.
From S2P Require Import Prelude PyFloat PyBuiltins Stock Trade.
Import ListNotations.

Local Open Scope string_scope.
Local Open Scope py_scope.
Local Open Scope Z_scope.

(** ** Dividend yield *)

(** [stock.fixed_div * stock.par_value] as the float that the division
    of line 88 sees: an [int] product is converted there (and raises
    [OverflowError] out of range), a [float] fixed dividend converts the
    par value; [None] fails the product and a [str] (which [*] repeats)
    fails the division. *)
Definition fixed_times_par (fd : pyval) (pv : Z) : result float :=
  match fd with
  | PyInt f => float_of_int (f * pv)
  | PyFloat x => v <-- float_of_int pv ;; Ok (fmul x v)
  | PyNone => Raise (TypeError "unsupported operand type(s) for *: 'NoneType' and 'int'")
  | PyStr _ => Raise (TypeError "unsupported operand type(s) for /: 'str' and 'float'")
  end.

(** Lines 80-88: [last_div / price] converts [last_div] to a float. *)
Definition calc_div_yield (st : Stock) (price0 : float) : result float :=
  if fle price0 (Fin 0) then Raise (NameError "name 'valueError' is not defined")
  else if String.eqb (lower (typ st)) "common" then
    ld <-- float_of_int (last_div st) ;;
    py_truediv ld price0
  else
    num <-- fixed_times_par (fixed_div st) (par_value st) ;;
    py_truediv num (fmul price0 (of_Z 100)).

Definition calc_ratio : Z := 0.

(** ** Volume weighted price *)

(** [timedelta(minutes=5)] in microseconds. *)
Definition FIVE_MINUTES : Z := 300000000.

(** The test of line 103. *)
Definition in_window (cutoff : Z) (sym : string) (t : Trade) : bool :=
  (cutoff <? instant t) && String.eqb (symbol (stock t)) sym.

(** Lines 104-105: [trade.price * trade.qty] converts the quantity to a
    float, which raises [OverflowError] for a quantity out of range. *)
Definition add_trade (acc : float * Z) (t : Trade) : result (float * Z) :=
  q <-- float_of_int (qty t) ;;
  Ok (fadd (fst acc) (fmul (price t) q), snd acc + qty t).

(** The loop of lines 102-105, left at the first exception. *)
Fixpoint vwap_loop (cutoff : Z) (sym : string) (acc : float * Z) (trades : list Trade)
  : result (float * Z) :=
  match trades with
  | [] => Ok acc
  | t :: ts =>
      if in_window cutoff sym t then (acc' <-- add_trade acc t ;; vwap_loop cutoff sym acc' ts)
      else vwap_loop cutoff sym acc ts
  end.

Definition no_activity_msg (sym : string) : string :=
  "Couldn't find any trading activity for " ++ sym ++ "!".

(** Lines 99-108 once [datetime.now(UTC)] has returned [now]; the
    division [weighted_price / volume] converts the volume. *)
Definition vwap_at (now : Z) (st : Stock) (trades : list Trade) : result float :=
  let cutoff := now - FIVE_MINUTES in
  acc <-- vwap_loop cutoff (symbol st) (Fin 0, 0) trades ;;
  if snd acc =? 0 then Raise (ValueError (no_activity_msg (symbol st)))
  else (v <-- float_of_int (snd acc) ;; py_truediv (fst acc) v).

Definition calc_volume_weighted_price (st : Stock) (trades : list Trade) : Py float :=
  now <- now_utc ;;
  lift (vwap_at now st trades).

(** ** Reference specification *)

Definition window (now : Z) (sym : string) (trades : list Trade) : list Trade :=
  filter (in_window (now - FIVE_MINUTES) sym) trades.

Definition is_fin (x : float) : bool := match x with Fin _ => true | _ => false end.

Definition price_q (t : Trade) : Q := match price t with Fin q => q | _ => 0%Q end.

Definition volume (w : list Trade) : Z := fold_right (fun t s => qty t + s) 0 w.

Definition notional (w : list Trade) : Q :=
  fold_right (fun t s => price_q t * inject_Z (qty t) + s)%Q 0%Q w.

(** Whether an [int] of the window has no float: one of its quantities,
    or its volume. *)
Definition window_overflows (w : list Trade) : bool :=
  negb (forallb (fun t => int_fits (qty t)) w && int_fits (volume w)).

(** [OverflowError] when the window holds an [int] with no float, no
    value when the window is empty, sum(price*qty)/sum(qty) otherwise. *)
Definition vwap_spec (now : Z) (st : Stock) (trades : list Trade) : result Q :=
  let w := window now (symbol st) trades in
  if window_overflows w then Raise (OverflowError INT_OVERFLOW_MSG)
  else match w with
       | [] => Raise (ValueError (no_activity_msg (symbol st)))
       | _ => Ok (notional w / inject_Z (volume w))%Q
       end.

(** ** Lemmas on the loop *)

(** The body of the loop on a quantity that converts. *)
Definition add_exact (acc : float * Z) (t : Trade) : float * Z :=
  (fadd (fst acc) (fmul (price t) (of_Z (qty t))), snd acc + qty t).

Lemma add_trade_fits (acc : float * Z) (t : Trade) :
  int_fits (qty t) = true -> add_trade acc t = Ok (add_exact acc t).
Proof. intros H. unfold add_trade. now rewrite float_of_int_fits. Qed.

Lemma add_trade_overflow (acc : float * Z) (t : Trade) :
  int_fits (qty t) = false -> add_trade acc t = Raise (OverflowError INT_OVERFLOW_MSG).
Proof. intros H. unfold add_trade. now rewrite float_of_int_overflow. Qed.

(** The loop raises exactly when a quantity of the window has no float,
    and otherwise accumulates the window. *)
Lemma vwap_loop_window (cutoff : Z) (sym : string) (ts : list Trade) (acc : float * Z) :
  vwap_loop cutoff sym acc ts =
  (let w := filter (in_window cutoff sym) ts in
   if forallb (fun t => int_fits (qty t)) w then Ok (fold_left add_exact w acc)
   else Raise (OverflowError INT_OVERFLOW_MSG)).
Proof.
  revert acc. induction ts as [|t ts IH]; intros acc; [reflexivity|]. cbn zeta in *. simpl.
  destruct (in_window cutoff sym t); [|apply IH]. simpl.
  destruct (int_fits (qty t)) eqn:E.
  - rewrite add_trade_fits by exact E. apply IH.
  - now rewrite add_trade_overflow.
Qed.

Lemma fold_add_volume (w : list Trade) (acc : float * Z) :
  snd (fold_left add_exact w acc) = snd acc + volume w.
Proof.
  revert acc. induction w as [|t w IH]; intros acc; simpl; [lia|].
  rewrite IH. simpl. lia.
Qed.

Lemma fold_add_notional (w : list Trade) (a : Q) (v : Z) :
  Forall (fun t => is_fin (price t) = true) w ->
  fst (fold_left add_exact w (Fin a, v)) =f= Fin (a + notional w).
Proof.
  revert a v. induction w as [|t w IH]; intros a v Hf; simpl.
  - lra.
  - inv Hf. unfold add_exact at 2. unfold price_q.
    destruct (price t) as [p| | |]; try discriminate.
    cbn [fst snd fadd fmul of_Z]. rewrite IH by assumption. simpl. lra.
Qed.

Lemma Forall_window (P : Trade -> Prop) (now : Z) (sym : string) (ts : list Trade) :
  Forall P ts -> Forall P (window now sym ts).
Proof.
  rewrite !Forall_forall. intros H t Ht. unfold window in Ht.
  apply filter_In in Ht. now apply H.
Qed.

Lemma volume_valid (w : list Trade) :
  Forall (fun t => trade_valid t = true) w -> 0 <= volume w /\ (volume w = 0 <-> w = []).
Proof.
  induction w as [|t w IH]; simpl; intros Hv; [split; [lia | tauto]|].
  inv Hv. unfold trade_valid in H1. apply andb_true_iff in H1 as [Hq _].
  apply Z.ltb_lt in Hq. destruct (IH H2) as [H0 _]. split; [lia|].
  split; [lia | discriminate].
Qed.

(** The function, read through the window: the quantities are converted
    in the loop, the volume at the division. *)
Lemma vwap_at_window (now : Z) (st : Stock) (ts : list Trade) :
  vwap_at now st ts =
  (let w := window now (symbol st) ts in
   if forallb (fun t => int_fits (qty t)) w then
     if volume w =? 0 then Raise (ValueError (no_activity_msg (symbol st)))
     else if int_fits (volume w) then py_truediv (fst (fold_left add_exact w (Fin 0, 0))) (of_Z (volume w))
     else Raise (OverflowError INT_OVERFLOW_MSG)
   else Raise (OverflowError INT_OVERFLOW_MSG)).
Proof.
  unfold vwap_at, window. rewrite vwap_loop_window. cbv zeta.
  destruct (forallb _ _); [|reflexivity]. simpl. rewrite fold_add_volume. simpl.
  destruct (volume _ =? 0); [reflexivity|].
  unfold float_of_int. now destruct (int_fits _).
Qed.

(** On valid trades the function is decided by the window: an [int] with
    no float raises [OverflowError], an empty window the [ValueError],
    and otherwise it divides the accumulated notional by the volume. *)
Lemma vwap_at_cases (now : Z) (st : Stock) (ts : list Trade) :
  Forall (fun t => trade_valid t = true) ts ->
  let w := window now (symbol st) ts in
  vwap_at now st ts =
  if window_overflows w then Raise (OverflowError INT_OVERFLOW_MSG)
  else match w with
       | [] => Raise (ValueError (no_activity_msg (symbol st)))
       | _ => py_truediv (fst (fold_left add_exact w (Fin 0, 0))) (of_Z (volume w))
       end.
Proof.
  intros Hv w. rewrite vwap_at_window. fold w. unfold window_overflows.
  destruct (volume_valid w (Forall_window _ now (symbol st) ts Hv)) as [H0 Hz].
  destruct (forallb _ w); simpl; [|reflexivity].
  destruct w as [|t w'] eqn:Ew; [reflexivity|].
  replace (volume (t :: w') =? 0) with false
    by (symmetry; apply Z.eqb_neq; intros H; apply Hz in H; discriminate).
  now destruct (int_fits _).
Qed.

Lemma window_overflows_In (w : list Trade) (t : Trade) :
  In t w -> int_fits (qty t) = false -> window_overflows w = true.
Proof.
  intros Hin Hf. unfold window_overflows.
  replace (forallb (fun t => int_fits (qty t)) w) with false; [reflexivity|].
  symmetry. apply not_true_iff_false. rewrite forallb_forall. intros H.
  rewrite (H t Hin) in Hf. discriminate.
Qed.

Lemma calc_volume_weighted_price_run (st : Stock) (ts : list Trade) (c : clock) (n : nat) :
  calc_volume_weighted_price st ts c n = (vwap_at (c n) st ts, S n).
Proof. reflexivity. Qed.

Lemma py_truediv_Fin_pos (a p : Q) : (0 < p)%Q -> py_truediv (Fin a) (Fin p) = Ok (Fin (a / p)).
Proof.
  intros Hp. unfold py_truediv. simpl.
  destruct p as [[|n|n] d]; unfold Qlt in Hp; simpl in Hp; try lia. reflexivity.
Qed.

Lemma fold_add_pos_or_nan (w : list Trade) (x : float) (v : Z) :
  fle x (Fin 0) = false -> Forall (fun t => trade_valid t = true) w ->
  fle (fst (fold_left add_exact w (x, v))) (Fin 0) = false.
Proof.
  revert x v. induction w as [|t w IH]; intros x v Hx Hw; simpl; [exact Hx|].
  inv Hw. unfold trade_valid in H1. apply andb_true_iff in H1 as [Hq Hp].
  apply Z.ltb_lt in Hq. apply negb_true_iff in Hp.
  apply IH; [|exact H2]. simpl. auto with py.
Qed.

Lemma fold_add_from_zero_pos_or_nan (w : list Trade) :
  w <> [] -> Forall (fun t => trade_valid t = true) w ->
  fle (fst (fold_left add_exact w (Fin 0, 0))) (Fin 0) = false.
Proof.
  destruct w as [|t w]; [congruence|]. intros _ Hw. inv Hw. cbn [fold_left].
  unfold trade_valid in H1. apply andb_true_iff in H1 as [Hq Hp].
  apply Z.ltb_lt in Hq. apply negb_true_iff in Hp.
  apply fold_add_pos_or_nan; [|exact H2]. unfold add_exact. cbn [fst].
  rewrite fadd_0_l. auto with py.
Qed.

Lemma fold_add_NaN_stays (w : list Trade) (v : Z) :
  fst (fold_left add_exact w (NaN, v)) = NaN.
Proof.
  revert v. induction w as [|t w IH]; intros v; simpl; [reflexivity|]. apply IH.
Qed.

Lemma fold_add_NaN (w : list Trade) (t : Trade) (x : float) (v : Z) :
  In t w -> price t = NaN -> fst (fold_left add_exact w (x, v)) = NaN.
Proof.
  revert x v. induction w as [|u w IH]; intros x v Hin Hp; [destruct Hin|].
  destruct Hin as [<-|Hin]; simpl.
  - unfold add_exact; simpl. rewrite Hp, fmul_NaN_l, fadd_NaN_r. apply fold_add_NaN_stays.
  - now apply IH.
Qed.

Lemma volume_pos (w : list Trade) :
  Forall (fun t => trade_valid t = true) w -> w <> [] -> 0 < volume w.
Proof.
  intros Hw Hne. destruct (volume_valid w Hw) as [H0 Hz].
  assert (volume w <> 0) by (intros H; apply Hz in H; contradiction). lia.
Qed.

Lemma vwap_refines_spec_aux (now : Z) (st : Stock) (ts : list Trade) :
  Forall (fun t => trade_valid t = true) ts ->
  Forall (fun t => is_fin (price t) = true) (window now (symbol st) ts) ->
  match vwap_spec now st ts with
  | Raise e => vwap_at now st ts = Raise e
  | Ok q => exists x, vwap_at now st ts = Ok x /\ x =f= Fin q
  end.
Proof.
  intros Hv Hf. rewrite (vwap_at_cases now st ts Hv). unfold vwap_spec. cbv zeta.
  pose proof (Forall_window _ now (symbol st) ts Hv) as Hw.
  pose proof (volume_pos _ Hw) as Hpos.
  destruct (window_overflows _); [reflexivity|].
  destruct (window now (symbol st) ts) as [|t w] eqn:E; [reflexivity|].
  pose proof (fold_add_notional (t :: w) 0 0 Hf) as Hn.
  destruct (fst (fold_left add_exact (t :: w) (Fin 0, 0))) as [a| | |] eqn:Ea;
    simpl in Hn; try contradiction.
  unfold of_Z. rewrite py_truediv_Fin_pos by (apply inject_Z_pos, Hpos; discriminate).
  eexists; split; [reflexivity|]. cbn [feq]. rewrite Hn, Qplus_0_l. reflexivity.
Qed.

(** C1: On trades the constructor built, with finite prices in the window,
    the loop of [calc_volume_weighted_price] implements the reference
    definition: it raises [OverflowError] when a quantity of the
    five-minute window of the stock, or the window's volume, is an [int]
    too large for a float; otherwise it raises the "no trading activity"
    [ValueError] when the window is empty, and returns
    sum(price*qty)/sum(qty) over the window when it is not. *)
Theorem vwap_refines_spec (now : Z) (st : Stock) (ts : list Trade) :
  Forall (fun t => trade_valid t = true) ts ->
  Forall (fun t => is_fin (price t) = true) (window now (symbol st) ts) ->
  match vwap_spec now st ts with
  | Raise e => vwap_at now st ts = Raise e
  | Ok q => exists x, vwap_at now st ts = Ok x /\ x =f= Fin q
  end.
Proof. apply vwap_refines_spec_aux. Qed.

Definition t_at (inst : Z) (p : Q) (q : Z) : Trade := mkTrade inst TEA true q (Fin p).

Definition spec_trades : list Trade := [t_at 900 10 100; t_at 950 20 50].

Lemma vwap_refines_spec_witness :
  Forall (fun t => trade_valid t = true) spec_trades
  /\ Forall (fun t => is_fin (price t) = true) (window 1000 "TEA" spec_trades)
  /\ match vwap_spec 1000 TEA spec_trades with
     | Raise e => vwap_at 1000 TEA spec_trades = Raise e
     | Ok q => exists x, vwap_at 1000 TEA spec_trades = Ok x /\ x =f= Fin q
     end.
Proof.
  assert (H1 : Forall (fun t => trade_valid t = true) spec_trades) by (repeat constructor).
  assert (H2 : Forall (fun t => is_fin (price t) = true) (window 1000 "TEA" spec_trades))
    by (vm_compute; repeat constructor).
  exact (conj H1 (conj H2 (vwap_refines_spec 1000 TEA spec_trades H1 H2))).
Defined.

(** The example of the specification: (10*100 + 20*50) / 150. *)
Example vwap_spec_example :
  vwap_spec 1000 TEA spec_trades = Ok (2000 # 150)
  /\ exists x, vwap_at 1000 TEA spec_trades = Ok x /\ x =f= Fin (40 # 3).
Proof. split; [vm_compute; reflexivity|]. eexists; split; [vm_compute; reflexivity|]. vm_compute. reflexivity. Qed.

(** A quantity of 2^1024 - 2^970, which [int] reads from 309 digits, has no
    float: Python raises where the exact sum would be finite. *)
Definition huge_trades : list Trade := [t_at 900 10 100; t_at 950 1 FLOAT_INT_BOUND].

Example vwap_overflow_example :
  vwap_at 1000 TEA huge_trades = Raise (OverflowError "int too large to convert to float")
  /\ vwap_at 1000 TEA [t_at 900 10 (FLOAT_INT_BOUND - 1)] <> Raise (OverflowError "int too large to convert to float")
  /\ vwap_at 1000 TEA [t_at 900 10 (FLOAT_INT_BOUND - 1); t_at 950 10 1]
     = Raise (OverflowError "int too large to convert to float").
Proof. split; [|split]; vm_compute; [reflexivity | discriminate | reflexivity]. Qed.

Lemma vwap_error_iff_aux (now : Z) (st : Stock) (ts : list Trade) (e : exn) :
  Forall (fun t => trade_valid t = true) ts ->
  vwap_at now st ts = Raise e <->
  (window now (symbol st) ts = [] /\ e = ValueError (no_activity_msg (symbol st)))
  \/ (window_overflows (window now (symbol st) ts) = true /\ e = OverflowError INT_OVERFLOW_MSG).
Proof.
  intros Hv. rewrite (vwap_at_cases now st ts Hv). cbv zeta.
  pose proof (volume_pos _ (Forall_window _ now (symbol st) ts Hv)) as Hpos.
  destruct (window_overflows _) eqn:Eo.
  { split; [intros H; inv H; auto|]. intros [[Hw _]|[_ ->]]; [|reflexivity].
    rewrite Hw in Eo. discriminate. }
  destruct (window now (symbol st) ts) as [|t w] eqn:E.
  { split; [intros H; inv H; auto | intros [[_ ->]|[H _]]; [reflexivity | discriminate]]. }
  split; [|intros [[H _]|[H _]]; discriminate].
  intros H. exfalso. specialize (Hpos ltac:(discriminate)).
  rewrite py_truediv_pos_Z in H by exact Hpos. discriminate.
Qed.

(** C5: On trades the constructor built, [calc_volume_weighted_price]
    raises exactly in two cases: [OverflowError] when a quantity of the
    five-minute window of the stock, or the window's volume, is an [int]
    too large for a float (uncaught by [gbce] and by the main loop), and
    the [ValueError] whose message names the stock when the window holds
    no trade. *)
Theorem vwap_error_iff (now : Z) (st : Stock) (ts : list Trade) (e : exn) :
  Forall (fun t => trade_valid t = true) ts ->
  vwap_at now st ts = Raise e <->
  (window now (symbol st) ts = [] /\ e = ValueError (no_activity_msg (symbol st)))
  \/ (window_overflows (window now (symbol st) ts) = true /\ e = OverflowError INT_OVERFLOW_MSG).
Proof. apply vwap_error_iff_aux. Qed.

Lemma vwap_error_iff_witness :
  Forall (fun t => trade_valid t = true) huge_trades
  /\ (vwap_at 1000 TEA huge_trades = Raise (OverflowError INT_OVERFLOW_MSG) <->
      (window 1000 "TEA" huge_trades = [] /\ OverflowError INT_OVERFLOW_MSG = ValueError (no_activity_msg "TEA"))
      \/ (window_overflows (window 1000 "TEA" huge_trades) = true
          /\ OverflowError INT_OVERFLOW_MSG = OverflowError INT_OVERFLOW_MSG)).
Proof.
  assert (H1 : Forall (fun t => trade_valid t = true) huge_trades) by (repeat constructor).
  exact (conj H1 (vwap_error_iff 1000 TEA huge_trades _ H1)).
Defined.

Lemma vwap_pos_or_nan_aux (now : Z) (st : Stock) (ts : list Trade) (x : float) :
  Forall (fun t => trade_valid t = true) ts ->
  vwap_at now st ts = Ok x -> fle x (Fin 0) = false.
Proof.
  intros Hv. rewrite (vwap_at_cases now st ts Hv). cbv zeta.
  pose proof (Forall_window _ now (symbol st) ts Hv) as Hw.
  pose proof (volume_pos _ Hw) as Hpos.
  destruct (window_overflows _); [discriminate|].
  destruct (window now (symbol st) ts) as [|t w] eqn:E; [discriminate|].
  specialize (Hpos ltac:(discriminate)).
  rewrite py_truediv_pos_Z by exact Hpos. intros H; inv H.
  apply fdiv_pos_or_nan_Z; [|exact Hpos].
  apply (fold_add_from_zero_pos_or_nan (t :: w)); [discriminate | exact Hw].
Qed.

(** C8: On trades the constructor built, a volume weighted price that is
    returned is never [<= 0]: it is positive, +inf or NaN. *)
Theorem vwap_pos_or_nan (now : Z) (st : Stock) (ts : list Trade) (x : float) :
  Forall (fun t => trade_valid t = true) ts ->
  vwap_at now st ts = Ok x -> fle x (Fin 0) = false.
Proof. apply vwap_pos_or_nan_aux. Qed.

Lemma vwap_pos_or_nan_witness :
  Forall (fun t => trade_valid t = true) spec_trades
  /\ vwap_at 1000 TEA spec_trades = Ok (Fin (2000 # 150))
  /\ fle (Fin (2000 # 150)) (Fin 0) = false.
Proof.
  assert (H1 : Forall (fun t => trade_valid t = true) spec_trades) by (repeat constructor).
  assert (H2 : vwap_at 1000 TEA spec_trades = Ok (Fin (2000 # 150))) by (vm_compute; reflexivity).
  exact (conj H1 (conj H2 (vwap_pos_or_nan 1000 TEA spec_trades _ H1 H2))).
Defined.

(** C16: One trade of the window with a NaN price (which [buy] accepts)
    makes the volume weighted price of the stock NaN, unless the window
    holds an [int] too large for a float, which raises first. *)
Theorem vwap_nan (now : Z) (st : Stock) (ts : list Trade) (t : Trade) :
  Forall (fun t => trade_valid t = true) ts ->
  In t (window now (symbol st) ts) -> price t = NaN ->
  vwap_at now st ts
  = if window_overflows (window now (symbol st) ts) then Raise (OverflowError INT_OVERFLOW_MSG)
    else Ok NaN.
Proof.
  intros Hv Hin Hp. rewrite (vwap_at_cases now st ts Hv). cbv zeta.
  pose proof (volume_pos _ (Forall_window _ now (symbol st) ts Hv)) as Hpos.
  destruct (window_overflows _); [reflexivity|].
  destruct (window now (symbol st) ts) as [|u w] eqn:E; [destruct Hin|].
  rewrite py_truediv_pos_Z by (apply Hpos; discriminate).
  now rewrite (fold_add_NaN _ t _ _ Hin Hp).
Qed.

Definition nan_trades : list Trade := [t_at 900 10 100; mkTrade 950 TEA true 5 NaN].

Lemma vwap_nan_witness :
  Forall (fun t => trade_valid t = true) nan_trades
  /\ In (mkTrade 950 TEA true 5 NaN) (window 1000 "TEA" nan_trades)
  /\ vwap_at 1000 TEA nan_trades
     = (if window_overflows (window 1000 "TEA" nan_trades) then Raise (OverflowError INT_OVERFLOW_MSG)
        else Ok NaN).
Proof.
  assert (H1 : Forall (fun t => trade_valid t = true) nan_trades) by (repeat constructor).
  assert (H2 : In (mkTrade 950 TEA true 5 NaN) (window 1000 "TEA" nan_trades))
    by (vm_compute; right; left; reflexivity).
  exact (conj H1 (conj H2 (vwap_nan 1000 TEA nan_trades _ H1 H2 eq_refl))).
Defined.

Lemma in_window_t_at (cutoff inst : Z) (p : Q) (q : Z) :
  in_window cutoff "TEA" (t_at inst p q) = (cutoff <? inst).
Proof. unfold in_window. simpl. apply andb_true_r. Qed.

(** C9: The window is open at its start: at [now], a trade exactly five
    minutes old, or five minutes and one second old, is left out, and one
    4 min 59 s old, or one microsecond younger than five minutes, counts. *)
Theorem vwap_window_boundary (now : Z) :
  vwap_at now TEA [t_at (now - 300000000) 10 1; t_at (now - 299999999) 20 1] = Ok (Fin (20 # 1))
  /\ vwap_at now TEA [t_at (now - 301000000) 10 1; t_at (now - 299000000) 20 1] = Ok (Fin (20 # 1))
  /\ vwap_at now TEA [t_at (now - 300000000) 10 1]
     = Raise (ValueError "Couldn't find any trading activity for TEA!").
Proof.
  unfold vwap_at, FIVE_MINUTES. cbn [vwap_loop]. rewrite !in_window_t_at.
  replace (now - 300000000 <? now - 300000000) with false by (symmetry; apply Z.ltb_ge; lia).
  replace (now - 300000000 <? now - 299999999) with true by (symmetry; apply Z.ltb_lt; lia).
  replace (now - 300000000 <? now - 301000000) with false by (symmetry; apply Z.ltb_ge; lia).
  replace (now - 300000000 <? now - 299000000) with true by (symmetry; apply Z.ltb_lt; lia).
  repeat split; vm_compute; reflexivity.
Qed.

(** ** Dividend yield *)

(** C10: For a common stock at a positive price the dividend yield is the
    last dividend divided by the price, or [OverflowError] when the last
    dividend is an [int] too large for a float. *)
Theorem div_yield_common (st : Stock) (p : Q) :
  lower (typ st) = "common" -> (0 < p)%Q ->
  calc_div_yield st (Fin p)
  = if int_fits (last_div st) then Ok (Fin (inject_Z (last_div st) / p))
    else Raise (OverflowError INT_OVERFLOW_MSG).
Proof.
  intros Ht Hp. unfold calc_div_yield.
  rewrite (proj2 (fle_Fin_0_false p) Hp), Ht. simpl. unfold float_of_int.
  destruct (int_fits (last_div st)); [apply py_truediv_Fin_pos, Hp | reflexivity].
Qed.

Definition POP : Stock := mkStock "POP" "common" 8 PyNone 100.
Definition GIN : Stock := mkStock "GIN" "preferred" 8 (PyInt 2) 100.

(** The example of the specification: yield 8 / 2 = 4. *)
Lemma div_yield_common_witness :
  calc_div_yield POP (Fin 2) = Ok (Fin (inject_Z 8 / 2)) /\ (inject_Z 8 / 2 == 4)%Q.
Proof.
  split; [apply (div_yield_common POP 2); reflexivity | reflexivity].
Defined.

(** C11: For any other stock with an integer fixed dividend, at a positive
    price the yield is fixed_div * par_value / (price * 100), or
    [OverflowError] when that product is an [int] too large for a float. *)
Theorem div_yield_preferred (st : Stock) (f : Z) (p : Q) :
  lower (typ st) <> "common" -> fixed_div st = PyInt f -> (0 < p)%Q ->
  calc_div_yield st (Fin p)
  = if int_fits (f * par_value st) then Ok (Fin (inject_Z (f * par_value st) / (p * inject_Z 100)))
    else Raise (OverflowError INT_OVERFLOW_MSG).
Proof.
  intros Ht Hf Hp. unfold calc_div_yield.
  rewrite (proj2 (fle_Fin_0_false p) Hp). apply String.eqb_neq in Ht. rewrite Ht, Hf.
  simpl. unfold float_of_int. destruct (int_fits (f * par_value st)); [|reflexivity].
  apply py_truediv_Fin_pos. apply Qmult_lt_0_compat; [exact Hp | reflexivity].
Qed.

(** The example of the specification: (2 * 100) / (50 * 100) = 0.04. *)
Lemma div_yield_preferred_witness :
  calc_div_yield GIN (Fin 50) = Ok (Fin (inject_Z (2 * 100) / (50 * inject_Z 100)))
  /\ (inject_Z (2 * 100) / (50 * inject_Z 100) == 4 # 100)%Q.
Proof.
  split; [apply (div_yield_preferred GIN 2 50); [discriminate | reflexivity | reflexivity] | reflexivity].
Defined.

(** C12: A price [<= 0] makes [calc_div_yield] raise [NameError] (the guard
    names the undefined [valueError]), which is neither a [ValueError]
    nor a [TypeError]. *)
Theorem div_yield_nonpositive (st : Stock) (p : float) :
  fle p (Fin 0) = true ->
  calc_div_yield st p = Raise (NameError "name 'valueError' is not defined")
  /\ is_ValueError_or_TypeError (NameError "name 'valueError' is not defined") = false.
Proof. intros H. unfold calc_div_yield. now rewrite H. Qed.

Lemma div_yield_nonpositive_witness :
  calc_div_yield POP (Fin 0) = Raise (NameError "name 'valueError' is not defined").
Proof. apply (div_yield_nonpositive POP (Fin 0)). reflexivity. Defined.

(** C22: A stock whose type is neither "common" nor "preferred", which the
    constructor accepts with no fixed dividend, makes [calc_div_yield]
    raise [TypeError] at every positive price. *)
Theorem div_yield_untyped_stock (sym t : string) (ld pv : Z) (p : Q) (st : Stock) :
  Stock_init (Some sym) (PyStr t) (PyInt ld) PyNone (PyInt pv) = Ok st ->
  lower t <> "common" -> (0 < p)%Q ->
  calc_div_yield st (Fin p)
  = Raise (TypeError "unsupported operand type(s) for *: 'NoneType' and 'int'").
Proof.
  intros Hs Ht Hp. apply Stock_init_ok_aux in Hs as (_ & Hty & Hfd & _).
  simpl in Hty. injection Hty as Hty.
  unfold fixed_div_of in Hfd.
  destruct (String.eqb (typ st) "preferred"); [discriminate|]. injection Hfd as Hfd.
  unfold calc_div_yield. rewrite (proj2 (fle_Fin_0_false p) Hp).
  rewrite <- Hty, lower_idem. apply String.eqb_neq in Ht. rewrite Ht, <- Hfd.
  reflexivity.
Qed.

Lemma div_yield_untyped_stock_witness :
  calc_div_yield (mkStock "BND" "bond" 5 PyNone 100) (Fin 2)
  = Raise (TypeError "unsupported operand type(s) for *: 'NoneType' and 'int'").
Proof.
  apply (div_yield_untyped_stock "BND" "Bond" 5 100 2); [reflexivity | discriminate | reflexivity].
Defined.

(** ** Bounds of the volume weighted price *)

Lemma notional_bounds (w : list Trade) (m M : Q) :
  Forall (fun t => trade_valid t = true) w ->
  Forall (fun t => m <= price_q t <= M)%Q w ->
  (m * inject_Z (volume w) <= notional w <= M * inject_Z (volume w))%Q.
Proof.
  induction w as [|t w IH]; simpl; intros Hv Hb; [split; unfold Qle; simpl; lia|].
  inv Hv. inv Hb. destruct (IH H2 H4) as [IH1 IH2].
  unfold trade_valid in H1. apply andb_true_iff in H1 as [Hq _]. apply Z.ltb_lt in Hq.
  assert (Hq' : (0 <= inject_Z (qty t))%Q) by (unfold Qle; simpl; lia).
  pose proof (Qmult_le_compat_r _ _ _ (proj1 H3) Hq') as L.
  pose proof (Qmult_le_compat_r _ _ _ (proj2 H3) Hq') as U.
  rewrite inject_Z_plus, !Qmult_plus_distr_r.
  split; apply Qplus_le_compat; assumption.
Qed.

(** C25: On trades the constructor built, with finite prices in the
    window and no [int] of the window too large for a float, the volume
    weighted price of a stock that traded lies between any lower and any
    upper bound of the prices of its window. *)
Theorem vwap_bounds (now : Z) (st : Stock) (ts : list Trade) (m M : Q) :
  Forall (fun t => trade_valid t = true) ts ->
  Forall (fun t => is_fin (price t) = true) (window now (symbol st) ts) ->
  window_overflows (window now (symbol st) ts) = false ->
  window now (symbol st) ts <> [] ->
  Forall (fun t => m <= price_q t <= M)%Q (window now (symbol st) ts) ->
  exists x, vwap_at now st ts = Ok (Fin x) /\ (m <= x <= M)%Q.
Proof.
  intros Hv Hf Ho Hne Hb. pose proof (vwap_refines_spec_aux now st ts Hv Hf) as H.
  unfold vwap_spec in H. rewrite Ho in H.
  pose proof (Forall_window _ now (symbol st) ts Hv) as Hw.
  pose proof (volume_pos _ Hw Hne) as Hpos.
  destruct (notional_bounds _ m M Hw Hb) as [L U].
  destruct (window now (symbol st) ts) as [|t w] eqn:E; [congruence|].
  destruct H as ([q| | |] & Hx & Hq); simpl in Hq; try contradiction.
  exists q. split; [exact Hx|].
  pose proof (inject_Z_pos _ Hpos) as HV.
  rewrite Hq. split.
  - apply Qle_shift_div_l; [exact HV | exact L].
  - apply Qle_shift_div_r; [exact HV | exact U].
Qed.

Lemma vwap_bounds_witness :
  Forall (fun t => trade_valid t = true) spec_trades
  /\ Forall (fun t => is_fin (price t) = true) (window 1000 "TEA" spec_trades)
  /\ window_overflows (window 1000 "TEA" spec_trades) = false
  /\ window 1000 "TEA" spec_trades <> []
  /\ Forall (fun t => 10 <= price_q t <= 20)%Q (window 1000 "TEA" spec_trades)
  /\ exists x, vwap_at 1000 TEA spec_trades = Ok (Fin x) /\ (10 <= x <= 20)%Q.
Proof.
  assert (H1 : Forall (fun t => trade_valid t = true) spec_trades) by (repeat constructor).
  assert (H2 : Forall (fun t => is_fin (price t) = true) (window 1000 "TEA" spec_trades))
    by (vm_compute; repeat constructor).
  assert (H0 : window_overflows (window 1000 "TEA" spec_trades) = false) by (vm_compute; reflexivity).
  assert (H3 : window 1000 "TEA" spec_trades <> []) by (vm_compute; discriminate).
  assert (H4 : Forall (fun t => 10 <= price_q t <= 20)%Q (window 1000 "TEA" spec_trades))
    by (vm_compute; repeat constructor; discriminate).
  exact (conj H1 (conj H2 (conj H0 (conj H3 (conj H4 (vwap_bounds 1000 TEA spec_trades 10 20 H1 H2 H0 H3 H4)))))).
Defined.
