(* ===== verification/Gbce.v ===== *)
(** The GBCE all share index.

    [gbce] is lines 111-122 of [src/Trading_sim.py]: for every symbol of
    the dict, in order, it calls [calc_volume_weighted_price] inside a
    [try]; a [ValueError] whose message starts with "Couldn't find any
    trading activity" is swallowed ([swallowed]), any other exception,
    such as the [OverflowError] of a window, propagates; if
    no price was collected it raises, otherwise it returns
    [statistics.geometric_mean] of the prices.  [collect] is the loop and
    [gbce_with] the function for any per-stock price computation; [gbce]
    instantiates it with [calc_volume_weighted_price].

    [geometric_mean] models the library function (CPython 3.11/3.12
    [statistics.geometric_mean]: [exp(fmean(map(log, data)))], a
    [ValueError] inside turned into [StatisticsError]) with [math.log],
    [math.fsum] and [math.exp] over extended reals [xreal]: the real
    logarithm of a float is not a rational, so this part of the model is
    over Stdlib's [R]. *)

From Stdlib Require Import ZArith QArith String Ascii List Bool Lia Reals Qreals Lra.
From S2P Require Import Prelude PyFloat PyBuiltins Stock Trade Metrics.
Import ListNotations.

Local Open Scope string_scope.
Local Open Scope py_scope.
Local Open Scope Z_scope.

(** ** Extended reals and the [math] functions *)

Inductive xreal : Type :=
| XR (r : R)
| XPInf
| XNInf
| XNaN.

(** [math.log(x)]. *)
Definition py_log (x : float) : result xreal :=
  match x with
  | Fin q => if Qle_bool q 0 then Raise (ValueError "math domain error") else Ok (XR (ln (Q2R q)))
  | PInf => Ok XPInf
  | NInf => Raise (ValueError "math domain error")
  | NaN => Ok XNaN
  end.

Definition is_xpinf (x : xreal) : bool := match x with XPInf => true | _ => false end.
Definition is_xninf (x : xreal) : bool := match x with XNInf => true | _ => false end.
Definition is_xnan (x : xreal) : bool := match x with XNaN => true | _ => false end.

Definition real_sum (l : list xreal) : R :=
  fold_right (fun x s => match x with XR r => (r + s)%R | _ => s end) 0%R l.

(** [math.fsum(l)], exact on finite values: a NaN makes the sum NaN,
    infinities of both signs raise. *)
Definition fsum (l : list xreal) : result xreal :=
  let p := existsb is_xpinf l in
  let n := existsb is_xninf l in
  if p && n then Raise (ValueError "-inf + inf in fsum")
  else if existsb is_xnan l then Ok XNaN
  else if p then Ok XPInf
  else if n then Ok XNInf
  else Ok (XR (real_sum l)).

(** [total / n] for a positive [int] [n]. *)
Definition xdiv_nat (x : xreal) (n : nat) : xreal :=
  match x with
  | XR r => XR (r / INR n)
  | _ => x
  end.

(** [math.exp(x)]. *)
Definition xexp (x : xreal) : xreal :=
  match x with
  | XR r => XR (exp r)
  | XPInf => XPInf
  | XNInf => XR 0
  | XNaN => XNaN
  end.

(** [statistics.fmean(map(log, data))]. *)
Definition fmean_log (data : list float) : result xreal :=
  logs <-- all_ok (map py_log data) ;;
  total <-- fsum logs ;;
  if Nat.eqb (length data) 0 then
    Raise (StatisticsError "fmean requires at least one data point")
  else Ok (xdiv_nat total (length data)).

Definition geometric_mean (data : list float) : result xreal :=
  match fmean_log data with
  | Ok m => Ok (xexp m)
  | Raise e =>
      if is_ValueError e then
        Raise (StatisticsError "geometric mean requires a non-empty dataset containing positive numbers")
      else Raise e
  end.

(** ** [gbce] *)

Definition NO_ACTIVITY : string := "Couldn't find any trading activity".

(** The test of lines 117-118: a [ValueError] whose message starts with
    [NO_ACTIVITY]. *)
Definition swallowed (e : exn) : bool := is_ValueError e && startswith (exn_str e) NO_ACTIVITY.

(** The handler of lines 117-119. *)
Definition gbce_handler {A} (acc : A) (e : exn) : Py A :=
  if swallowed e then ret acc else raise e.

(** Lines 114-119: the loop over the keys [ks] of [stocks]. *)
Fixpoint collect (vw : Stock -> list Trade -> Py float) (stocks : dict) (ks : list string)
  (trades : list Trade) (acc : list float) : Py (list float) :=
  match ks with
  | [] => ret acc
  | k :: ks' =>
      acc' <- try_except
                (match dict_get stocks k with
                 | Some st => x <- vw st trades ;; ret (acc ++ [x])%list
                 | None => raise (KeyError (repr_str k))
                 end)
                (gbce_handler acc) ;;
      collect vw stocks ks' trades acc'
  end.

Definition gbce_with (vw : Stock -> list Trade -> Py float) (stocks : dict) (trades : list Trade)
  : Py xreal :=
  prices <- collect vw stocks (dict_keys stocks) trades [] ;;
  if Nat.eqb (length prices) 0 then
    raise (ValueError "Couldn't find any trading activity for any stock!")
  else lift (geometric_mean prices).

Definition gbce (stocks : dict) (trades : list Trade) : Py xreal :=
  gbce_with calc_volume_weighted_price stocks trades.

(** ** The geometric mean over the reals *)

Local Open Scope R_scope.

Definition sumR (l : list R) : R := fold_right Rplus 0 l.
Definition prodR (l : list R) : R := fold_right Rmult 1 l.

Definition gm_real (l : list R) : R := exp (sumR (map ln l) / INR (length l)).

Lemma exp_pow_INR (x : R) (n : nat) : exp x ^ n = exp (INR n * x).
Proof.
  induction n as [|n IH]; [simpl; now rewrite Rmult_0_l, exp_0|].
  change (exp x ^ S n) with (exp x * exp x ^ n).
  rewrite IH, <- exp_plus, S_INR. f_equal. ring.
Qed.

Lemma exp_sum_ln (l : list R) : Forall (fun x => 0 < x) l -> exp (sumR (map ln l)) = prodR l.
Proof.
  induction l as [|x l IH]; simpl; intros H; [apply exp_0|].
  inv H. rewrite exp_plus, exp_ln by assumption. now rewrite IH.
Qed.

Lemma exp_le_mono (x y : R) : x <= y -> exp x <= exp y.
Proof. intros [H | ->]; [left; now apply exp_increasing | right; reflexivity]. Qed.

Lemma ln_le_mono (x y : R) : 0 < x -> x <= y -> ln x <= ln y.
Proof. intros Hx [H | ->]; [left; now apply ln_increasing | right; reflexivity]. Qed.

Lemma sumR_ln_bounds (l : list R) (m M : R) :
  0 < m -> Forall (fun x => m <= x <= M) l ->
  INR (length l) * ln m <= sumR (map ln l) <= INR (length l) * ln M.
Proof.
  intros Hm. induction l as [|x l IH]; intros H; [simpl; lra|].
  inv H. destruct (IH H3) as [IH1 IH2].
  change (length (x :: l)) with (S (length l)). rewrite S_INR. cbn [map sumR fold_right].
  fold (sumR (map ln l)).
  pose proof (ln_le_mono m x Hm (proj1 H2)).
  pose proof (ln_le_mono x M ltac:(lra) (proj2 H2)). lra.
Qed.

(** The [n]-th power of the geometric mean of [n] positive reals is their
    product. *)
Lemma gm_real_pow (l : list R) :
  l <> [] -> Forall (fun x => 0 < x) l -> gm_real l ^ length l = prodR l.
Proof.
  intros Hne Hpos. unfold gm_real. rewrite exp_pow_INR.
  assert (Hn : INR (length l) <> 0) by (destruct l; [congruence | apply not_0_INR; simpl; lia]).
  replace (INR (length l) * (sumR (map ln l) / INR (length l))) with (sumR (map ln l))
    by (field; exact Hn).
  now apply exp_sum_ln.
Qed.

(** The geometric mean lies between any bounds of the values. *)
Lemma gm_real_bounds (l : list R) (m M : R) :
  l <> [] -> 0 < m -> Forall (fun x => m <= x <= M) l -> m <= gm_real l <= M.
Proof.
  intros Hne Hm H. unfold gm_real.
  assert (Hn : 0 < INR (length l)) by (destruct l; [congruence | apply lt_0_INR; simpl; lia]).
  destruct (sumR_ln_bounds l m M Hm H) as [H1 H2].
  assert (HM : 0 < M) by (destruct l as [|x l]; [congruence|]; inv H; lra).
  split.
  - rewrite <- (exp_ln m) at 1 by exact Hm. apply exp_le_mono.
    apply Rmult_le_reg_l with (INR (length l)); [exact Hn|].
    replace (INR (length l) * (sumR (map ln l) / INR (length l))) with (sumR (map ln l))
      by (field; lra). exact H1.
  - rewrite <- (exp_ln M) by exact HM. apply exp_le_mono.
    apply Rmult_le_reg_l with (INR (length l)); [exact Hn|].
    replace (INR (length l) * (sumR (map ln l) / INR (length l))) with (sumR (map ln l))
      by (field; lra). exact H2.
Qed.

Local Close Scope R_scope.

(** ** [geometric_mean] on the prices [gbce] collects *)

Lemma py_log_pos_or_nan (x : float) :
  fle x (Fin 0) = false -> exists y, py_log x = Ok y /\ is_xninf y = false.
Proof.
  destruct x as [q| | |]; simpl; intros H; try discriminate; eauto.
  rewrite H. eauto.
Qed.

Lemma all_ok_map_log (l : list float) :
  Forall (fun x => fle x (Fin 0) = false) l ->
  exists ys, all_ok (map py_log l) = Ok ys /\ existsb is_xninf ys = false.
Proof.
  induction l as [|x l IH]; simpl; intros H; [exists []; auto|].
  inv H. destruct (py_log_pos_or_nan x H2) as (y & -> & Hy).
  destruct (IH H3) as (ys & -> & Hys). exists (y :: ys). simpl. rewrite Hy, Hys. auto.
Qed.

(** On a non-empty list of floats none of which is [<= 0] the geometric
    mean does not raise. *)
Lemma geometric_mean_ok (l : list float) :
  l <> [] -> Forall (fun x => fle x (Fin 0) = false) l -> exists g, geometric_mean l = Ok g.
Proof.
  intros Hne H. destruct (all_ok_map_log l H) as (ys & Hys & Hn).
  unfold geometric_mean, fmean_log. rewrite Hys. simpl. unfold fsum.
  rewrite Hn, andb_false_r.
  destruct l as [|x l]; [congruence|]. simpl.
  destruct (existsb is_xnan ys), (existsb is_xpinf ys); simpl; eauto.
Qed.

Lemma all_ok_map_log_Fin (qs : list Q) :
  Forall (fun q => (0 < q)%Q) qs ->
  all_ok (map py_log (map Fin qs)) = Ok (map (fun q => XR (ln (Q2R q))) qs).
Proof.
  induction qs as [|q qs IH]; simpl; intros H; [reflexivity|].
  inv H. replace (Qle_bool q 0) with false.
  - simpl. rewrite IH by assumption. reflexivity.
  - symmetry. apply (proj2 (fle_Fin_0_false q)). assumption.
Qed.

Lemma real_sum_XR (qs : list Q) :
  real_sum (map (fun q => XR (ln (Q2R q))) qs) = sumR (map ln (map Q2R qs)).
Proof. induction qs as [|q qs IH]; simpl; [reflexivity | now rewrite IH]. Qed.

(** On positive finite floats the geometric mean is the real one. *)
Lemma geometric_mean_Fin (qs : list Q) :
  qs <> [] -> Forall (fun q => (0 < q)%Q) qs ->
  geometric_mean (map Fin qs) = Ok (XR (gm_real (map Q2R qs))).
Proof.
  intros Hne H. unfold geometric_mean, fmean_log. rewrite all_ok_map_log_Fin by exact H.
  simpl. unfold fsum.
  assert (E : forall f : xreal -> bool, (forall r, f (XR r) = false) ->
            existsb f (map (fun q => XR (ln (Q2R q))) qs) = false).
  { intros f Hf. clear - Hf. induction qs as [|q qs IH]; simpl; [reflexivity|]. now rewrite Hf, IH. }
  rewrite !E by reflexivity. simpl.
  destruct qs as [|q qs']; [congruence|]. simpl Nat.eqb. cbv iota.
  unfold gm_real. rewrite real_sum_XR, !length_map. reflexivity.
Qed.

(** ** The loop of [gbce], for any per-stock price computation *)

(** What the loop of [gbce] relies on from the per-stock price
    computation [vw] it calls on the ledger [ts]: [vw] reads the clock
    once and then has the value [f] at the instant it read, and the only
    exceptions of [f] are the "no trading activity" [ValueError] that
    [gbce] swallows and the [OverflowError] of an [int] too large for a
    float.  [calc_volume_weighted_price] is an instance on every ledger
    of valid trades ([vwap_source] below). *)
Class PriceSource (ts : list Trade) (vw : Stock -> list Trade -> Py float)
  (f : Z -> Stock -> result float) : Prop := {
  source_run : forall st c n, vw st ts c n = (f (c n) st, S n);
  source_err : forall now st e, f now st = Raise e ->
    e = ValueError (no_activity_msg (symbol st)) \/ e = OverflowError INT_OVERFLOW_MSG
}.

Lemma no_activity_swallowed (sym : string) : swallowed (ValueError (no_activity_msg sym)) = true.
Proof.
  unfold swallowed, no_activity_msg. cbn [is_ValueError exn_str andb].
  change ("Couldn't find any trading activity for " ++ sym ++ "!")
    with (NO_ACTIVITY ++ (" for " ++ sym ++ "!")).
  now rewrite startswith_app.
Qed.

Lemma overflow_not_swallowed : swallowed (OverflowError INT_OVERFLOW_MSG) = false.
Proof. reflexivity. Qed.

Section Collect.
Context (ts : list Trade) (f : Z -> Stock -> result float) (vw : Stock -> list Trade -> Py float).
Context `{PS : PriceSource ts vw f}.

(** The prices the loop keeps, the [i]-th key priced at clock reading
    [n + i], or the first exception it does not swallow. *)
Fixpoint active (c : clock) (n : nat) (stocks : dict) (ks : list string) : result (list float) :=
  match ks with
  | [] => Ok []
  | k :: ks' =>
      match dict_get stocks k with
      | Some st =>
          match f (c n) st with
          | Ok x => l <-- active c (S n) stocks ks' ;; Ok (x :: l)
          | Raise e => if swallowed e then active c (S n) stocks ks' else Raise e
          end
      | None => Raise (KeyError (repr_str k))
      end
  end.

(** The loop is [active] after the prices collected so far. *)
Lemma collect_run (stocks : dict) (ks : list string) (acc : list float) (c : clock) (n : nat) :
  fst (collect vw stocks ks ts acc c n) = (l <-- active c n stocks ks ;; Ok (acc ++ l)%list).
Proof.
  revert acc n. induction ks as [|k ks IH]; intros acc n; simpl.
  - now rewrite app_nil_r.
  - destruct (dict_get stocks k) as [st|] eqn:Hg; [|reflexivity].
    unfold bind at 1, try_except. unfold bind at 1. rewrite source_run.
    destruct (f (c n) st) as [x|e] eqn:Hf.
    + simpl. rewrite IH. destruct (active c (S n) stocks ks); simpl; [|reflexivity].
      now rewrite <- app_assoc.
    + unfold gbce_handler. destruct (swallowed e); simpl; [apply IH | reflexivity].
Qed.

(** Its exceptions are the [OverflowError] of the price computation, or
    the [KeyError] of a key that is not in the dict. *)
Lemma active_raises (c : clock) (n : nat) (stocks : dict) (ks : list string) (e : exn) :
  (forall k, In k ks -> dict_get stocks k <> None) ->
  active c n stocks ks = Raise e -> e = OverflowError INT_OVERFLOW_MSG.
Proof.
  revert n. induction ks as [|k ks IH]; intros n Hk; simpl; [discriminate|].
  destruct (dict_get stocks k) as [st|] eqn:Hg; [|exfalso; apply (Hk k); [now left | exact Hg]].
  assert (Hk' : forall k', In k' ks -> dict_get stocks k' <> None) by (intros; apply Hk; now right).
  destruct (f (c n) st) as [x|e0] eqn:Hf.
  - destruct (active c (S n) stocks ks) eqn:Ea; simpl; [discriminate|].
    intros H; inv H. exact (IH _ Hk' Ea).
  - destruct (source_err _ _ _ Hf) as [-> | ->].
    + rewrite no_activity_swallowed. apply IH, Hk'.
    + rewrite overflow_not_swallowed. now intros H; inv H.
Qed.

Lemma active_Forall (P : float -> Prop) (c : clock) (n : nat) (stocks : dict) (ks : list string)
  (l : list float) :
  (forall now st x, f now st = Ok x -> P x) -> active c n stocks ks = Ok l -> Forall P l.
Proof.
  intros HP. revert n l. induction ks as [|k ks IH]; intros n l; simpl; [intros H; now inv H|].
  destruct (dict_get stocks k); [|discriminate].
  destruct (f (c n) s) eqn:E.
  - destruct (active c (S n) stocks ks) eqn:Ea; simpl; [|discriminate].
    intros H; inv H. constructor; eauto.
  - destruct (swallowed e); [apply IH | discriminate].
Qed.
End Collect.

Lemma dict_keys_get (d : dict) (k : string) : In k (dict_keys d) -> dict_get d k <> None.
Proof.
  induction d as [|[k' v] d IH]; simpl; [tauto|]. intros [<-|H].
  - now rewrite String.eqb_refl.
  - destruct (String.eqb k k'); [discriminate | auto].
Qed.

(** The prices [gbce] keeps when the ledger is [ts]. *)
Definition active_prices (c : clock) (n : nat) (stocks : dict) (ts : list Trade) : result (list float) :=
  active (fun now st => vwap_at now st ts) c n stocks (dict_keys stocks).

(** [calc_volume_weighted_price] keeps the promise [gbce] relies on. *)
Lemma vwap_source (ts : list Trade) :
  Forall (fun t => trade_valid t = true) ts ->
  PriceSource ts calc_volume_weighted_price (fun now st => vwap_at now st ts).
Proof.
  intros Hv. split.
  - intros st c n. apply calc_volume_weighted_price_run.
  - intros now st e H. destruct (proj1 (vwap_error_iff_aux now st ts e Hv) H) as [[_ ->]|[_ ->]]; auto.
Qed.

Definition ANY_STOCK_MSG : string := "Couldn't find any trading activity for any stock!".

(** [gbce] applies the geometric mean to the prices it kept, raises when
    it kept none, and lets the [OverflowError] of a price through. *)
Lemma gbce_run (stocks : dict) (ts : list Trade) (c : clock) (n : nat) :
  Forall (fun t => trade_valid t = true) ts ->
  fst (gbce stocks ts c n) =
  (prices <-- active_prices c n stocks ts ;;
   if Nat.eqb (length prices) 0 then Raise (ValueError ANY_STOCK_MSG) else geometric_mean prices).
Proof.
  intros Hv. unfold gbce, gbce_with, bind at 1.
  pose proof (collect_run ts (fun now st => vwap_at now st ts) calc_volume_weighted_price
               (PS := vwap_source ts Hv) stocks (dict_keys stocks) [] c n) as H.
  destruct (collect _ _ _ _ _ c n) as [r n']. simpl in H. subst r.
  unfold active_prices. destruct (active _ _ _ _ _); simpl; [|reflexivity].
  destruct (Nat.eqb _ 0); reflexivity.
Qed.

Lemma active_prices_raises (c : clock) (n : nat) (stocks : dict) (ts : list Trade) (e : exn) :
  Forall (fun t => trade_valid t = true) ts ->
  active_prices c n stocks ts = Raise e -> e = OverflowError INT_OVERFLOW_MSG.
Proof.
  intros Hv. apply (active_raises ts _ calc_volume_weighted_price (PS := vwap_source ts Hv)).
  apply dict_keys_get.
Qed.

Lemma active_prices_pos_or_nan (c : clock) (n : nat) (stocks : dict) (ts : list Trade) (l : list float) :
  Forall (fun t => trade_valid t = true) ts ->
  active_prices c n stocks ts = Ok l -> Forall (fun x => fle x (Fin 0) = false) l.
Proof.
  intros Hv. apply active_Forall. intros now st x H. exact (vwap_pos_or_nan_aux now st ts x Hv H).
Qed.

Lemma gbce_error_iff_aux (stocks : dict) (ts : list Trade) (c : clock) (n : nat) (e : exn) :
  Forall (fun t => trade_valid t = true) ts ->
  fst (gbce stocks ts c n) = Raise e <->
  (active_prices c n stocks ts = Ok [] /\ e = ValueError ANY_STOCK_MSG)
  \/ (active_prices c n stocks ts = Raise e /\ e = OverflowError INT_OVERFLOW_MSG).
Proof.
  intros Hv. rewrite gbce_run by exact Hv.
  destruct (active_prices c n stocks ts) as [[|x l]|e0] eqn:E; simpl.
  - split; [intros H; inv H; auto | intros [[_ ->]|[H _]]; [reflexivity | discriminate]].
  - split; [|intros [[H _]|[H _]]; discriminate]. intros H. exfalso.
    pose proof (active_prices_pos_or_nan c n stocks ts _ Hv E) as Hp.
    destruct (geometric_mean_ok (x :: l) ltac:(discriminate) Hp) as [g Hg].
    congruence.
  - pose proof (active_prices_raises c n stocks ts e0 Hv E) as ->.
    split; [intros H; inv H; auto | intros [[H _]|[H ->]]; [discriminate | reflexivity]].
Qed.


Definition gbce_stocks : dict :=
  [("TEA", TEA); ("POP", POP); ("GIN", GIN)].

Definition gbce_trades : list Trade :=
  [t_at 950 10 1; mkTrade 960 POP false 1 (Fin 40)].


Lemma gbce_geometric_mean_aux (stocks : dict) (ts : list Trade) (c : clock) (n : nat) (qs : list Q) :
  Forall (fun t => trade_valid t = true) ts ->
  active_prices c n stocks ts = Ok (map Fin qs) -> qs <> [] ->
  fst (gbce stocks ts c n) = Ok (XR (gm_real (map Q2R qs))).
Proof.
  intros Hv Ha Hne. rewrite gbce_run by exact Hv. rewrite Ha. simpl. rewrite length_map.
  destruct qs as [|q qs']; [congruence|]. simpl Nat.eqb. cbv iota.
  apply geometric_mean_Fin; [exact Hne|].
  pose proof (active_prices_pos_or_nan c n stocks ts _ Hv Ha) as Hp.
  apply Forall_map in Hp. eapply Forall_impl; [|exact Hp].
  intros x Hx. now apply fle_Fin_0_false.
Qed.

(** C3: When the prices [gbce] keeps are the positive finite floats [qs],
    it returns their geometric mean exp((ln q1 + ... + ln qn) / n). *)
Theorem gbce_geometric_mean (stocks : dict) (ts : list Trade) (c : clock) (n : nat) (qs : list Q) :
  Forall (fun t => trade_valid t = true) ts ->
  active_prices c n stocks ts = Ok (map Fin qs) -> qs <> [] ->
  fst (gbce stocks ts c n) = Ok (XR (gm_real (map Q2R qs))).
Proof. apply gbce_geometric_mean_aux. Qed.

Lemma gbce_geometric_mean_witness :
  Forall (fun t => trade_valid t = true) gbce_trades
  /\ active_prices (clock_const 1000) 0%nat gbce_stocks gbce_trades = Ok (map Fin [10; 40]%Q)
  /\ fst (gbce gbce_stocks gbce_trades (clock_const 1000) 0%nat) = Ok (XR (gm_real (map Q2R [10; 40]%Q))).
Proof.
  assert (H1 : Forall (fun t => trade_valid t = true) gbce_trades) by (repeat constructor).
  assert (H2 : active_prices (clock_const 1000) 0%nat gbce_stocks gbce_trades = Ok (map Fin [10; 40]%Q))
    by (vm_compute; reflexivity).
  exact (conj H1 (conj H2 (gbce_geometric_mean _ _ _ _ _ H1 H2 ltac:(discriminate)))).
Defined.

Lemma active_prices_Fin_pos (c : clock) (n : nat) (stocks : dict) (ts : list Trade) (qs : list Q) :
  Forall (fun t => trade_valid t = true) ts ->
  active_prices c n stocks ts = Ok (map Fin qs) -> Forall (fun q => (0 < Q2R q)%R) qs.
Proof.
  intros Hv Ha. pose proof (active_prices_pos_or_nan c n stocks ts _ Hv Ha) as Hp.
  apply Forall_map in Hp. eapply Forall_impl; [|exact Hp].
  intros q Hq. apply fle_Fin_0_false in Hq. apply Qlt_Rlt in Hq.
  replace (Q2R 0) with 0%R in Hq by (unfold Q2R; simpl; lra). exact Hq.
Qed.

Lemma Forall_map_Q2R (P : R -> Prop) (qs : list Q) :
  Forall (fun q => P (Q2R q)) qs -> Forall P (map Q2R qs).
Proof. intros H. now apply Forall_map. Qed.

(** C4: The index [gbce] returns is the geometric mean of the prices
    [q1..qn] it kept: its n-th power is their product, and it lies
    between any positive lower bound and any upper bound of them. *)
Theorem gbce_mean_bounds (stocks : dict) (ts : list Trade) (c : clock) (n : nat) (qs : list Q) :
  Forall (fun t => trade_valid t = true) ts ->
  active_prices c n stocks ts = Ok (map Fin qs) -> qs <> [] ->
  exists g, fst (gbce stocks ts c n) = Ok (XR g)
    /\ (g ^ length qs = prodR (map Q2R qs))%R
    /\ (forall m M : R, (0 < m)%R -> Forall (fun q => m <= Q2R q <= M)%R qs -> (m <= g <= M)%R).
Proof.
  intros Hv Ha Hne. exists (gm_real (map Q2R qs)).
  assert (Hne' : map Q2R qs <> []) by (destruct qs; [congruence | discriminate]).
  split; [now apply gbce_geometric_mean_aux|]. split.
  - rewrite <- (length_map Q2R qs). apply gm_real_pow; [exact Hne'|].
    apply Forall_map_Q2R. exact (active_prices_Fin_pos c n stocks ts qs Hv Ha).
  - intros m M Hm HmM. apply gm_real_bounds; [exact Hne' | exact Hm | now apply Forall_map_Q2R].
Qed.

Lemma gbce_mean_bounds_witness :
  Forall (fun t => trade_valid t = true) gbce_trades
  /\ active_prices (clock_const 1000) 0%nat gbce_stocks gbce_trades = Ok (map Fin [10; 40]%Q)
  /\ exists g, fst (gbce gbce_stocks gbce_trades (clock_const 1000) 0%nat) = Ok (XR g)
       /\ (g ^ length [10; 40]%Q = prodR (map Q2R [10; 40]%Q))%R
       /\ (forall m M : R, (0 < m)%R -> Forall (fun q => m <= Q2R q <= M)%R [10; 40]%Q -> (m <= g <= M)%R).
Proof.
  assert (H1 : Forall (fun t => trade_valid t = true) gbce_trades) by (repeat constructor).
  assert (H2 : active_prices (clock_const 1000) 0%nat gbce_stocks gbce_trades = Ok (map Fin [10; 40]%Q))
    by (vm_compute; reflexivity).
  exact (conj H1 (conj H2 (gbce_mean_bounds _ _ _ _ _ H1 H2 ltac:(discriminate)))).
Defined.

Lemma all_ok_map_log_NaN (l : list float) (ys : list xreal) :
  all_ok (map py_log l) = Ok ys -> In NaN l -> existsb is_xnan ys = true.
Proof.
  revert ys. induction l as [|x l IH]; intros ys H Hin; [destruct Hin|].
  simpl in H. destruct (py_log x) as [y|e] eqn:Ey; simpl in H; [|discriminate].
  destruct (all_ok (map py_log l)) as [ys'|e]; simpl in H; [|discriminate]. inv H.
  destruct Hin as [-> | Hin]; simpl.
  - simpl in Ey. inv Ey. reflexivity.
  - rewrite (IH ys' eq_refl Hin). apply orb_true_r.
Qed.

(** C17: On trades the constructor built, one NaN among the prices [gbce]
    keeps (a stock with a NaN-priced trade in its window) makes the index
    NaN. *)
Theorem gbce_nan (stocks : dict) (ts : list Trade) (c : clock) (n : nat) (ps : list float) :
  Forall (fun t => trade_valid t = true) ts ->
  active_prices c n stocks ts = Ok ps -> In NaN ps -> fst (gbce stocks ts c n) = Ok XNaN.
Proof.
  intros Hv Ha Hin. rewrite gbce_run by exact Hv. rewrite Ha. simpl.
  pose proof (active_prices_pos_or_nan c n stocks ts _ Hv Ha) as Hp.
  destruct ps as [|x l]; [destruct Hin|]. simpl.
  destruct (all_ok_map_log (x :: l) Hp) as (ys & Hys & Hn).
  unfold geometric_mean, fmean_log. rewrite Hys. simpl. unfold fsum.
  rewrite Hn, andb_false_r, (all_ok_map_log_NaN _ _ Hys Hin). reflexivity.
Qed.

Lemma gbce_nan_witness :
  Forall (fun t => trade_valid t = true) nan_trades
  /\ active_prices (clock_const 1000) 0%nat gbce_stocks nan_trades = Ok [NaN]
  /\ In NaN [NaN]
  /\ fst (gbce gbce_stocks nan_trades (clock_const 1000) 0%nat) = Ok XNaN.
Proof.
  assert (H1 : Forall (fun t => trade_valid t = true) nan_trades) by (repeat constructor).
  assert (H2 : active_prices (clock_const 1000) 0%nat gbce_stocks nan_trades = Ok [NaN])
    by (vm_compute; reflexivity).
  exact (conj H1 (conj H2 (conj (or_introl eq_refl) (gbce_nan _ _ _ _ _ H1 H2 (or_introl eq_refl))))).
Defined.

(** The ledger of [gbce_not_a_snapshot]: a POP trade one microsecond
    younger than five minutes at instant 1000. *)
Definition edge_trades : list Trade :=
  [t_at 950 10 1; mkTrade (1000 - FIVE_MINUTES + 1) POP false 1 (Fin 40)].

(** [gbce] reads the clock once per stock, so its index is not the one of
    a single instant: with a clock that advances one microsecond per
    reading, a POP trade in the window at the first reading has left it
    at the second, when POP is priced, and the index differs from the one
    computed with every price at the first instant. *)
Example gbce_not_a_snapshot :
  let ticking := fun k : nat => (1000 + Z.of_nat k)%Z in
  fst (gbce gbce_stocks edge_trades ticking 0%nat) = Ok (XR (gm_real (map Q2R [10]%Q)))
  /\ fst (gbce gbce_stocks edge_trades (clock_const 1000) 0%nat)
     = Ok (XR (gm_real (map Q2R [10; 40]%Q))).
Proof.
  intros ticking.
  assert (Hv : Forall (fun t => trade_valid t = true) edge_trades) by (repeat constructor).
  split; apply gbce_geometric_mean_aux; try exact Hv; try discriminate; vm_compute; reflexivity.
Qed.

(** ** The index at one instant, against its specification *)

(** The prices of the stocks of the dict, in order, that traded in the
    five minutes before [now]. *)
Definition prices_at (now : Z) (stocks : dict) (ts : list Trade) : list float :=
  flat_map (fun st => match vwap_at now st ts with Ok x => [x] | Raise _ => [] end)
    (dict_values stocks).

(** The composite index of the specification: the geometric mean of those
    prices, an error when there are none, and the [OverflowError] of a
    window that holds an [int] too large for a float. *)
Definition composite_spec (now : Z) (stocks : dict) (ts : list Trade) : result xreal :=
  if existsb (fun st => window_overflows (window now (symbol st) ts)) (dict_values stocks) then
    Raise (OverflowError INT_OVERFLOW_MSG)
  else
    match prices_at now stocks ts with
    | [] => Raise (ValueError ANY_STOCK_MSG)
    | ps => geometric_mean ps
    end.

Lemma dict_get_keys (d : dict) :
  NoDup (dict_keys d) -> map (dict_get d) (dict_keys d) = map Some (dict_values d).
Proof.
  induction d as [|[k v] d IH]; simpl; intros Hnd; [reflexivity|].
  inv Hnd. rewrite String.eqb_refl. f_equal. rewrite <- IH by assumption.
  apply map_ext_in. intros k' Hk'. simpl.
  destruct (String.eqb k' k) eqn:E; [|reflexivity].
  apply String.eqb_eq in E. subst. contradiction.
Qed.

(** Whether a price computation raises what [gbce] does not swallow. *)
Definition fatal_price (r : result float) : bool :=
  match r with Raise e => negb (swallowed e) | Ok _ => false end.

(** With a constant clock the loop keeps the prices of the stocks that
    have one, unless one of them raises an [OverflowError]. *)
Lemma active_const (f : Z -> Stock -> result float) (now : Z) (n : nat) (stocks : dict)
  (ks : list string) (sts : list Stock) :
  (forall st e, f now st = Raise e -> swallowed e = true \/ e = OverflowError INT_OVERFLOW_MSG) ->
  map (dict_get stocks) ks = map Some sts ->
  active f (clock_const now) n stocks ks
  = if existsb (fun st => fatal_price (f now st)) sts then Raise (OverflowError INT_OVERFLOW_MSG)
    else Ok (flat_map (fun st => match f now st with Ok x => [x] | Raise _ => [] end) sts).
Proof.
  intros Hf. revert n sts. induction ks as [|k ks IH]; intros n sts H; destruct sts as [|st sts];
    simpl in *; try discriminate; [reflexivity|].
  injection H as Hk Hks. rewrite Hk. unfold clock_const at 1. rewrite (IH _ sts Hks).
  destruct (f now st) as [x|e] eqn:E; simpl.
  - now destruct (existsb _ sts).
  - destruct (Hf st e E) as [Hs | ->]; [rewrite Hs; simpl; now destruct (existsb _ sts)|].
    reflexivity.
Qed.

(** On valid trades [vwap_at] raises what [gbce] does not swallow exactly
    when the window of the stock overflows. *)
Lemma fatal_price_vwap (now : Z) (st : Stock) (ts : list Trade) :
  Forall (fun t => trade_valid t = true) ts ->
  fatal_price (vwap_at now st ts) = window_overflows (window now (symbol st) ts).
Proof.
  intros Hv. rewrite (vwap_at_cases now st ts Hv). cbv zeta.
  destruct (window_overflows _); [reflexivity|].
  pose proof (volume_pos _ (Forall_window _ now (symbol st) ts Hv)) as Hpos.
  destruct (window now (symbol st) ts) as [|t w].
  - unfold fatal_price. now rewrite no_activity_swallowed.
  - now rewrite py_truediv_pos_Z by (apply Hpos; discriminate).
Qed.

(** C24: When every reading of the clock gives the same instant [now],
    [gbce] over a dict with distinct keys computes the composite index of
    the specification at [now]: the geometric mean of the volume weighted
    prices of the stocks that traded, its error when none did, and the
    [OverflowError] when a window holds an [int] too large for a float. *)
Theorem gbce_snapshot_refines (stocks : dict) (ts : list Trade) (now : Z) (n : nat) :
  NoDup (dict_keys stocks) -> Forall (fun t => trade_valid t = true) ts ->
  fst (gbce stocks ts (clock_const now) n) = composite_spec now stocks ts.
Proof.
  intros Hnd Hv. rewrite gbce_run by exact Hv.
  unfold active_prices. rewrite (active_const _ now n stocks _ (dict_values stocks))
    by ((intros st e H; destruct (proj1 (vwap_error_iff_aux now st ts e Hv) H) as [[_ ->]|[_ ->]];
         [left; apply no_activity_swallowed | now right]) || now apply dict_get_keys).
  unfold composite_spec, prices_at.
  rewrite (existsb_ext _ (fun st => window_overflows (window now (symbol st) ts)))
    by (intros st; apply fatal_price_vwap, Hv).
  destruct (existsb _ _); [reflexivity|]. simpl. destruct (flat_map _ _); reflexivity.
Qed.

Lemma gbce_snapshot_refines_witness :
  NoDup (dict_keys gbce_stocks) /\ Forall (fun t => trade_valid t = true) gbce_trades
  /\ fst (gbce gbce_stocks gbce_trades (clock_const 1000) 0%nat) = composite_spec 1000 gbce_stocks gbce_trades.
Proof.
  assert (H1 : NoDup (dict_keys gbce_stocks)) by (vm_compute; repeat constructor; simpl; intuition discriminate).
  assert (H2 : Forall (fun t => trade_valid t = true) gbce_trades) by (repeat constructor).
  exact (conj H1 (conj H2 (gbce_snapshot_refines _ _ 1000 0 H1 H2))).
Defined.
