(* ===== verification/Main.v ===== *)
(** The command loop.

    Lines 150-224 of [src/Trading_sim.py]: the program builds the dict of
    stocks and the empty ledger, prints the stocks and the help, then reads
    one line at a time.  A line is split on whitespace into an action and
    its arguments; the action is looked up in the table [actions]; [exit]
    and [quit] leave the loop; the [match] reshapes the arguments (looking
    up and validating the symbol, converting the price, passing the
    collections); the function is called, its result printed unless the
    action shows a collection, and [on_exit] appends the trade of a [buy]
    or [sell].  A [ValueError] or [TypeError] raised anywhere in the body
    is printed and the loop goes on; any other exception ends the program.

    [step] is one iteration of the [while] loop, as a computation that may
    read the clock and raise the exceptions the handler does not catch;
    [run] iterates it over the input lines, and [main] is the whole
    program.  What the program prints is recorded as [output] events:
    the start-up banner, the prompt [input()] writes before each line,
    results, errors; [Output.v] renders them as text.

    The theorems: the ledger invariant over every run and the ledger only
    growing at its end; which exceptions end the program; a concrete
    defect (the [IndexError] of a command without arguments); a
    demonstration run; and the round trip
    of a [buy] command typed with decimal numerals. *)

From Stdlib Require Import ZArith QArith String Ascii List Bool Lia.
From S2P Require Import Prelude PyFloat PyBuiltins Stock Trade Metrics Gbce.
Import ListNotations.

Local Open Scope string_scope.
Local Open Scope py_scope.
Local Open Scope Z_scope.

(** ** What the loop handles and prints *)

(** The values a command returns. *)
Inductive value : Type :=
| VNone
| VInt (z : Z)
| VFloat (x : float)
| VIndex (x : xreal)
| VTrade (t : Trade).

Inductive output : Type :=
| OutLine (s : string)             (** [print] of a constant line *)
| OutPrompt                        (** the prompt [input()] writes *)
| OutResult (v : value)            (** [print(f'Result: {result}')] *)
| OutError (e : exn)               (** [print(e)] in the handler *)
| OutInvalidAction                 (** line 222 *)
| OutHelp                          (** [print_help()] *)
| OutTrades (l : list Trade)       (** [pretty_print(trades)] *)
| OutStocks (l : list Stock).      (** [pretty_print(stocks.values())] *)

(** What one iteration ends with: the loop goes on with a ledger and what
    was printed, or [break]s. *)
Inductive outcome : Type :=
| Continue (trades : list Trade) (outs : list output)
| Break.

(** How the program stops: [exit]/[quit], end of input ([input()] raises
    [EOFError]), or an exception the handler does not catch. *)
Inductive stop : Type :=
| StopQuit
| StopCrash (e : exn).

(** The functions of the program the dict [actions] refers to. *)
Inductive pyfn : Type :=
| FPrintHelp | FCalcDivYield | FCalcRatio | FBuy | FSell
| FCalcVolumeWeightedPrice | FGbce | FPrettyPrint | FQ.

(** The dict [actions] (lines 151-163), in insertion order. *)
Definition action_table : list (string * pyfn) :=
  [("help", FPrintHelp); ("dividend_yield", FCalcDivYield); ("p_to_e_ratio", FCalcRatio);
   ("buy", FBuy); ("sell", FSell); ("volume_weighted_price", FCalcVolumeWeightedPrice);
   ("gbce", FGbce); ("show_trades", FPrettyPrint); ("show_stocks", FPrettyPrint);
   ("exit", FQ); ("quit", FQ)].

(** [list(actions.keys())]. *)
Definition actions : list string := map fst action_table.

(** [actions[a]] when [a in actions]. *)
Definition action_fn (a : string) : option pyfn :=
  option_map snd (find (fun kv => String.eqb (fst kv) a) action_table).

(** [f is q]. *)
Definition is_q (f : pyfn) : bool := match f with FQ => true | _ => false end.

(** ** Argument handling *)

(** [args[i]]. *)
Definition arg (args : list string) (i : nat) : Py string :=
  match nth_error args i with
  | Some a => ret a
  | None => raise (IndexError "list index out of range")
  end.

Definition given (k : nat) : string :=
  string_of_nat k ++ (if Nat.eqb k 1 then " was given" else " were given").

(** Calling a function of no parameters on the arguments. *)
Definition call0 {A} (name : string) (args : list string) (r : Py A) : Py A :=
  match args with
  | [] => r
  | _ => raise (TypeError (name ++ "() takes 0 positional arguments but " ++ given (length args)))
  end.

(** [buy] or [sell] called on the arguments once [args[0]] is the stock: the two
    remaining strings are the quantity and the price. *)
Definition call_trade (name : string) (f : Stock -> pyval -> pyval -> Py Trade)
  (st : Stock) (rest : list string) : Py Trade :=
  match rest with
  | [q; p] => f st (PyStr q) (PyStr p)
  | [] => raise (TypeError (name ++ "() missing 2 required positional arguments: 'qty' and 'price'"))
  | [_] => raise (TypeError (name ++ "() missing 1 required positional argument: 'price'"))
  | _ => raise (TypeError (name ++ "() takes 3 positional arguments but " ++ given (S (length rest))))
  end.

(** [symbol = args[0]; validate_symbol(symbol, stocks); stocks[symbol]]. *)
Definition lookup_symbol (stocks : dict) (args : list string) : Py Stock :=
  sym <- arg args 0 ;;
  _ <- lift (validate_symbol sym stocks) ;;
  match dict_get stocks sym with
  | Some st => ret st
  | None => raise (KeyError (repr_str sym))
  end.

(** ** One iteration *)

(** Lines 195-220 for an action of the table other than [exit]/[quit]. *)
Definition dispatch (stocks : dict) (trades : list Trade) (action : string) (args : list string)
  : Py outcome :=
  if String.eqb action "buy" then
    st <- lookup_symbol stocks args ;;
    t <- call_trade "buy" buy st (tl args) ;;
    ret (Continue (append trades t) [OutResult (VTrade t)])
  else if String.eqb action "sell" then
    st <- lookup_symbol stocks args ;;
    t <- call_trade "sell" sell st (tl args) ;;
    ret (Continue (append trades t) [OutResult (VTrade t)])
  else if String.eqb action "dividend_yield" then
    st <- lookup_symbol stocks args ;;
    p0 <- arg args 1 ;;
    p <- lift (py_float (PyStr p0)) ;;
    r <- lift (calc_div_yield st p) ;;
    ret (Continue trades [OutResult (VFloat r)])
  else if String.eqb action "volume_weighted_price" then
    st <- lookup_symbol stocks args ;;
    r <- calc_volume_weighted_price st trades ;;
    ret (Continue trades [OutResult (VFloat r)])
  else if String.eqb action "gbce" then
    r <- gbce stocks trades ;;
    ret (Continue trades [OutResult (VIndex r)])
  else if String.eqb action "show_trades" then
    ret (Continue trades [OutTrades trades])
  else if String.eqb action "show_stocks" then
    ret (Continue trades [OutStocks (dict_values stocks)])
  else if String.eqb action "p_to_e_ratio" then
    call0 "calc_ratio" args (ret (Continue trades [OutResult (VInt calc_ratio)]))
  else
    call0 "print_help" args (ret (Continue trades [OutHelp; OutResult VNone])).

(** Lines 187-224 for one input line. *)
Definition step (stocks : dict) (trades : list Trade) (line : string) : Py outcome :=
  try_except
    (match split_ws (strip line) with
     | [] => raise (ValueError "not enough values to unpack (expected at least 1, got 0)")
     | a :: args =>
         let action := lower a in
         match action_fn action with
         | Some f => if is_q f then ret Break else dispatch stocks trades action args
         | None => ret (Continue trades [OutInvalidAction])
         end
     end)
    (fun e => if is_ValueError_or_TypeError e then ret (Continue trades [OutError e])
              else raise e).

(** The [while True] loop over the input lines, from clock reading [n];
    it returns the ledger, what was printed, how it stopped and the
    number of clock readings consumed. *)
Fixpoint run (stocks : dict) (lines : list string) (trades : list Trade) (outs : list output)
  (c : clock) (n : nat) : list Trade * list output * stop * nat :=
  match lines with
  | [] => (trades, (outs ++ [OutPrompt])%list, StopCrash (EOFError "EOF when reading a line"), n)
  | l :: ls =>
      match step stocks trades l c n with
      | (Ok (Continue trades' o), n') => run stocks ls trades' (outs ++ OutPrompt :: o)%list c n'
      | (Ok Break, n') => (trades, (outs ++ [OutPrompt])%list, StopQuit, n')
      | (Raise e, n') => (trades, (outs ++ [OutPrompt])%list, StopCrash e, n')
      end
  end.

(** The program: the catalogue, the start-up output (lines 177-184), the
    loop. *)
Definition HASHES : string := "####################".

Definition banner (stocks : dict) : list output :=
  [OutLine "Basic trading app simulator"; OutLine HASHES; OutLine "Available stocks are:";
   OutStocks (dict_values stocks); OutLine HASHES; OutLine "Available actions are:";
   OutHelp; OutLine HASHES].

Definition main (lines : list string) (c : clock) : list Trade * list output * stop * nat :=
  match stocks0 with
  | Ok stocks => run stocks lines [] (banner stocks) c 0
  | Raise e => ([], [], StopCrash e, 0%nat)
  end.

(** ** Lemmas: clock readings *)

(** Inverting binds down to the [ret] that ends a computation. *)
Ltac py_inv :=
  repeat match goal with
  | H : bind _ _ _ _ = (Ok _, _) |- _ =>
      let a := fresh "a" in let n1 := fresh "n" in let Ha := fresh "Ha" in
      apply bind_ok_inv in H as (a & n1 & Ha & H)
  | H : ret _ _ _ = (_, _) |- _ => unfold ret in H; inv H
  | H : lift _ _ _ = (_, _) |- _ => unfold lift in H; inv H
  end.

Lemma rf_arg (args : list string) (i : nat) : reads_forward (arg args i).
Proof. unfold arg. destruct (nth_error args i); auto with py. Qed.

Lemma lookup_symbol_pure (stocks : dict) (args : list string) c n :
  snd (lookup_symbol stocks args c n) = n.
Proof.
  unfold lookup_symbol, arg, bind, lift, ret, raise.
  destruct (nth_error args 0); [|reflexivity].
  destruct (validate_symbol s stocks); [|reflexivity].
  destruct (dict_get stocks s); reflexivity.
Qed.

Lemma rf_lookup_symbol (stocks : dict) (args : list string) : reads_forward (lookup_symbol stocks args).
Proof. intros c n. rewrite lookup_symbol_pure. lia. Qed.

Lemma rf_call_trade (name : string) (f : Stock -> pyval -> pyval -> Py Trade) st rest :
  (forall st q p, reads_forward (f st q p)) -> reads_forward (call_trade name f st rest).
Proof. intros Hf. unfold call_trade. destruct rest as [|q [|p [|x r]]]; auto with py. Qed.

Lemma rf_Trade_init st ind q p : reads_forward (Trade_init st ind q p).
Proof. intros c n. rewrite Trade_init_run. simpl. lia. Qed.

Lemma rf_call0 {A} (name : string) (args : list string) (r : Py A) :
  reads_forward r -> reads_forward (call0 name args r).
Proof. intros Hr. unfold call0. destruct args; auto with py. Qed.

Lemma rf_collect vw stocks ks ts acc :
  (forall st ts', reads_forward (vw st ts')) -> reads_forward (collect vw stocks ks ts acc).
Proof.
  intros Hvw. revert acc. induction ks as [|k ks IH]; intros acc; simpl; [auto with py|].
  apply rf_bind; [|intros; apply IH].
  apply rf_try; [destruct (dict_get stocks k); auto with py|].
  intros e. unfold gbce_handler. destruct (swallowed e); auto with py.
Qed.

Lemma rf_gbce (stocks : dict) (ts : list Trade) : reads_forward (gbce stocks ts).
Proof.
  unfold gbce, gbce_with. apply rf_bind.
  - apply rf_collect. intros st ts'. unfold calc_volume_weighted_price. auto with py.
  - intros prices. destruct (Nat.eqb _ 0); auto with py.
Qed.

#[local] Hint Resolve rf_arg rf_lookup_symbol rf_call_trade rf_Trade_init rf_call0 rf_gbce : py.

Lemma rf_dispatch stocks trades action args : reads_forward (dispatch stocks trades action args).
Proof.
  unfold dispatch, buy, sell, calc_volume_weighted_price.
  repeat (destruct (String.eqb _ _)); auto 10 with py.
Qed.

Lemma rf_step stocks trades line : reads_forward (step stocks trades line).
Proof.
  unfold step. apply rf_try.
  - destruct (split_ws (strip line)) as [|a args]; [auto with py|].
    destruct (action_fn (lower a)) as [f|]; [|auto with py].
    destruct (is_q f); [auto with py | apply rf_dispatch].
  - intros e. destruct (is_ValueError_or_TypeError e); auto with py.
Qed.

(** ** Lemmas: the ledger after one iteration *)

Lemma call_trade_ok name (f : Stock -> pyval -> pyval -> Py Trade) st rest c n t n' :
  call_trade name f st rest c n = (Ok t, n') ->
  exists q p, rest = [q; p] /\ f st (PyStr q) (PyStr p) c n = (Ok t, n').
Proof.
  unfold call_trade. destruct rest as [|q [|p [|x r]]]; simpl; try discriminate; eauto.
Qed.

(** An iteration leaves the ledger as it was, or appends the trade that
    [buy] or [sell] built from the clock reading it was at. *)
Lemma dispatch_ledger stocks trades action args c n t' o n' :
  dispatch stocks trades action args c n = (Ok (Continue t' o), n') ->
  t' = trades
  \/ exists st ind q p t,
       fst (Trade_init (Some st) (Some ind) q p c n) = Ok t /\ n' = S n /\ t' = append trades t.
Proof.
  unfold dispatch.
  destruct (String.eqb action "buy"); [|destruct (String.eqb action "sell")];
    [| |repeat (destruct (String.eqb _ _)); intros H; unfold call0 in H;
        try (destruct args; [|discriminate]); py_inv; auto].
  all: intros H; py_inv; right.
  all: pose proof (lookup_symbol_pure stocks args c n) as Hp; rewrite Ha in Hp; simpl in Hp; subst.
  all: apply call_trade_ok in Ha0 as (q & p & _ & Hb); unfold buy, sell in Hb.
  all: rewrite Trade_init_run in Hb; inv Hb.
  all: do 5 eexists; split; [rewrite Trade_init_run; simpl; eassumption | split; reflexivity].
Qed.

Lemma step_ledger stocks trades line c n t' o n' :
  step stocks trades line c n = (Ok (Continue t' o), n') ->
  (t' = trades /\ (n <= n')%nat)
  \/ exists st ind q p t,
       fst (Trade_init (Some st) (Some ind) q p c n) = Ok t /\ n' = S n /\ t' = append trades t.
Proof.
  intros H. pose proof (rf_step stocks trades line c n) as Hrf. rewrite H in Hrf. simpl in Hrf.
  unfold step, try_except in H.
  destruct (match split_ws (strip line) with _ => _ end c n) as [[r|e] n1] eqn:E.
  - inv H. destruct (split_ws (strip line)) as [|a args]; [discriminate|].
    destruct (action_fn (lower a)) as [f|]; [|unfold ret in E; inv E; left; auto].
    destruct (is_q f); [unfold ret in E; discriminate|].
    apply dispatch_ledger in E as [->|E]; [left; auto | right; exact E].
  - left. destruct (is_ValueError_or_TypeError e); [|discriminate].
    unfold ret in H. inv H. auto.
Qed.

Lemma reach_later (c : clock) (n n' : nat) (l : ledger) :
  ledger_reach c n l -> (n <= n')%nat -> ledger_reach c n' l.
Proof.
  intros H Hle. induction Hle; [exact H | now apply reach_read].
Qed.

(** One iteration that goes on leaves a ledger the loop can build. *)
Lemma step_reach stocks trades line c n tr o n1 :
  ledger_reach c n trades ->
  step stocks trades line c n = (Ok (Continue tr o), n1) -> ledger_reach c n1 tr.
Proof.
  intros Hr E. apply step_ledger in E as [[-> Hle]|(st & ind & q & p & t & Ht & -> & ->)].
  - now apply reach_later with n.
  - eapply reach_trade; eauto.
Qed.

Lemma run_reach stocks lines trades outs c n t' o' s n' :
  ledger_reach c n trades ->
  run stocks lines trades outs c n = (t', o', s, n') -> ledger_reach c n' t'.
Proof.
  revert trades outs n. induction lines as [|l ls IH]; intros trades outs n Hr H; simpl in H.
  - inv H. exact Hr.
  - pose proof (rf_step stocks trades l c n) as Hf.
    destruct (step stocks trades l c n) as [[[tr o|]|e] n1] eqn:E; simpl in Hf.
    + apply IH in H; [exact H|]. eapply step_reach; eauto.
    + inv H. now apply reach_later with n.
    + inv H. now apply reach_later with n.
Qed.

(** ** Lemmas: the exceptions that can escape *)

(** The three exceptions of the body the handler does not catch. *)
Definition fatal (e : exn) : Prop :=
  (exists m, e = IndexError m) \/ e = NameError "name 'valueError' is not defined"
  \/ e = OverflowError INT_OVERFLOW_MSG.

Definition body_exn (e : exn) : Prop := is_ValueError_or_TypeError e = true \/ fatal e.

Lemma body_ValueError m : body_exn (ValueError m).
Proof. now left. Qed.

Lemma body_TypeError m : body_exn (TypeError m).
Proof. now left. Qed.

#[local] Hint Resolve body_ValueError body_TypeError : py.

Lemma VE_caught (e : exn) : is_ValueError e = true -> is_ValueError_or_TypeError e = true.
Proof. destruct e; simpl; congruence. Qed.

Lemma ro_arg (args : list string) (i : nat) : raises_only body_exn (arg args i).
Proof.
  unfold arg. destruct (nth_error args i); [auto with py|].
  apply ro_raise. right. left. eauto.
Qed.

Lemma ro_lookup_symbol (stocks : dict) (args : list string) :
  raises_only body_exn (lookup_symbol stocks args).
Proof.
  unfold lookup_symbol. apply ro_bind; [apply ro_arg|]. intros sym.
  intros c n e n' H. unfold bind, lift in H.
  destruct (validate_symbol sym stocks) as [[]|e0] eqn:V.
  - apply (proj1 (proj1 (validate_symbol_spec_aux sym stocks))) in V as [st Hst].
    rewrite Hst in H. discriminate.
  - injection H as <- <-. left. apply VE_caught.
    exact (proj2 (validate_symbol_spec_aux sym stocks) e0 V).
Qed.

Lemma py_int_str_raises (s : string) (e : exn) : py_int (PyStr s) = Raise e -> is_ValueError e = true.
Proof. simpl. destruct (int_too_long s); [|destruct (parse_int s)]; intros H; inv H; reflexivity. Qed.

Lemma body_overflow : body_exn (OverflowError INT_OVERFLOW_MSG).
Proof. right. now right; right. Qed.

#[local] Hint Resolve body_overflow : py.

Lemma py_float_str_raises (s : string) (e : exn) : py_float (PyStr s) = Raise e -> is_ValueError e = true.
Proof. simpl. destruct (parse_float s); intros H; inv H; reflexivity. Qed.

Lemma Trade_fields_str_raises inst st ind q p e :
  Trade_fields inst (Some st) (Some ind) (PyStr q) (PyStr p) = Raise e -> is_ValueError e = true.
Proof.
  unfold Trade_fields.
  destruct (py_int (PyStr q)) as [qz|e0] eqn:Hq; cbn [rbind];
    [|intros H; injection H as <-; exact (py_int_str_raises _ _ Hq)].
  destruct (py_float (PyStr p)) as [pf|e0] eqn:Hp; cbn [rbind];
    [|intros H; injection H as <-; exact (py_float_str_raises _ _ Hp)].
  destruct (_ || _); [intros H; now inv H|].
  destruct (negb _); intros H; now inv H.
Qed.

Lemma ro_call_trade (name : string) (ind : string) (st : Stock) (rest : list string) :
  raises_only body_exn (call_trade name (fun st q p => Trade_init (Some st) (Some ind) q p) st rest).
Proof.
  unfold call_trade. destruct rest as [|q [|p [|x r]]]; try (apply ro_raise; auto with py).
  intros c n e n' H. rewrite Trade_init_run in H. injection H as H _. left.
  apply VE_caught. exact (Trade_fields_str_raises _ _ _ _ _ _ H).
Qed.

(** Python's [/] by a float that is not [<= 0] never raises. *)
Lemma py_truediv_not_le0 (x y : float) :
  fle y (Fin 0) = false -> exists r, py_truediv x y = Ok r.
Proof.
  intros Hy. unfold py_truediv. destruct y as [q| | |]; simpl; eauto.
  apply fle_Fin_0_false in Hy.
  destruct q as [[|k|k] d]; unfold Qlt in Hy; simpl in Hy; try lia. simpl. eauto.
Qed.

Lemma calc_div_yield_raises (st : Stock) (p : float) (e : exn) :
  calc_div_yield st p = Raise e -> body_exn e.
Proof.
  unfold calc_div_yield. destruct (fle p (Fin 0)) eqn:Hp; [intros H; inv H; right; now right; left|].
  destruct (String.eqb _ _).
  - destruct (float_of_int (last_div st)) as [ld|e0] eqn:F; simpl.
    + destruct (py_truediv_not_le0 ld p Hp) as [r ->]. discriminate.
    + intros H; inv H. apply float_of_int_raises in F as [_ ->]. auto with py.
  - destruct (fixed_times_par (fixed_div st) (par_value st)) as [num|e0] eqn:F; simpl.
    + assert (H100 : fle (fmul p (of_Z 100)) (Fin 0) = false) by (apply fmul_pos_or_nan_Z; [exact Hp | lia]).
      destruct (py_truediv_not_le0 num _ H100) as [r ->]. discriminate.
    + intros H; inv H. unfold fixed_times_par in F.
      destruct (fixed_div st); try (inv F; auto with py; fail).
      * apply float_of_int_raises in F as [_ ->]. auto with py.
      * destruct (float_of_int (par_value st)) eqn:F'; inv F.
        apply float_of_int_raises in F' as [_ ->]. auto with py.
Qed.

Lemma ro_call0 {A} (name : string) (args : list string) (r : Py A) :
  raises_only body_exn r -> raises_only body_exn (call0 name args r).
Proof. intros Hr. unfold call0. destruct args; [exact Hr | apply ro_raise; auto with py]. Qed.

#[local] Hint Resolve ro_arg ro_lookup_symbol ro_call_trade ro_call0 : py.

(** On a ledger of valid trades, the body of the loop raises only what
    the handler catches, an [IndexError], the [NameError] of
    [calc_div_yield] or the [OverflowError] of an [int] with no float. *)
Lemma ro_dispatch stocks trades action args :
  Forall (fun t => trade_valid t = true) trades ->
  raises_only body_exn (dispatch stocks trades action args).
Proof.
  intros Hv. unfold dispatch.
  destruct (String.eqb action "buy"); [apply ro_bind; auto with py; intros; apply ro_bind; [apply ro_call_trade | auto with py]|].
  destruct (String.eqb action "sell"); [apply ro_bind; auto with py; intros; apply ro_bind; [apply ro_call_trade | auto with py]|].
  destruct (String.eqb action "dividend_yield").
  { apply ro_bind; auto with py. intros st. apply ro_bind; auto with py. intros p0.
    apply ro_bind; [apply ro_lift; intros e He; apply py_float_str_raises in He; left;
                    now apply VE_caught|].
    intros p. apply ro_bind; [apply ro_lift; intros e He; now apply calc_div_yield_raises in He | auto with py]. }
  destruct (String.eqb action "volume_weighted_price").
  { apply ro_bind; auto with py. intros st. apply ro_bind; [|auto with py].
    intros c n e n' H. rewrite calc_volume_weighted_price_run in H. inv H.
    destruct (proj1 (vwap_error_iff_aux (c n) st trades e Hv) H1) as [[_ ->]|[_ ->]]; auto with py. }
  destruct (String.eqb action "gbce").
  { apply ro_bind; [|auto with py]. intros c n e n' H.
    assert (H' : fst (gbce stocks trades c n) = Raise e) by now rewrite H.
    destruct (proj1 (gbce_error_iff_aux stocks trades c n e Hv) H') as [[_ ->]|[_ ->]]; auto with py. }
  repeat (destruct (String.eqb _ _)); auto with py.
Qed.

Lemma ro_step stocks trades line :
  Forall (fun t => trade_valid t = true) trades ->
  raises_only fatal (step stocks trades line).
Proof.
  intros Hv. unfold step.
  apply (raises_only_impl (fun e => body_exn e /\ is_ValueError_or_TypeError e = false)).
  { intros e [[H|H] H']; [congruence | exact H]. }
  apply ro_try.
  - destruct (split_ws (strip line)) as [|a args]; [apply ro_raise; auto with py|].
    destruct (action_fn (lower a)) as [f|]; [|auto with py].
    destruct (is_q f); [auto with py | now apply ro_dispatch].
  - intros e _. auto with py.
Qed.

Lemma run_crash stocks lines trades outs c n t' o' e n' :
  ledger_reach c n trades ->
  run stocks lines trades outs c n = (t', o', StopCrash e, n') ->
  e = EOFError "EOF when reading a line" \/ fatal e.
Proof.
  revert trades outs n. induction lines as [|l ls IH]; intros trades outs n Hr H; simpl in H.
  - inv H. now left.
  - destruct (step stocks trades l c n) as [[[tr o|]|e0] n1] eqn:E.
    + eapply IH; [|exact H]. eapply step_reach; eauto.
    + discriminate.
    + injection H as _ _ He _. subst e. right.
      destruct (ledger_reach_inv_aux c n trades Hr) as [Hv _].
      exact (ro_step stocks trades l Hv c n e0 n1 E).
Qed.

(** C6: Whatever the input and the clock, the ledger the program has
    built when it stops holds only trades with a positive quantity and a
    price that is not [<= 0], each stamped with a clock reading taken
    before, in time order when the clock never goes back. *)
Theorem main_ledger_inv (lines : list string) (c : clock) (t' : list Trade) (o' : list output)
  (s : stop) (n' : nat) :
  main lines c = (t', o', s, n') -> ledger_inv c n' t'.
Proof.
  unfold main. destruct stocks0 as [stocks|e].
  - intros H. apply ledger_reach_inv_aux. eapply run_reach; [apply reach_init | exact H].
  - intros H. inv H. apply ledger_reach_inv_aux, reach_init.
Qed.

Definition demo_lines : list string :=
  ["buy TEA 100 10"; "Buy TEA 50 20"; "sell TEA 0 5"; "volume_weighted_price TEA"; "quit"].

Lemma main_ledger_inv_witness :
  exists t' o' s n', main demo_lines (clock_const 1000) = (t', o', s, n')
                     /\ ledger_inv (clock_const 1000) n' t'.
Proof.
  destruct (main demo_lines (clock_const 1000)) as [[[t' o'] s] n'] eqn:E.
  exists t', o', s, n'. split; [reflexivity|]. exact (main_ledger_inv _ _ _ _ _ _ E).
Defined.

(** C18: The program stops on an exception only at the end of the input
    ([EOFError] from [input()]), on an [IndexError] (an action given
    without its arguments), on the [NameError] of [calc_div_yield] or on
    the [OverflowError] of a quantity, or a volume, too large for a float
    in [calc_volume_weighted_price]: every other failure of a command is
    printed and the loop goes on. *)
Theorem main_crash_only (lines : list string) (c : clock) (t' : list Trade) (o' : list output)
  (e : exn) (n' : nat) :
  main lines c = (t', o', StopCrash e, n') ->
  e = EOFError "EOF when reading a line"
  \/ (exists m, e = IndexError m) \/ e = NameError "name 'valueError' is not defined"
  \/ e = OverflowError "int too large to convert to float".
Proof.
  unfold main. destruct stocks0 as [stocks|e0] eqn:S.
  - intros H. exact (run_crash _ _ _ _ _ _ _ _ _ _ (reach_init c 0) H).
  - rewrite (proj1 stocks0_value_aux) in S. discriminate.
Qed.

(** A quantity of 10^309 is accepted by [buy] and makes
    [volume_weighted_price] raise an [OverflowError] that stops the
    program. *)
Definition BIG_QTY : string :=
  "1" ++ "000000000000000000000000000000000000000000000000000000000000000000000000000000000000000000000000000000"
      ++ "000000000000000000000000000000000000000000000000000000000000000000000000000000000000000000000000000000"
      ++ "000000000000000000000000000000000000000000000000000000000000000000000000000000000000000000000000000000"
      ++ "000".

Definition overflow_lines : list string :=
  ["buy TEA " ++ BIG_QTY ++ " 1"; "volume_weighted_price TEA"; "show_trades"].

Lemma main_crash_only_witness :
  exists t' o', main overflow_lines (clock_const 1000)
     = (t', o', StopCrash (OverflowError "int too large to convert to float"), 2%nat)
  /\ (OverflowError "int too large to convert to float" = EOFError "EOF when reading a line"
      \/ (exists m, OverflowError "int too large to convert to float" = IndexError m)
      \/ OverflowError "int too large to convert to float" = NameError "name 'valueError' is not defined"
      \/ OverflowError "int too large to convert to float" = OverflowError "int too large to convert to float").
Proof.
  pose (r := main overflow_lines (clock_const 1000)).
  assert (H : main overflow_lines (clock_const 1000)
              = (fst (fst (fst r)), snd (fst (fst r)),
                 StopCrash (OverflowError "int too large to convert to float"), 2%nat))
    by (vm_compute; reflexivity).
  exists (fst (fst (fst r))), (snd (fst (fst r))).
  exact (conj H (main_crash_only _ _ _ _ _ _ H)).
Defined.

(** The scenario of the specification through the command loop: two buys
    of TEA at 10 (100 shares) and 20 (50 shares) are recorded, a sell of
    0 shares is refused with its [ValueError] and the loop goes on, the
    volume weighted price printed is 40/3, and [quit] stops the program. *)
Example main_demo :
  exists t1 t2 x o0,
    main demo_lines (clock_const 1000)
    = ([t1; t2],
       (o0 ++ [OutPrompt; OutResult (VTrade t1); OutPrompt; OutResult (VTrade t2);
               OutPrompt; OutError (ValueError "Price and quantity must be greater than 0");
               OutPrompt; OutResult (VFloat x); OutPrompt])%list,
       StopQuit, 4%nat)
    /\ x =f= Fin (40 # 3) /\ qty t1 = 100 /\ qty t2 = 50 /\ is_buy t2 = true.
Proof.
  do 3 eexists. exists (banner (match stocks0 with Ok d => d | Raise _ => [] end)).
  split; [vm_compute; reflexivity|]. vm_compute. repeat split; reflexivity.
Qed.

Lemma run_extends stocks lines trades outs c n t' o' s n' :
  run stocks lines trades outs c n = (t', o', s, n') -> exists more, t' = (trades ++ more)%list.
Proof.
  revert trades outs n. induction lines as [|l ls IH]; intros trades outs n H; simpl in H.
  - inv H. exists []. now rewrite app_nil_r.
  - destruct (step stocks trades l c n) as [[[tr o|]|e] n1] eqn:E.
    + apply IH in H as [more ->].
      apply step_ledger in E as [[-> _]|(st & ind & q & p & t & _ & _ & ->)].
      * now exists more.
      * exists (t :: more). unfold append. now rewrite <- app_assoc.
    + inv H. exists []. now rewrite app_nil_r.
    + inv H. exists []. now rewrite app_nil_r.
Qed.

(** C26: The ledger only grows by appending: the ledger the program ends
    with after reading [lines] starts with the ledger it had after reading
    any prefix of them, so no trade is ever changed or removed. *)
Theorem main_append_only (pre post : list string) (c : clock) :
  exists more, fst (fst (fst (main (pre ++ post) c)))
               = (fst (fst (fst (main pre c))) ++ more)%list.
Proof.
  unfold main. destruct stocks0 as [stocks|e]; [|exists []; reflexivity].
  generalize (@nil Trade) as trades. generalize (banner stocks) as outs.
  generalize 0%nat as n. induction pre as [|l ls IH]; intros n outs trades; simpl.
  - destruct (run stocks post trades outs c n) as [[[t' o'] s] n'] eqn:E.
    apply run_extends in E as [more ->]. now exists more.
  - destruct (step stocks trades l c n) as [[[tr o|]|e] n1]; simpl; [apply IH| |];
      exists []; now rewrite app_nil_r.
Qed.

(** [str.split()] on a [buy] command line of two words and two numerals. *)
Lemma split_buy_line (d1 d2 : string) :
  no_space d1 = true -> d1 <> EmptyString -> no_space d2 = true -> d2 <> EmptyString ->
  split_ws (strip ("buy TEA " ++ d1 ++ " " ++ d2)) = ["buy"; "TEA"; d1; d2].
Proof.
  intros N1 E1 N2 E2. rewrite strip_id.
  - unfold split_ws.
    change (split_ws_from [] ("buy TEA " ++ d1 ++ " " ++ d2))
      with ("buy" :: "TEA" :: split_ws_from [] (d1 ++ String " " d2)).
    rewrite split_ws_from_word, split_ws_from_last by (auto || reflexivity).
    cbn [rev app]. rewrite !string_of_list_ascii_of_string. reflexivity.
  - reflexivity.
  - rewrite !rev_string_app, !string_app_assoc. apply lstrip_no_space_app.
    + now rewrite no_space_rev.
    + now apply rev_string_nonempty.
Qed.

(** [Trade] on two decimal numerals that denote positive numbers. *)
Lemma Trade_fields_digits inst st ind d1 d2 :
  all_digits d1 = true -> d1 <> EmptyString -> all_digits d2 = true -> d2 <> EmptyString ->
  digits_count d1 <= MAX_STR_DIGITS -> int_fits (digits_value d2) = true ->
  0 < digits_value d1 -> 0 < digits_value d2 -> lower ind = "buy" ->
  exists q, Trade_fields inst (Some st) (Some ind) (PyStr d1) (PyStr d2)
            = Ok (mkTrade inst st true (digits_value d1) (Fin q))
            /\ (q == inject_Z (digits_value d2))%Q.
Proof.
  intros A1 N1 A2 N2 C1 F2 P1 P2 Hind. destruct (py_float_digits d2 A2 N2 F2) as (q & E & Hq).
  exists q. split; [|exact Hq]. unfold Trade_fields.
  rewrite py_int_digits, E by assumption. cbn [rbind].
  replace (fle (Fin q) (Fin 0)) with false.
  2: { symmetry. apply fle_Fin_0_false. rewrite Hq. unfold Qlt. simpl. lia. }
  replace (digits_value d1 <=? 0) with false by lia. rewrite Hind. reflexivity.
Qed.

(** One [buy TEA <qty> <price>] line with decimal numerals, then the end
    of the input. *)
Lemma main_buy_digits (d1 d2 : string) (c : clock) :
  all_digits d1 = true -> d1 <> EmptyString -> all_digits d2 = true -> d2 <> EmptyString ->
  digits_count d1 <= MAX_STR_DIGITS -> int_fits (digits_value d2) = true ->
  0 < digits_value d1 -> 0 < digits_value d2 ->
  exists t o, main ["buy TEA " ++ d1 ++ " " ++ d2] c
              = ([t], o, StopCrash (EOFError "EOF when reading a line"), 1%nat)
    /\ instant t = c 0%nat /\ stock t = TEA /\ is_buy t = true
    /\ qty t = digits_value d1 /\ price t =f= of_Z (digits_value d2).
Proof.
  intros A1 N1 A2 N2 C1 F2 P1 P2.
  destruct (Trade_fields_digits (c 0%nat) TEA "buy" _ _ A1 N1 A2 N2 C1 F2 P1 P2 eq_refl) as (q & Et & Hq).
  unfold main. destruct stocks0 as [stocks|e] eqn:Hs; [|vm_compute in Hs; discriminate].
  vm_compute in Hs. injection Hs as <-.
  cbn [run]. unfold step, try_except.
  rewrite split_buy_line by (first [apply all_digits_no_space; assumption | assumption]).
  lazy -[Trade_fields]. unfold TEA in Et. rewrite Et. lazy beta iota zeta.
  do 2 eexists. refine (conj eq_refl (conj eq_refl (conj eq_refl (conj eq_refl (conj eq_refl _))))).
  exact Hq.
Qed.

(** [str(n)] of a positive number up to 2^53 is read back by [int] (it
    has far fewer than 4300 digits) and by [float] (it is in range). *)
Lemma numeral_small (n : nat) :
  (Z.of_nat (S n) <= 2 ^ 53)%Z ->
  let d := string_of_nat (S n) in
  all_digits d = true /\ d <> EmptyString /\ digits_value d = Z.of_nat (S n)
  /\ digits_count d <= MAX_STR_DIGITS /\ int_fits (digits_value d) = true.
Proof.
  intros Hb d. destruct (string_of_nat_spec (S n)) as (A & N & V).
  pose proof (string_of_nat_count (S n) 16 ltac:(lia) ltac:(lia)) as Hc.
  unfold d. rewrite V. repeat split; try assumption.
  - unfold MAX_STR_DIGITS. lia.
  - apply int_fits_small. assert (2 ^ 53 <= 2 ^ 1023) by (apply Z.pow_le_mono_r; lia). lia.
Qed.

(** C27: A [buy] command whose quantity and price are typed as the decimal
    numerals of positive numbers up to 2^53 (integers a float holds
    exactly) records one trade with exactly that quantity and price, read
    at the first clock reading: [int()] and [float()] read back what
    [str()] of such a number prints. *)
Theorem main_buy_numerals (n m : nat) (c : clock) :
  (Z.of_nat (S n) <= 2 ^ 53)%Z -> (Z.of_nat (S m) <= 2 ^ 53)%Z ->
  exists t,
    fst (fst (fst (main ["buy TEA " ++ string_of_nat (S n) ++ " " ++ string_of_nat (S m)] c))) = [t]
    /\ instant t = c 0%nat /\ stock t = TEA /\ is_buy t = true
    /\ qty t = Z.of_nat (S n) /\ price t =f= of_Z (Z.of_nat (S m)).
Proof.
  intros Hn Hm.
  destruct (numeral_small n Hn) as (A1 & N1 & V1 & C1 & _).
  destruct (numeral_small m Hm) as (A2 & N2 & V2 & _ & F2).
  rewrite <- V1, <- V2.
  destruct (main_buy_digits _ _ c A1 N1 A2 N2 C1 F2 ltac:(lia) ltac:(lia)) as (t & o & -> & H).
  exists t. split; [reflexivity | exact H].
Qed.

Lemma main_buy_numerals_witness :
  (Z.of_nat 100 <= 2 ^ 53)%Z /\ (Z.of_nat 10 <= 2 ^ 53)%Z
  /\ exists t,
    fst (fst (fst (main ["buy TEA " ++ string_of_nat 100 ++ " " ++ string_of_nat 10] (clock_const 7)))) = [t]
    /\ instant t = clock_const 7 0%nat /\ stock t = TEA /\ is_buy t = true
    /\ qty t = Z.of_nat 100 /\ price t =f= of_Z (Z.of_nat 10).
Proof.
  assert (H1 : (Z.of_nat 100 <= 2 ^ 53)%Z) by (vm_compute; discriminate).
  assert (H2 : (Z.of_nat 10 <= 2 ^ 53)%Z) by (vm_compute; discriminate).
  exact (conj H1 (conj H2 (main_buy_numerals 99 9 (clock_const 7) H1 H2))).
Defined.
