(* ===== verification/Events.v ===== *)
(** The events of a session: what each command may print, and the
    prompts.  These are lemmas the session theorems of [Session.v] and
    [Output.v] use; the claim of this file is that [show_trades] at any
    point of a session lists the ledger.

    Every event one iteration of the loop records is typed by the
    function the line names in [actions]: a [Result] has the type of what
    that function returns, the help text comes only from [print_help],
    the listings only from [pretty_print], the invalid-action message only
    from a name that is not in [actions], and an error only from a
    [ValueError] or [TypeError] the handler caught.  The loop writes one
    prompt before reading each line, so a session that reaches the end of
    its input has prompted once for every line and once more. *)

From Stdlib Require Import ZArith QArith String Ascii List Bool Lia.
From S2P Require Import Prelude PyFloat PyBuiltins Stock Trade Metrics Gbce Main.
Import ListNotations.

Local Open Scope string_scope.
Local Open Scope py_scope.

(** ** Python types of the values the commands return *)

Inductive pytype : Type := TNone | TInt | TFloat | TTrade.

Scheme Equality for pytype.

Definition value_type (v : value) : pytype :=
  match v with
  | VNone => TNone
  | VInt _ => TInt
  | VFloat _ | VIndex _ => TFloat
  | VTrade _ => TTrade
  end.

(** The type of what each function of [actions] returns. *)
Definition returns (f : pyfn) : pytype :=
  match f with
  | FPrintHelp | FPrettyPrint | FQ => TNone
  | FCalcDivYield | FCalcVolumeWeightedPrice | FGbce => TFloat
  | FCalcRatio => TInt
  | FBuy | FSell => TTrade
  end.

(** The function a line names, if its first word is an action. *)
Definition line_fn (line : string) : option pyfn :=
  match split_ws (strip line) with
  | a :: _ => action_fn (lower a)
  | [] => None
  end.

(** The events a line naming [f] may record. *)
Definition allowed (f : option pyfn) (o : output) : bool :=
  match o with
  | OutResult v => match f with Some g => pytype_beq (value_type v) (returns g) | None => false end
  | OutError e => is_ValueError_or_TypeError e
  | OutHelp => match f with Some FPrintHelp => true | _ => false end
  | OutTrades _ | OutStocks _ => match f with Some FPrettyPrint => true | _ => false end
  | OutInvalidAction => match f with None => true | _ => false end
  | OutLine _ | OutPrompt => false
  end.

Definition is_prompt (o : output) : bool := match o with OutPrompt => true | _ => false end.

Definition count_prompts (l : list output) : nat := length (filter is_prompt l).

(** ** Lemmas *)

Lemma action_fn_In (a : string) (f : pyfn) : action_fn a = Some f -> In (a, f) action_table.
Proof.
  unfold action_fn. destruct (find _ _) as [[k g]|] eqn:E; simpl; [|discriminate].
  intros H. injection H as <-. apply find_some in E as [Hin Hk]. simpl in Hk.
  apply String.eqb_eq in Hk. subst. exact Hin.
Qed.

Lemma dispatch_typed stocks trades a f args c n t' o n' :
  In (a, f) action_table -> is_q f = false ->
  dispatch stocks trades a args c n = (Ok (Continue t' o), n') ->
  Forall (fun x => allowed (Some f) x = true) o.
Proof.
  intros Hin Hq. simpl in Hin.
  repeat destruct Hin as [Hin|Hin]; try (injection Hin as <- <-); try contradiction; try discriminate Hq.
  all: unfold dispatch; cbn [String.eqb Ascii.eqb Bool.eqb]; intros H.
  all: py_inv; repeat constructor.
  all: unfold call0 in H; destruct args; [py_inv; repeat constructor | discriminate].
Qed.

Lemma count_prompts_app (l m : list output) :
  count_prompts (l ++ m) = (count_prompts l + count_prompts m)%nat.
Proof. unfold count_prompts. now rewrite filter_app, length_app. Qed.

Lemma count_prompts_none (l : list output) :
  Forall (fun x => is_prompt x = false) l -> count_prompts l = 0%nat.
Proof. induction 1 as [|x l Hx _ IH]; [reflexivity|]. unfold count_prompts. simpl. now rewrite Hx. Qed.

Lemma step_allowed stocks trades line c n t' o n' :
  step stocks trades line c n = (Ok (Continue t' o), n') ->
  Forall (fun x => allowed (line_fn line) x = true) o.
Proof.
  unfold step, try_except, line_fn.
  destruct (match split_ws (strip line) with _ => _ end c n) as [[r|e] n1] eqn:E; intros H.
  - injection H as -> _. destruct (split_ws (strip line)) as [|a args]; [discriminate|].
    destruct (action_fn (lower a)) as [f|] eqn:Hf; [|unfold ret in E; inv E; repeat constructor].
    destruct (is_q f) eqn:Hq; [unfold ret in E; discriminate|].
    eapply dispatch_typed; [apply action_fn_In; exact Hf | exact Hq | exact E].
  - destruct (is_ValueError_or_TypeError e) eqn:He; [|discriminate].
    unfold ret in H. inv H. repeat constructor. exact He.
Qed.

Lemma step_no_prompt stocks trades line c n t' o n' :
  step stocks trades line c n = (Ok (Continue t' o), n') -> count_prompts o = 0%nat.
Proof.
  intros H. apply count_prompts_none. eapply Forall_impl; [|exact (step_allowed _ _ _ _ _ _ _ _ H)].
  intros [] Hx; simpl in *; congruence.
Qed.

Definition EOF_STOP : stop := StopCrash (EOFError "EOF when reading a line").

(** A run prompts once per line it reads; it reads past the last line,
    and stops with [EOFError], exactly when no line stopped it before. *)
Lemma run_prompts stocks lines trades outs c n t' o' s n' :
  ledger_reach c n trades ->
  run stocks lines trades outs c n = (t', o', s, n') ->
  (s = EOF_STOP /\ count_prompts o' = (count_prompts outs + S (length lines))%nat)
  \/ (s <> EOF_STOP /\ (count_prompts o' <= count_prompts outs + length lines)%nat).
Proof.
  revert trades outs n. induction lines as [|l ls IH]; intros trades outs n Hr H; simpl in H.
  - inv H. left. split; [reflexivity|]. rewrite count_prompts_app.
    change (count_prompts [OutPrompt]) with 1%nat. simpl. lia.
  - destruct (step stocks trades l c n) as [[[tr o|]|e] n1] eqn:E.
    + apply IH in H; [|eapply step_reach; eauto].
      rewrite count_prompts_app in H. cbn [count_prompts filter is_prompt length] in H.
      fold (count_prompts o) in H. rewrite (step_no_prompt _ _ _ _ _ _ _ _ E) in H.
      simpl length. destruct H as [[? ?]|[? ?]]; [left|right]; split; auto; lia.
    + inv H. right. rewrite count_prompts_app. change (count_prompts [OutPrompt]) with 1%nat.
      split; [discriminate | simpl; lia].
    + inv H. right. rewrite count_prompts_app. change (count_prompts [OutPrompt]) with 1%nat.
      split; [|simpl; lia].
      destruct (ledger_reach_inv_aux c n _ Hr) as [Hv _].
      pose proof (ro_step stocks _ l Hv c n e _ E) as [[m ->]|[-> | ->]]; discriminate.
Qed.

(** The program reads its whole input unless a command stops it: it
    stops with the [EOFError] of [input()] exactly when it has written one
    prompt for every input line and one more. *)
Lemma main_reads_all_input (lines : list string) (c : clock) t' o s n' :
  main lines c = (t', o, s, n') ->
  s = EOF_STOP <-> count_prompts o = S (length lines).
Proof.
  unfold main. destruct stocks0 as [stocks|e] eqn:S; [|vm_compute in S; discriminate].
  intros H. apply run_prompts in H; [|apply reach_init].
  replace (count_prompts (banner stocks)) with 0%nat in H by reflexivity.
  destruct H as [[-> ->] | [Hs Hle]]; [tauto | split; [tauto | lia]].
Qed.

(** A run that reads its whole input continues as a run of more lines
    would from where it ended, before its last prompt. *)
Lemma run_eof_app stocks pre post trades outs c n t' o n' :
  ledger_reach c n trades ->
  run stocks pre trades outs c n = (t', o, EOF_STOP, n') ->
  exists o', o = (o' ++ [OutPrompt])%list
             /\ run stocks (pre ++ post) trades outs c n = run stocks post t' o' c n'.
Proof.
  revert trades outs n. induction pre as [|l ls IH]; intros trades outs n Hr H; simpl in H |- *.
  - inv H. eauto.
  - destruct (step stocks trades l c n) as [[[tr o1|]|e] n1] eqn:E.
    + apply IH in H; [exact H | eapply step_reach; eauto].
    + discriminate.
    + injection H as _ _ He _. destruct (ledger_reach_inv_aux c n _ Hr) as [Hv _].
      pose proof (ro_step stocks _ l Hv c n e _ E) as [[m ->]|[-> | ->]]; discriminate.
Qed.

(** C28: [show_trades] after any input the program has read to its end
    lists exactly the trades recorded so far, in the order they were
    appended, and changes nothing. *)
Theorem show_trades_lists_ledger (pre : list string) (c : clock) t o n :
  main pre c = (t, o, EOF_STOP, n) ->
  main (pre ++ ["show_trades"]) c = (t, (o ++ [OutTrades t; OutPrompt])%list, EOF_STOP, n).
Proof.
  unfold main. destruct stocks0 as [stocks|e] eqn:S; [|vm_compute in S; discriminate].
  intros H. apply (run_eof_app _ _ ["show_trades"]) in H as (o' & -> & ->); [|apply reach_init].
  cbn [run]. change (step stocks t "show_trades" c n) with (Ok (Continue t [OutTrades t]), n).
  cbn [run]. now rewrite <- !app_assoc.
Qed.

Lemma show_trades_lists_ledger_witness :
  exists t o n, main ["buy TEA 5 2"; "sell POP 1 3"] (clock_const 0%Z) = (t, o, EOF_STOP, n)
    /\ main (["buy TEA 5 2"; "sell POP 1 3"] ++ ["show_trades"]) (clock_const 0%Z)
       = (t, (o ++ [OutTrades t; OutPrompt])%list, EOF_STOP, n).
Proof.
  destruct (main ["buy TEA 5 2"; "sell POP 1 3"] (clock_const 0%Z)) as [[[t o] s] n] eqn:E.
  assert (Hs : s = EOF_STOP) by (vm_compute in E; inversion E; reflexivity). subst s.
  exists t, o, n. split; [reflexivity|]. exact (show_trades_lists_ledger _ _ _ _ _ E).
Defined.
