(* ===== verification/Session.v ===== *)
(** Sessions: the loop on an unbounded input, and commands composed.

    [run] of [Main.v] reads a finite list of lines and meets the end of
    the input.  An interactive user may type for ever, so the [while True]
    loop is also modelled on an input stream [inp : nat -> string] (line
    [i] is the [i]-th answer to [input()]) by [run_interactive], with fuel
    that bounds the number of iterations: [None] means the fuel ran out
    before the loop stopped.  The theorems: the loop stops at the first
    [exit] (enough fuel gives the result, the same as on the finite input
    that ends with that line, whatever follows it), it never stops on a
    stream of commands that all go on, a [buy] followed by
    [volume_weighted_price] prints the price bought at, and at any point
    of a session an action missing an argument stops the program with an
    [IndexError] and a [buy] of a quantity too large for a float followed
    by [volume_weighted_price] stops it with an [OverflowError]. *)

From Stdlib Require Import ZArith QArith String Ascii List Bool Lia Lqa.
From S2P Require Import Prelude PyFloat PyBuiltins Stock Trade Metrics Gbce Main Events.
Import ListNotations.

Local Open Scope string_scope.
Local Open Scope py_scope.

(** ** The loop on an input stream *)

(** At most [fuel] iterations of lines 186-224, reading line [i] first. *)
Fixpoint run_interactive (fuel : nat) (stocks : dict) (inp : nat -> string) (i : nat)
  (trades : list Trade) (outs : list output) (c : clock) (n : nat)
  : option (list Trade * list output * stop * nat) :=
  match fuel with
  | O => None
  | S f =>
      match step stocks trades (inp i) c n with
      | (Ok (Continue trades' o), n') => run_interactive f stocks inp (S i) trades' (outs ++ OutPrompt :: o)%list c n'
      | (Ok Break, n') => Some (trades, (outs ++ [OutPrompt])%list, StopQuit, n')
      | (Raise e, n') => Some (trades, (outs ++ [OutPrompt])%list, StopCrash e, n')
      end
  end.

Definition main_interactive (fuel : nat) (inp : nat -> string) (c : clock)
  : option (list Trade * list output * stop * nat) :=
  match stocks0 with
  | Ok stocks => run_interactive fuel stocks inp 0 [] (banner stocks) c 0
  | Raise e => Some ([], [], StopCrash e, 0%nat)
  end.

(** The lines [i], ..., [i + k - 1] of a stream. *)
Definition lines_of (inp : nat -> string) (i k : nat) : list string := map inp (seq i k).

(** ** Lemmas *)

Lemma step_exit stocks trades c n : step stocks trades "exit" c n = (Ok Break, n).
Proof. reflexivity. Qed.

(** With the [exit] [j] lines ahead, [j + 1] iterations or more end the
    loop as the finite run of those lines does. *)
Lemma run_interactive_exit stocks inp c (j : nat) :
  forall fuel i trades outs n,
  inp (i + j)%nat = "exit" -> (j < fuel)%nat ->
  run_interactive fuel stocks inp i trades outs c n
  = Some (run stocks (lines_of inp i (S j)) trades outs c n).
Proof.
  induction j as [|j IH]; intros [|f] i trades outs n Hx Hf; try lia; cbn [run_interactive].
  - rewrite Nat.add_0_r in Hx. unfold lines_of. simpl. rewrite Hx, step_exit. reflexivity.
  - unfold lines_of. cbn [seq map run].
    destruct (step stocks trades (inp i) c n) as [[[tr o|]|e] n1]; try reflexivity.
    apply IH; [rewrite <- Hx; f_equal; lia | lia].
Qed.

(** A stream whose every line goes on never ends the loop. *)
Lemma run_interactive_forever stocks inp c fuel :
  forall i trades outs n,
  (forall k trades n, exists trades' o n', step stocks trades (inp k) c n = (Ok (Continue trades' o), n')) ->
  run_interactive fuel stocks inp i trades outs c n = None.
Proof.
  induction fuel as [|f IH]; intros i trades outs n Hgo; [reflexivity|]. cbn [run_interactive].
  destruct (Hgo i trades n) as (t' & o & n' & ->). apply IH, Hgo.
Qed.

(** The volume weighted price of one trade in the window is its price. *)
Lemma vwap_at_one (now : Z) (st : Stock) (t : Trade) (q : Q) :
  in_window (now - FIVE_MINUTES) (symbol st) t = true -> (0 < qty t)%Z -> int_fits (qty t) = true ->
  price t = Fin q ->
  exists x, vwap_at now st [t] = Ok x /\ x =f= Fin q.
Proof.
  intros Hw Hq Hf Hp. unfold vwap_at. cbn [vwap_loop]. rewrite Hw.
  rewrite add_trade_fits by exact Hf. unfold add_exact. rewrite Hp. cbn [rbind fst snd].
  rewrite Z.add_0_l, float_of_int_fits by exact Hf.
  replace (qty t =? 0)%Z with false by lia. cbn [rbind]. rewrite py_truediv_pos_Z by lia.
  eexists. split; [reflexivity|]. unfold of_Z. simpl.
  assert (Hv : ~ inject_Z (qty t) == 0) by (unfold Qeq; simpl; lia).
  rewrite Qplus_0_l. unfold Qdiv. rewrite <- Qmult_assoc, Qmult_inv_r by exact Hv.
  apply Qmult_1_r.
Qed.

(** A program that read its whole input goes on, on more lines, from
    where it was before its last prompt. *)
Lemma main_eof_app pre post c t o n :
  main pre c = (t, o, EOF_STOP, n) ->
  exists stocks o', stocks0 = Ok stocks /\ o = (o' ++ [OutPrompt])%list
                    /\ main (pre ++ post) c = run stocks post t o' c n.
Proof.
  unfold main. destruct stocks0 as [stocks|e] eqn:S; [|vm_compute in S; discriminate].
  intros H. apply (run_eof_app _ _ post) in H as (o' & -> & H); [|apply reach_init].
  exists stocks, o'. auto.
Qed.

(** [volume_weighted_price] of a valid symbol prints the price [vwap_at]
    gives at the clock reading. *)
Lemma dispatch_vwap stocks trades sym st c n x :
  validate_symbol sym stocks = Ok tt -> dict_get stocks sym = Some st ->
  vwap_at (c n) st trades = Ok x ->
  dispatch stocks trades "volume_weighted_price" [sym] c n
  = (Ok (Continue trades [OutResult (VFloat x)]), S n).
Proof.
  intros Hv Hg Hx. unfold dispatch. cbn [String.eqb Ascii.eqb Bool.eqb].
  unfold lookup_symbol, calc_volume_weighted_price, bind, arg, lift, ret, now_utc. cbn [nth_error].
  rewrite Hv, Hg. cbn. rewrite Hx. reflexivity.
Qed.

Lemma step_vwap_line stocks trades c n :
  step stocks trades "volume_weighted_price TEA" c n
  = try_except (dispatch stocks trades "volume_weighted_price" ["TEA"])
      (fun e => if is_ValueError_or_TypeError e then ret (Continue trades [OutError e])
                else raise e) c n.
Proof. reflexivity. Qed.

(** [volume_weighted_price] of a valid symbol raises what [vwap_at]
    raises at the clock reading. *)
Lemma dispatch_vwap_raise stocks trades sym st c n e :
  validate_symbol sym stocks = Ok tt -> dict_get stocks sym = Some st ->
  vwap_at (c n) st trades = Raise e ->
  dispatch stocks trades "volume_weighted_price" [sym] c n = (Raise e, S n).
Proof.
  intros Hv Hg Hx. unfold dispatch. cbn [String.eqb Ascii.eqb Bool.eqb].
  unfold lookup_symbol, calc_volume_weighted_price, bind, arg, lift, ret, now_utc. cbn [nth_error].
  rewrite Hv, Hg. cbn. rewrite Hx. reflexivity.
Qed.

(** A [buy] of TEA typed as two decimal numerals appends the trade its
    fields build. *)
Lemma step_buy_digits stocks trades d1 d2 c n tr :
  stocks0 = Ok stocks -> all_digits d1 = true -> d1 <> EmptyString -> all_digits d2 = true -> d2 <> EmptyString ->
  Trade_fields (c n) (Some TEA) (Some "buy") (PyStr d1) (PyStr d2) = Ok tr ->
  step stocks trades ("buy TEA " ++ d1 ++ " " ++ d2) c n
  = (Ok (Continue (append trades tr) [OutResult (VTrade tr)]), S n).
Proof.
  intros S A1 N1 A2 N2 Et. rewrite (proj1 stocks0_value_aux) in S. injection S as <-.
  unfold step, try_except.
  rewrite split_buy_line by (first [apply all_digits_no_space; assumption | assumption]).
  lazy -[Trade_fields append]. unfold TEA in Et. rewrite Et. reflexivity.
Qed.

(** The ledger of a run holds valid trades. *)
Lemma main_ledger_valid pre c t o s n :
  main pre c = (t, o, s, n) -> Forall (fun x => trade_valid x = true) t.
Proof.
  unfold main. destruct stocks0 as [stocks|e].
  - intros H. refine (proj1 (ledger_reach_inv_aux c n t _)). eapply run_reach; [apply reach_init | exact H].
  - intros H. inv H. constructor.
Qed.

(** ** Theorems *)

(** C31: Composition of the ledger and the metrics through the loop: a
    [buy] of [q] shares of TEA at [p], typed as decimal numerals with
    [p * q] at most 2^53 (so that Python's float products and quotients
    are exact), followed by [volume_weighted_price TEA] within the same
    instant, records the trade and prints exactly [p]. *)
Theorem main_buy_then_vwap (n m : nat) (t0 : Z) :
  (Z.of_nat (S n) * Z.of_nat (S m) <= 2 ^ 53)%Z ->
  exists tr o x,
    main ["buy TEA " ++ string_of_nat (S n) ++ " " ++ string_of_nat (S m); "volume_weighted_price TEA"]
         (clock_const t0)
    = ([tr], (o ++ [OutPrompt; OutResult (VFloat x); OutPrompt])%list, EOF_STOP, 2%nat)
    /\ x =f= of_Z (Z.of_nat (S m)).
Proof.
  intros Hb.
  destruct (numeral_small n ltac:(nia)) as (A1 & N1 & V1 & C1 & F1).
  destruct (numeral_small m ltac:(nia)) as (A2 & N2 & V2 & _ & F2). rewrite <- V2.
  destruct (main_buy_digits _ _ (clock_const t0) A1 N1 A2 N2 C1 F2 ltac:(lia) ltac:(lia))
    as (t & o & E & Hi & Hs & _ & Hq & Hp).
  apply (main_eof_app _ ["volume_weighted_price TEA"]) in E as (stocks & o' & S & -> & E).
  match goal with |- context [main [?a; ?b] _] => change [a; b] with (app [a] [b]) end.
  rewrite E.
  assert (Hv : validate_symbol "TEA" stocks = Ok tt) by (vm_compute in S; injection S as <-; reflexivity).
  assert (Hg : dict_get stocks "TEA" = Some TEA) by (vm_compute in S; injection S as <-; reflexivity).
  destruct (price t) as [q| | |] eqn:Ep; try contradiction Hp.
  destruct (vwap_at_one t0 TEA t q) as (x & Hx & Hxq); [| lia | rewrite Hq; exact F1 | exact Ep |].
  { unfold in_window. rewrite Hi, Hs. unfold clock_const, FIVE_MINUTES.
    apply andb_true_intro. split; [apply Z.ltb_lt; lia | reflexivity]. }
  cbn [run]. rewrite step_vwap_line. unfold try_except.
  rewrite (dispatch_vwap _ _ "TEA" TEA (clock_const t0) 1%nat x Hv Hg Hx). cbn [run].
  exists t, o', x. split; [now rewrite <- !app_assoc|]. rewrite Hxq. exact Hp.
Qed.

Lemma main_buy_then_vwap_witness :
  (Z.of_nat 100 * Z.of_nat 10 <= 2 ^ 53)%Z
  /\ exists tr o x,
    main ["buy TEA " ++ string_of_nat 100 ++ " " ++ string_of_nat 10; "volume_weighted_price TEA"]
         (clock_const 5%Z)
    = ([tr], (o ++ [OutPrompt; OutResult (VFloat x); OutPrompt])%list, EOF_STOP, 2%nat)
    /\ x =f= of_Z (Z.of_nat 10).
Proof.
  assert (H : (Z.of_nat 100 * Z.of_nat 10 <= 2 ^ 53)%Z) by (vm_compute; discriminate).
  exact (conj H (main_buy_then_vwap 99 9 5 H)).
Defined.

(** C19: At any point of a session, a [buy] of TEA whose quantity is an
    [int] too large for a float (10^309 or more: [int()] accepts up to
    4300 digits) is recorded, and a [volume_weighted_price TEA] in the
    same instant then stops the program with the [OverflowError] of
    [trade.price * trade.qty], which neither the metric nor the loop
    catches. *)
Theorem main_overflow_crash (pre : list string) (t0 : Z) (d : string) t o n :
  main pre (clock_const t0) = (t, o, EOF_STOP, n) ->
  all_digits d = true -> d <> EmptyString -> (digits_count d <= MAX_STR_DIGITS)%Z ->
  int_fits (digits_value d) = false ->
  exists tr o', main (pre ++ ["buy TEA " ++ d ++ " 1"; "volume_weighted_price TEA"]) (clock_const t0)
     = (append t tr, o', StopCrash (OverflowError "int too large to convert to float"), S (S n))
     /\ qty tr = digits_value d.
Proof.
  intros H A N C F.
  pose proof (main_ledger_valid _ _ _ _ _ _ H) as Hv.
  assert (Hpos : (0 < digits_value d)%Z).
  { pose proof (digits_value_nonneg d). apply not_true_iff_false in F. rewrite int_fits_iff in F.
    pose proof FLOAT_INT_BOUND_gt. assert (0 < 2 ^ 1023)%Z by (apply Z.pow_pos_nonneg; lia). lia. }
  destruct (Trade_fields_digits t0 TEA "buy" d "1" A N eq_refl ltac:(discriminate) C eq_refl Hpos
              ltac:(reflexivity) eq_refl) as (q & Et & Hq).
  set (tr := mkTrade t0 TEA true (digits_value d) (Fin q)) in *.
  apply (main_eof_app _ ["buy TEA " ++ d ++ " 1"; "volume_weighted_price TEA"]) in H
    as (stocks & o' & Hs0 & -> & E).
  rewrite E. cbn [run]. change (" 1") with (" " ++ "1").
  rewrite (step_buy_digits stocks t d "1" (clock_const t0) n tr Hs0 A N eq_refl ltac:(discriminate) Et).
  cbn [run]. rewrite step_vwap_line. unfold try_except.
  assert (Hvs : validate_symbol "TEA" stocks = Ok tt)
    by (rewrite (proj1 stocks0_value_aux) in Hs0; injection Hs0 as <-; reflexivity).
  assert (Hg : dict_get stocks "TEA" = Some TEA)
    by (rewrite (proj1 stocks0_value_aux) in Hs0; injection Hs0 as <-; reflexivity).
  assert (Hv' : Forall (fun x => trade_valid x = true) (append t tr)).
  { apply Forall_append; [exact Hv|]. unfold trade_valid. cbn [qty price tr].
    apply andb_true_intro. split; [apply Z.ltb_lt, Hpos|].
    apply negb_true_iff, fle_Fin_0_false. rewrite Hq. reflexivity. }
  assert (Hx : vwap_at (clock_const t0 (S n)) TEA (append t tr) = Raise (OverflowError INT_OVERFLOW_MSG)).
  { rewrite (vwap_at_cases _ TEA _ Hv'). cbv zeta.
    rewrite (window_overflows_In _ tr); [reflexivity| |exact F].
    unfold window. apply filter_In. split; [apply in_or_app; right; now left|].
    unfold in_window, clock_const, FIVE_MINUTES. cbn [instant stock symbol tr TEA].
    apply andb_true_intro. split; [apply Z.ltb_lt; lia | reflexivity]. }
  rewrite (dispatch_vwap_raise _ _ "TEA" TEA (clock_const t0) (S n) _ Hvs Hg Hx). cbn [run].
  exists tr. eexists. split; reflexivity.
Qed.

Lemma main_overflow_crash_witness :
  main [] (clock_const 0%Z) = ([], snd (fst (fst (main [] (clock_const 0%Z)))), EOF_STOP, 0%nat)
  /\ all_digits BIG_QTY = true /\ BIG_QTY <> EmptyString /\ (digits_count BIG_QTY <= MAX_STR_DIGITS)%Z
  /\ int_fits (digits_value BIG_QTY) = false
  /\ exists tr o', main ([] ++ ["buy TEA " ++ BIG_QTY ++ " 1"; "volume_weighted_price TEA"]) (clock_const 0%Z)
       = (append [] tr, o', StopCrash (OverflowError "int too large to convert to float"), 2%nat)
       /\ qty tr = digits_value BIG_QTY.
Proof.
  assert (H1 : main [] (clock_const 0%Z) = ([], snd (fst (fst (main [] (clock_const 0%Z)))), EOF_STOP, 0%nat))
    by (vm_compute; reflexivity).
  assert (H2 : all_digits BIG_QTY = true) by (vm_compute; reflexivity).
  assert (H3 : BIG_QTY <> EmptyString) by discriminate.
  assert (H4 : (digits_count BIG_QTY <= MAX_STR_DIGITS)%Z) by (vm_compute; discriminate).
  assert (H5 : int_fits (digits_value BIG_QTY) = false) by (vm_compute; reflexivity).
  exact (conj H1 (conj H2 (conj H3 (conj H4 (conj H5 (main_overflow_crash [] 0 BIG_QTY _ _ _ H1 H2 H3 H4 H5)))))).
Defined.

(** The lines that name an action and leave out an argument it reads. *)
Definition missing_args_lines : list string :=
  ["buy"; "sell"; "dividend_yield TEA"; "volume_weighted_price"].

Lemma step_missing_args stocks trades l c n :
  stocks0 = Ok stocks -> In l missing_args_lines ->
  step stocks trades l c n = (Raise (IndexError "list index out of range"), n).
Proof.
  intros S H. rewrite (proj1 stocks0_value_aux) in S. injection S as <-.
  repeat (destruct H as [<-|H]; [reflexivity|]). destruct H.
Qed.

(** C20: An action given without an argument it reads ([buy], [sell],
    [volume_weighted_price] alone, [dividend_yield TEA] without a price)
    stops the program with an [IndexError] that the handler does not
    catch, at any point of a session: after any input the program has
    read to its end, with the ledger unchanged and whatever lines would
    follow. *)
Theorem main_missing_args_crash (pre rest : list string) (c : clock) t o n :
  main pre c = (t, o, EOF_STOP, n) ->
  Forall (fun l => exists o', main (pre ++ l :: rest) c
                              = (t, o', StopCrash (IndexError "list index out of range"), n))
    missing_args_lines.
Proof.
  intros H. apply Forall_forall. intros l Hl.
  destruct (main_eof_app _ (l :: rest) _ _ _ _ H) as (stocks & o' & S & _ & ->).
  cbn [run]. rewrite (step_missing_args stocks) by assumption. eexists. reflexivity.
Qed.

Lemma main_missing_args_crash_witness :
  main ["buy TEA 5 2"] (clock_const 0%Z)
  = (fst (fst (fst (main ["buy TEA 5 2"] (clock_const 0%Z)))),
     snd (fst (fst (main ["buy TEA 5 2"] (clock_const 0%Z)))), EOF_STOP, 1%nat)
  /\ Forall (fun l => exists o', main (["buy TEA 5 2"] ++ l :: ["show_trades"]) (clock_const 0%Z)
        = (fst (fst (fst (main ["buy TEA 5 2"] (clock_const 0%Z)))), o',
           StopCrash (IndexError "list index out of range"), 1%nat))
    missing_args_lines.
Proof.
  assert (H : main ["buy TEA 5 2"] (clock_const 0%Z)
              = (fst (fst (fst (main ["buy TEA 5 2"] (clock_const 0%Z)))),
                 snd (fst (fst (main ["buy TEA 5 2"] (clock_const 0%Z)))), EOF_STOP, 1%nat))
    by (vm_compute; reflexivity).
  exact (conj H (main_missing_args_crash _ ["show_trades"] _ _ _ _ H)).
Defined.

(** C32: The [while True] loop terminates at the first [exit]: on an
    input stream whose line [i] is [exit], every run with more than [i]
    iterations of fuel returns, and returns what the program does on the
    finite input of lines [0] to [i]: the lines after the [exit] are
    never read. *)
Theorem main_interactive_stops_at_exit (inp : nat -> string) (c : clock) (i fuel : nat) :
  inp i = "exit" -> (i < fuel)%nat ->
  main_interactive fuel inp c = Some (main (lines_of inp 0 (S i)) c).
Proof.
  intros Hx Hf. unfold main_interactive, main. destruct stocks0; [|reflexivity].
  apply run_interactive_exit; assumption.
Qed.

Lemma main_interactive_stops_at_exit_witness :
  (fun k => if Nat.eqb k 2 then "exit" else "show_stocks") 2%nat = "exit" /\ (2 < 5)%nat
  /\ main_interactive 5 (fun k => if Nat.eqb k 2 then "exit" else "show_stocks") (clock_const 0%Z)
     = Some (main (lines_of (fun k => if Nat.eqb k 2 then "exit" else "show_stocks") 0 3) (clock_const 0%Z)).
Proof.
  assert (H1 : (fun k => if Nat.eqb k 2 then "exit" else "show_stocks") 2%nat = "exit") by reflexivity.
  assert (H2 : (2 < 5)%nat) by lia.
  exact (conj H1 (conj H2 (main_interactive_stops_at_exit _ _ _ _ H1 H2))).
Defined.

(** On a stream of [show_trades] the loop never stops: no fuel is enough. *)
Example show_trades_forever (fuel : nat) (c : clock) :
  main_interactive fuel (fun _ => "show_trades") c = None.
Proof.
  unfold main_interactive. destruct stocks0 as [stocks|e] eqn:S; [|vm_compute in S; discriminate].
  apply run_interactive_forever. intros k trades n. do 3 eexists. reflexivity.
Qed.
