(* ===== verification/Output.v ===== *)
(** What the program prints.

    [to_str] (line 12) renders an object as its class name and its
    [__slots__] with their values; [Stock.__str__] and [Trade.__str__]
    (lines 36-40, 62-66) are [to_str].  [print_help] (lines 125-128)
    prints one line per action with the docstring of its function,
    [pretty_print] (lines 136-142) prints the items of a collection or
    says there are none, [q] (lines 131-133) would print its farewell.
    [render] turns each [output] event the command loop records into the
    text it writes, and [stdout] is the whole text of a run.

    The digits of a finite float ([repr] of a [float], shortest round
    trip through binary64) and of the real the geometric mean returns are
    not modelled: they are the parameters [repr_fin] and [repr_real] of
    the section, and everything proved holds for any of them.  Docstrings
    are those of Python 3.12, which keeps their indentation. *)

From Stdlib Require Import ZArith QArith Reals String Ascii List Bool Lia.
From S2P Require Import Prelude PyFloat PyBuiltins DateTime Stock Trade Metrics Gbce Main Events.
Import ListNotations.

Local Open Scope string_scope.
Local Open Scope Z_scope.

(** ** [str()] of the values of the program *)

Definition nl : string := String (ascii_of_nat 10) EmptyString.

(** [str(int)]. *)
Definition str_int (z : Z) : string :=
  match z with
  | Zneg p => "-" ++ string_of_nat (Pos.to_nat p)
  | _ => string_of_nat (Z.to_nat z)
  end.

(** [str(bool)]. *)
Definition str_bool (b : bool) : string := if b then "True" else "False".

(** [(", ").join(l)]. *)
Definition join (sep : string) (l : list string) : string := String.concat sep l.

(** [to_str(instance)]: the class name, then [slot: value] for each slot
    in the order of [__slots__]. *)
Definition to_str (cls : string) (slots : list (string * string)) : string :=
  cls ++ "(" ++ join ", " (map (fun kv => fst kv ++ ": " ++ snd kv) slots) ++ ")".

(** The docstrings of the functions of the table [actions]. *)
Definition DOC_BUY : string :=
  "Creates a buy trade against the provided stock for the given quantity and price." ++ nl
  ++ "    For example to buy 5 tea at a price of 1.2 per share, type: buy TEA 5 1.2".
Definition DOC_SELL : string := "Similar to buy command, but it creates a sell trade instead".
Definition DOC_DIV_YIELD : string :=
  "Calculates dividend yield for the given stock and price. Example: dividend_yield POP 2".
Definition DOC_RATIO : string := "NOT YET IMPLEMENTED".
Definition DOC_VWAP : string :=
  "Calculates the volume weighted stock price for the given stock based on" ++ nl
  ++ "    trading activity in the past 5 minutes. Example: volume_weighted_price ALE".
Definition DOC_GBCE : string := "Calculates the GBCE all share index for all stocks with trading activity".
Definition DOC_HELP : string := "Prints help".
Definition DOC_Q : string := "Quits the program".

(** [fn.__doc__]: [pretty_print] has none. *)
Definition doc (f : pyfn) : option string :=
  match f with
  | FPrintHelp => Some DOC_HELP
  | FCalcDivYield => Some DOC_DIV_YIELD
  | FCalcRatio => Some DOC_RATIO
  | FBuy => Some DOC_BUY
  | FSell => Some DOC_SELL
  | FCalcVolumeWeightedPrice => Some DOC_VWAP
  | FGbce => Some DOC_GBCE
  | FPrettyPrint => None
  | FQ => Some DOC_Q
  end.

(** [print_help()]: the strings it prints. *)
Definition print_help : list string :=
  map (fun kv => fst kv ++ ": " ++ match doc (snd kv) with Some d => d | None => "No help available" end)
      action_table.

(** [q()]: what it would print; the loop [break]s before calling it. *)
Definition q : list string := ["Exiting ..."].

(** [pretty_print(iterable)] with its counter: the strings it prints. *)
Definition pretty_print {A} (show : A -> string) (items : list A) : list string :=
  let '(count, printed) :=
    fold_left (fun acc item => (S (fst acc), (snd acc ++ [show item])%list)) items (0%nat, []) in
  if Nat.eqb count 0 then (printed ++ ["No items to show!"])%list else printed.

(** ** Rendering, for any digits of floats *)

Section Render.

(** [repr] of a finite float and of the float the geometric mean returns. *)
Variable repr_fin : Q -> string.
Variable repr_real : R -> string.

(** [str(float)]: the non-finite values are spelled by Python itself. *)
Definition str_float (x : float) : string :=
  match x with
  | Fin q => repr_fin q
  | PInf => "inf"
  | NInf => "-inf"
  | NaN => "nan"
  end.

Definition str_xreal (x : xreal) : string :=
  match x with
  | XR r => repr_real r
  | XPInf => "inf"
  | XNInf => "-inf"
  | XNaN => "nan"
  end.

Definition str_pyval (v : pyval) : string :=
  match v with
  | PyNone => "None"
  | PyInt z => str_int z
  | PyFloat x => str_float x
  | PyStr s => s
  end.

(** [Stock.__str__]. *)
Definition str_Stock (st : Stock) : string :=
  to_str "Stock" [("symbol", symbol st); ("typ", typ st); ("last_div", str_int (last_div st));
                  ("fixed_div", str_pyval (fixed_div st)); ("par_value", str_int (par_value st))].

(** [Trade.__str__]. *)
Definition str_Trade (t : Trade) : string :=
  to_str "Trade" [("instant", str_datetime (instant t)); ("stock", str_Stock (stock t));
                  ("is_buy", str_bool (is_buy t)); ("qty", str_int (qty t));
                  ("price", str_float (price t))].

(** [f'{result}'] for what a command returns. *)
Definition str_value (v : value) : string :=
  match v with
  | VNone => "None"
  | VInt z => str_int z
  | VFloat x => str_float x
  | VIndex x => str_xreal x
  | VTrade t => str_Trade t
  end.

(** [print(s)] writes [s] and a newline. *)
Definition print (s : string) : string := s ++ nl.

(** The prompt [input()] writes before reading a line (line 188). *)
Definition PROMPT : string := "What would you like to do?" ++ nl.

(** The text an event of the loop writes. *)
Definition render (o : output) : list string :=
  match o with
  | OutLine s => [print s]
  | OutPrompt => [PROMPT]
  | OutResult v => [print ("Result: " ++ str_value v)]
  | OutError e => [print (exn_str e)]
  | OutInvalidAction => [print ("Invalid action! choose from: [" ++ join_repr actions ++ "]")]
  | OutHelp => map print print_help
  | OutTrades l => map print (pretty_print str_Trade l)
  | OutStocks l => map print (pretty_print str_Stock l)
  end.

(** Everything the program writes to standard output. *)
Definition stdout (lines : list string) (c : clock) : string :=
  String.concat "" (flat_map render (snd (fst (fst (main lines c))))).

End Render.

(** ** Theorems *)

(** The loop of [pretty_print] after [k] items, with [p] printed. *)
Lemma pretty_print_fold {A} (show : A -> string) (items : list A) (k : nat) (p : list string) :
  fold_left (fun acc item => (S (fst acc), (snd acc ++ [show item])%list)) items (k, p)
  = ((k + length items)%nat, (p ++ map show items)%list).
Proof.
  revert k p. induction items as [|x items IH]; intros k p; simpl.
  - now rewrite Nat.add_0_r, app_nil_r.
  - rewrite IH, <- app_assoc. f_equal. lia.
Qed.

(** C29: [pretty_print] with its counter prints what the explicit
    definition says: the string of each item in order, or the single
    line "No items to show!" when there is none. *)
Theorem pretty_print_spec {A} (show : A -> string) (items : list A) :
  pretty_print show items
  = match items with [] => ["No items to show!"] | _ => map show items end.
Proof.
  unfold pretty_print. rewrite pretty_print_fold. destruct items; reflexivity.
Qed.

(** [String.concat ""] of two lists. *)
Lemma concat_empty_app (l m : list string) :
  String.concat "" (l ++ m) = String.concat "" l ++ String.concat "" m.
Proof.
  destruct m as [|z m]; [rewrite app_nil_r; symmetry; apply string_app_nil_r|].
  induction l as [|x l IH]; [reflexivity|].
  change ((x :: l) ++ z :: m)%list with (x :: (l ++ z :: m))%list.
  destruct l as [|y l]; [reflexivity|].
  change (String.concat "" (x :: ((y :: l) ++ z :: m)%list)) with (x ++ String.concat "" ((y :: l) ++ z :: m)%list).
  rewrite IH. change (String.concat "" (x :: y :: l)) with (x ++ String.concat "" (y :: l)).
  now rewrite string_app_assoc.
Qed.

(** The text [help] writes after its prompt: one line per action with the
    docstring of its function, and its result [None]. *)
Definition HELP_TEXT : string :=
"help: Prints help
dividend_yield: Calculates dividend yield for the given stock and price. Example: dividend_yield POP 2
p_to_e_ratio: NOT YET IMPLEMENTED
buy: Creates a buy trade against the provided stock for the given quantity and price.
    For example to buy 5 tea at a price of 1.2 per share, type: buy TEA 5 1.2
sell: Similar to buy command, but it creates a sell trade instead
volume_weighted_price: Calculates the volume weighted stock price for the given stock based on
    trading activity in the past 5 minutes. Example: volume_weighted_price ALE
gbce: Calculates the GBCE all share index for all stocks with trading activity
show_trades: No help available
show_stocks: No help available
exit: Quits the program
quit: Quits the program
Result: None
What would you like to do?
".

(** C30: At any point of a session, [help] writes the help of every
    action, in the order of [actions], each with the docstring of its
    function as Python 3.12 keeps it (indented continuation lines, "No
    help available" for [pretty_print], which has none), then "Result:
    None" and the next prompt; and it changes nothing else.  Only the
    digits of floats are left to Python's [repr]. *)
Theorem help_text_anywhere (repr_fin : Q -> string) (repr_real : R -> string) (pre : list string)
  (c : clock) t o n :
  main pre c = (t, o, EOF_STOP, n) ->
  stdout repr_fin repr_real (pre ++ ["help"]) c = stdout repr_fin repr_real pre c ++ HELP_TEXT.
Proof.
  unfold stdout, main. destruct stocks0 as [stocks|e] eqn:S; [|vm_compute in S; discriminate].
  intros H. rewrite H. apply (run_eof_app _ _ ["help"]) in H as (o' & -> & ->); [|apply reach_init].
  cbn [run]. change (step stocks t "help" c n) with (Ok (Continue t [OutHelp; OutResult VNone]), n).
  cbn [run fst snd]. rewrite !flat_map_app, !concat_empty_app, !string_app_assoc. f_equal.
Qed.

Lemma help_text_anywhere_witness :
  main ["buy TEA 5 2"] (clock_const 0%Z)
  = (fst (fst (fst (main ["buy TEA 5 2"] (clock_const 0%Z)))),
     snd (fst (fst (main ["buy TEA 5 2"] (clock_const 0%Z)))), EOF_STOP, 1%nat)
  /\ stdout (fun _ => "2.0") (fun _ => "") (["buy TEA 5 2"] ++ ["help"]) (clock_const 0%Z)
     = stdout (fun _ => "2.0") (fun _ => "") ["buy TEA 5 2"] (clock_const 0%Z) ++ HELP_TEXT.
Proof.
  assert (H : main ["buy TEA 5 2"] (clock_const 0%Z)
              = (fst (fst (fst (main ["buy TEA 5 2"] (clock_const 0%Z)))),
                 snd (fst (fst (main ["buy TEA 5 2"] (clock_const 0%Z)))), EOF_STOP, 1%nat))
    by (vm_compute; reflexivity).
  exact (conj H (help_text_anywhere _ _ _ _ _ _ _ H)).
Defined.

(** A session, as the text it writes: the banner with the catalogue and
    the help of every action, then after each prompt: an empty ledger,
    the trade [buy TEA 5 1.2] records at the clock's instant, the ledger
    with that trade, the result of [p_to_e_ratio], the [TypeError] of
    [help] given an argument, the invalid-action message, and nothing for
    [exit]: the farewell of [q] is never printed. *)
Example stdout_session (repr_fin : Q -> string) (repr_real : R -> string) :
  stdout repr_fin repr_real
    ["show_trades"; "buy TEA 5 1.2"; "show_trades"; "p_to_e_ratio"; "help me"; "bogus"; "exit"]
    (clock_const 1700000000123456%Z)
  = "Basic trading app simulator
####################
Available stocks are:
Stock(symbol: TEA, typ: common, last_div: 0, fixed_div: None, par_value: 100)
Stock(symbol: POP, typ: common, last_div: 8, fixed_div: None, par_value: 100)
Stock(symbol: ALE, typ: common, last_div: 23, fixed_div: None, par_value: 60)
Stock(symbol: GIN, typ: preferred, last_div: 8, fixed_div: 2, par_value: 100)
Stock(symbol: JOE, typ: common, last_div: 13, fixed_div: None, par_value: 250)
####################
Available actions are:
help: Prints help
dividend_yield: Calculates dividend yield for the given stock and price. Example: dividend_yield POP 2
p_to_e_ratio: NOT YET IMPLEMENTED
buy: Creates a buy trade against the provided stock for the given quantity and price.
    For example to buy 5 tea at a price of 1.2 per share, type: buy TEA 5 1.2
sell: Similar to buy command, but it creates a sell trade instead
volume_weighted_price: Calculates the volume weighted stock price for the given stock based on
    trading activity in the past 5 minutes. Example: volume_weighted_price ALE
gbce: Calculates the GBCE all share index for all stocks with trading activity
show_trades: No help available
show_stocks: No help available
exit: Quits the program
quit: Quits the program
####################
What would you like to do?
No items to show!
What would you like to do?
Result: Trade(instant: 2023-11-14 22:13:20.123456+00:00, stock: Stock(symbol: TEA, typ: common, last_div: 0, fixed_div: None, par_value: 100), is_buy: True, qty: 5, price: " ++ repr_fin (12 # 10) ++ ")
What would you like to do?
Trade(instant: 2023-11-14 22:13:20.123456+00:00, stock: Stock(symbol: TEA, typ: common, last_div: 0, fixed_div: None, par_value: 100), is_buy: True, qty: 5, price: " ++ repr_fin (12 # 10) ++ ")
What would you like to do?
Result: 0
What would you like to do?
print_help() takes 0 positional arguments but 1 was given
What would you like to do?
Invalid action! choose from: ['help', 'dividend_yield', 'p_to_e_ratio', 'buy', 'sell', 'volume_weighted_price', 'gbce', 'show_trades', 'show_stocks', 'exit', 'quit']
What would you like to do?
".
Proof.
  vm_compute. rewrite ?string_app_assoc. vm_compute. reflexivity.
Qed.
